(** * NEON dissolved-gas calculators: a shallow embedding

    The Python sources [def_format_sdg.py], [def_calc_sdg_conc.py] and
    [def_calc_sdg_sat.py] work on pandas tables whose numeric cells are
    IEEE-754 binary64 values and whose missing cells are NaN.  The
    embedding keeps both: numbers are Rocq's primitive [float]s, a table
    is an ordered list of named columns, and a Python exception is the
    [Raise] result of a small error monad.

    Part I holds the definitions (the data model and the three
    functions, transcribed statement by statement), Part II the lemmas
    and the theorems about them. *)

From Stdlib Require Import ZArith Floats Lia.
From stdpp Require Import base tactics option list strings.

Set Default Proof Using "Type".
#[local] Set Warnings "-inexact-float".

(** * Part I: definitions *)

(** ** Python exceptions and results *)

Inductive exn : Type :=
  | KeyError (key : string)
  | AttributeError (attr : string)
  | IndexError
  | TypeError
  | ValueError.

Inductive result (A : Type) : Type :=
  | Ok (a : A)
  | Raise (e : exn).
Arguments Ok {A} a.
Arguments Raise {A} e.

#[global] Instance result_ret : MRet result := λ A, Ok.
#[global] Instance result_bind : MBind result := λ A B f m,
  match m with Ok a => f a | Raise e => Raise e end.
#[global] Instance result_fmap : FMap result := λ A B f m,
  match m with Ok a => Ok (f a) | Raise e => Raise e end.

(** What the embedding takes from outside the repository: the scalar
    exponential that [np.exp] applies to every element, and Python's
    [float(s)] on a string ([None] when it raises [ValueError]). *)
Class PyEnv : Type := {
  libm_exp : float → float;
  py_float : string → option float
}.

(** ** Cells, columns and tables *)

(** A cell holds a number or a string; a missing cell is the number NaN
    (integers such as the 0/1 flags are the floats of the same value). *)
Inductive cell : Type :=
  | Num (x : float)
  | Str (s : string).

Abbreviation Series := (list cell).

Definition NaN : cell := Num nan.

(** [pd.isna] on one cell. *)
Definition isna (c : cell) : bool :=
  match c with Num x => is_nan x | Str _ => false end.

(** A table: its number of rows (the index is 0..nrows-1) and its
    columns in order. *)
Record DataFrame : Type := mkDataFrame {
  nrows : nat;
  columns : list (string * Series)
}.

Fixpoint col_get (name : string) (cs : list (string * Series)) : option Series :=
  match cs with
  | [] => None
  | (n, s) :: cs => if String.eqb n name then Some s else col_get name cs
  end.

(** Assignment to a column: in place when the name exists, appended as
    the last column otherwise. *)
Fixpoint col_set (name : string) (s : Series) (cs : list (string * Series))
    : list (string * Series) :=
  match cs with
  | [] => [(name, s)]
  | (n, s') :: cs =>
      if String.eqb n name then (n, s) :: cs else (n, s') :: col_set name s cs
  end.

(** [df.loc[:, name]] and [df[name]]. *)
Definition loc (df : DataFrame) (name : string) : result Series :=
  match col_get name (columns df) with
  | Some s => Ok s
  | None => Raise (KeyError name)
  end.

(** [df.name] *)
Definition getattr (df : DataFrame) (name : string) : result Series :=
  match col_get name (columns df) with
  | Some s => Ok s
  | None => Raise (AttributeError name)
  end.

(** [df[name] = s] and [df.loc[:, name] = s] for a column [s] on the
    table's own index. *)
Definition setitem (df : DataFrame) (name : string) (s : Series) : DataFrame :=
  {| nrows := nrows df; columns := col_set name s (columns df) |}.

(** Every column has one cell per row. *)
Definition wf (df : DataFrame) : Prop :=
  Forall (λ c, length c.2 = nrows df) (columns df).

(** [s.replace(nan, v)] *)
Definition replace_nan (v : float) (s : Series) : Series :=
  (λ c, if isna c then Num v else c) <$> s.

(** [s.astype(float)] *)
Definition astype_float `{PyEnv} (s : Series) : result Series :=
  mapM (λ c, match c with
             | Num x => Ok (Num x)
             | Str t => match py_float t with
                        | Some x => Ok (Num x)
                        | None => Raise ValueError
                        end
             end) s.

(** ** Values of arithmetic expressions *)

(** A Python float or a float64 column; arithmetic broadcasts a scalar
    over a column and pairs two columns of one table row by row. *)
Inductive value : Type :=
  | Scalar (x : float)
  | FloatSeries (xs : list float).

Definition binop (f : float → float → float) (a b : value) : value :=
  match a, b with
  | Scalar x, Scalar y => Scalar (f x y)
  | Scalar x, FloatSeries ys => FloatSeries (f x <$> ys)
  | FloatSeries xs, Scalar y => FloatSeries ((λ x, f x y) <$> xs)
  | FloatSeries xs, FloatSeries ys => FloatSeries (zip_with f xs ys)
  end.

Definition unop (f : float → float) (a : value) : value :=
  match a with
  | Scalar x => Scalar (f x)
  | FloatSeries xs => FloatSeries (f <$> xs)
  end.

(** An expression either has a value or has raised. *)
Definition pyexpr : Type := result value.

Definition lit (x : float) : pyexpr := Ok (Scalar x).
Coercion lit : float >-> pyexpr.

Definition arith (f : float → float → float) (a b : pyexpr) : pyexpr :=
  x ← a; y ← b; Ok (binop f x y).

(** A column as an operand of arithmetic: float arithmetic on a column
    that holds a string raises [TypeError].  (Python raises it at the
    first operation that touches the column, the embedding when the
    column is read; the two differ only in which of several exceptions
    is seen first.) *)
Definition operand (s : result Series) : pyexpr :=
  c ← s;
  FloatSeries <$> mapM (λ c, match c with
                             | Num x => Ok x
                             | Str _ => Raise TypeError
                             end) c.

Definition np_exp `{PyEnv} (a : pyexpr) : pyexpr := unop libm_exp <$> a.

Declare Scope py_scope.
Delimit Scope py_scope with py.
Bind Scope py_scope with pyexpr.
Notation "a + b" := (arith PrimFloat.add a b) : py_scope.
Notation "a - b" := (arith PrimFloat.sub a b) : py_scope.
Notation "a * b" := (arith PrimFloat.mul a b) : py_scope.
Notation "a / b" := (arith PrimFloat.div a b) : py_scope.

(** [df[name] = v] for the value of an expression: a scalar fills the
    column. *)
Definition value_cells (n : nat) (v : value) : Series :=
  match v with
  | Scalar x => replicate n (Num x)
  | FloatSeries xs => Num <$> xs
  end.

Definition setitem_value (df : DataFrame) (name : string) (v : value) : DataFrame :=
  setitem df name (value_cells (nrows df) v).

(** The float view of a column (when every cell is a number) and of one
    of its cells; the theorems read tables through these. *)
Definition float_column (df : DataFrame) (name : string) : option (list float) :=
  match operand (loc df name) with
  | Ok (FloatSeries xs) => Some xs
  | _ => None
  end.

Definition fcell (df : DataFrame) (name : string) (i : nat) : option float :=
  xs ← float_column df name; xs !! i.

Definition cell_at (df : DataFrame) (name : string) (i : nat) : option cell :=
  s ← col_get name (columns df); s !! i.

(** ** [def_calc_sdg_conc.py] *)

(** The constants of lines 89-101 (the two calculators repeat them). *)
Definition cGas : float := 8.3144598.
Definition cKelvin : float := 273.15.
Definition cPresConv : float := 0.000001.
Definition cT0 : float := 298.15.
Definition ckHCO2 : float := 0.00033.
Definition ckHCH4 : float := 0.000014.
Definition ckHN2O : float := 0.00024.
Definition cdHdTCO2 : float := 2400.
Definition cdHdTCH4 : float := 1900.
Definition cdHdTN2O : float := 2700.
Definition cConcPerc : float := 100.

Section Calculators.
Context `{PyEnv}.
Open Scope py_scope.

(** [inputFile] is the table itself: reading it from a file path
    (lines 86-87) is left to the caller.  The Python function mutates
    its argument; each [let inputFile := ...] is the table after the
    statement. *)
Definition def_calc_sdg_conc (inputFile : DataFrame)
    (volGas volH2O baro waterTemp headspaceTemp
     eqCO2 sourceCO2 eqCH4 sourceCH4 eqN2O sourceN2O : string)
    : result DataFrame :=
  (* lines 105-109 *)
  s ← loc inputFile sourceCO2;
  let inputFile := setitem inputFile sourceCO2 (replace_nan 405 s) in
  s ← loc inputFile sourceCH4;
  let inputFile := setitem inputFile sourceCH4 (replace_nan 1.85 s) in
  s ← loc inputFile sourceN2O;
  let inputFile := setitem inputFile sourceN2O (replace_nan 0.330 s) in
  (* lines 112-115 *)
  let inputFile := setitem_value inputFile "dissolvedCO2" (Scalar nan) in
  v ← operand (loc inputFile baro) * cPresConv *
        (operand (loc inputFile volGas) *
           (operand (loc inputFile eqCO2) - operand (loc inputFile sourceCO2)) /
           (cGas * (operand (loc inputFile headspaceTemp) + cKelvin) *
              operand (loc inputFile volH2O)) +
         ckHCO2 *
           np_exp (cdHdTCO2 *
                     (1%float / (operand (loc inputFile headspaceTemp) + cKelvin) -
                      1%float / cT0)) *
           operand (loc inputFile eqCO2));
  let inputFile := setitem_value inputFile "dissolvedCO2" v in
  (* lines 117-120 *)
  let inputFile := setitem_value inputFile "dissolvedCH4" (Scalar nan) in
  v ← operand (loc inputFile baro) * cPresConv *
        (operand (loc inputFile volGas) *
           (operand (loc inputFile eqCH4) - operand (loc inputFile sourceCH4)) /
           (cGas * (operand (loc inputFile headspaceTemp) + cKelvin) *
              operand (loc inputFile volH2O)) +
         ckHCH4 *
           np_exp (cdHdTCH4 *
                     (1%float / (operand (loc inputFile headspaceTemp) + cKelvin) -
                      1%float / cT0)) *
           operand (loc inputFile eqCH4));
  let inputFile := setitem_value inputFile "dissolvedCH4" v in
  (* lines 122-125 *)
  let inputFile := setitem_value inputFile "dissolvedN2O" (Scalar nan) in
  v ← operand (loc inputFile baro) * cPresConv *
        (operand (loc inputFile volGas) *
           (operand (loc inputFile eqN2O) - operand (loc inputFile sourceN2O)) /
           (cGas * (operand (loc inputFile headspaceTemp) + cKelvin) *
              operand (loc inputFile volH2O)) +
         ckHN2O *
           np_exp (cdHdTN2O *
                     (1%float / (operand (loc inputFile headspaceTemp) + cKelvin) -
                      1%float / cT0)) *
           operand (loc inputFile eqN2O));
  let inputFile := setitem_value inputFile "dissolvedN2O" v in
  (* lines 127-128: the two names are literals, not [volGas]/[volH2O] *)
  s ← getattr inputFile "gasVolume";
  s ← astype_float s;
  let inputFile := setitem inputFile "gasVolume" s in
  s ← getattr inputFile "waterVolume";
  s ← astype_float s;
  let inputFile := setitem inputFile "waterVolume" s in
  Ok inputFile.

(** ** [def_calc_sdg_sat.py] *)

Definition def_calc_sdg_sat (inputFile : DataFrame)
    (baro waterTemp headspaceTemp
     concCO2 sourceCO2 concCH4 sourceCH4 concN2O sourceN2O : string)
    : result DataFrame :=
  (* lines 92-96 *)
  s ← loc inputFile sourceCO2;
  let inputFile := setitem inputFile sourceCO2 (replace_nan 405 s) in
  s ← loc inputFile sourceCH4;
  let inputFile := setitem inputFile sourceCH4 (replace_nan 1.85 s) in
  s ← loc inputFile sourceN2O;
  let inputFile := setitem inputFile sourceN2O (replace_nan 0.330 s) in
  (* lines 102-107 *)
  let inputFile := setitem_value inputFile "satConcCO2" (Scalar nan) in
  v ← (ckHCO2 * np_exp (cdHdTCO2 *
                          (1%float / (operand (loc inputFile waterTemp) + cKelvin) -
                           1%float / cT0))) *
       operand (loc inputFile sourceCO2) * operand (loc inputFile baro) * cPresConv;
  let inputFile := setitem_value inputFile "satConcCO2" v in
  let inputFile := setitem_value inputFile "satConcCH4" (Scalar nan) in
  v ← (ckHCH4 * np_exp (cdHdTCH4 *
                          (1%float / (operand (loc inputFile waterTemp) + cKelvin) -
                           1%float / cT0))) *
       operand (loc inputFile sourceCH4) * operand (loc inputFile baro) * cPresConv;
  let inputFile := setitem_value inputFile "satConcCH4" v in
  let inputFile := setitem_value inputFile "satConcN2O" (Scalar nan) in
  v ← (ckHN2O * np_exp (cdHdTN2O *
                          (1%float / (operand (loc inputFile waterTemp) + cKelvin) -
                           1%float / cT0))) *
       operand (loc inputFile sourceN2O) * operand (loc inputFile baro) * cPresConv;
  let inputFile := setitem_value inputFile "satConcN2O" v in
  (* lines 111-113 *)
  v ← operand (loc inputFile concCO2) / operand (loc inputFile "satConcCO2") * cConcPerc;
  let inputFile := setitem_value inputFile "CO2PercSat" v in
  v ← operand (loc inputFile concCH4) / operand (loc inputFile "satConcCH4") * cConcPerc;
  let inputFile := setitem_value inputFile "CH4PercSat" v in
  v ← operand (loc inputFile concN2O) / operand (loc inputFile "satConcN2O") * cConcPerc;
  let inputFile := setitem_value inputFile "N2OPercSat" v in
  Ok inputFile.

Close Scope py_scope.
End Calculators.

(** The calls with every column name left at its default. *)
Definition calc_sdg_conc `{PyEnv} (inputFile : DataFrame) : result DataFrame :=
  def_calc_sdg_conc inputFile "gasVolume" "waterVolume" "barometricPressure"
    "waterTemp" "headspaceTemp" "concentrationCO2Gas" "concentrationCO2Air"
    "concentrationCH4Gas" "concentrationCH4Air" "concentrationN2OGas"
    "concentrationN2OAir".

Definition calc_sdg_sat `{PyEnv} (inputFile : DataFrame) : result DataFrame :=
  def_calc_sdg_sat inputFile "barometricPressure" "waterTemp" "headspaceTemp"
    "dissolvedCO2" "concentrationCO2Air" "dissolvedCH4" "concentrationCH4Air"
    "dissolvedN2O" "concentrationN2OAir".

(** ** [def_format_sdg.py] *)

(** What [isna] returns: a Python [bool] for one cell, a column of
    booleans for a column.  [o is True] holds of the object [True]
    alone. *)
Inductive pyobj : Type :=
  | PyBool (b : bool)
  | PyBoolSeries (bs : list bool).

Definition is_True (o : pyobj) : bool :=
  match o with PyBool true => true | _ => false end.

Definition pd_isna (c : cell) : pyobj := PyBool (isna c).

Definition Series_isna (s : Series) : pyobj := PyBoolSeries (isna <$> s).

(** [a == b] on cells: IEEE equality on numbers (NaN equals nothing),
    string equality on strings, [False] across the two. *)
Definition cell_eqb (a b : cell) : bool :=
  match a, b with
  | Num x, Num y => (x =? y)%float
  | Str s, Str t => String.eqb s t
  | _, _ => false
  end.

(** [s[mask]]: the cells of [s] where the mask holds. *)
Fixpoint mask_select (mask : list bool) (s : Series) : Series :=
  match mask, s with
  | b :: mask, c :: s => if b then c :: mask_select mask s else mask_select mask s
  | _, _ => []
  end.

(** [s.item()]: the only cell of a one-cell column. *)
Definition item (s : Series) : result cell :=
  match s with
  | [c] => Ok c
  | _ => Raise ValueError
  end.

(** [tbl.loc[tbl.loc[:, key_col] == key, val_col].item()] *)
Definition item_where (tbl : DataFrame) (key_col : string) (key : cell)
    (val_col : string) : result cell :=
  ids ← loc tbl key_col;
  vals ← loc tbl val_col;
  item (mask_select ((λ c, cell_eqb c key) <$> ids) vals).

(** [df.loc[df.index[[l]], name].item()] and [df[name][l]] *)
Definition at_row (df : DataFrame) (name : string) (l : nat) : result cell :=
  s ← loc df name;
  match s !! l with
  | Some c => Ok c
  | None => Raise IndexError
  end.

(** [df.loc[df.index[[l]], name] = v] *)
Definition set_at (df : DataFrame) (name : string) (l : nat) (v : cell) : DataFrame :=
  match col_get name (columns df) with
  | Some s => setitem df name (<[l := v]> s)
  | None => setitem df name (<[l := v]> (replicate (nrows df) NaN))
  end.

(** [try: st1; st2; ... except Exception: pass]: the statements run in
    turn until one raises; what the earlier ones assigned stays. *)
Fixpoint try_pass (stmts : list (DataFrame → result DataFrame)) (df : DataFrame)
    : DataFrame :=
  match stmts with
  | [] => df
  | st :: stmts =>
      match st df with
      | Ok df => try_pass stmts df
      | Raise _ => df
      end
  end.

(** [for i in range(n): df = body(i, df)], a raise ending the loop. *)
Definition for_range (n : nat) (body : nat → DataFrame → result DataFrame)
    (df : DataFrame) : result DataFrame :=
  foldl (λ acc i, df ← acc; body i df) (Ok df) (seq 0 n).

(** Lines 47-48. *)
Definition volH2O_default : float := 40.
Definition volGas_default : float := 20.

(** Lines 79-102. *)
Definition outputDFNames : list string :=
  [ "waterSampleID"; "referenceAirSampleID"; "equilibratedAirSampleID";
    "collectDate"; "processedDate"; "stationID"; "barometricPressure";
    "headspaceTemp"; "waterTemp"; "concentrationCO2Air"; "concentrationCO2Gas";
    "concentrationCH4Air"; "concentrationCH4Gas"; "concentrationN2OAir";
    "concentrationN2OGas"; "waterVolume"; "gasVolume"; "volH2OSource";
    "volGasSource" ].

(** Lines 104-105: a table of [n] rows with the output columns, every
    cell missing. *)
Definition empty_output (n : nat) : DataFrame :=
  {| nrows := n; columns := (λ name, (name, replicate n NaN)) <$> outputDFNames |}.

Section Formatter.
Context `{PyEnv}.

(** One pass of the loop of lines 120-138. *)
Definition lab_row (externalLabData : DataFrame) (l : nat) (outputDF : DataFrame)
    : DataFrame :=
  let outputDF := try_pass
    [ (λ outputDF,
        key ← at_row outputDF "referenceAirSampleID" l;
        v ← item_where externalLabData "sampleID" key "concentrationCO2";
        Ok (set_at outputDF "concentrationCO2Air" l v));
      (λ outputDF,
        key ← at_row outputDF "equilibratedAirSampleID" l;
        v ← item_where externalLabData "sampleID" key "concentrationCO2";
        Ok (set_at outputDF "concentrationCO2Gas" l v)) ] outputDF in
  let outputDF := try_pass
    [ (λ outputDF,
        key ← at_row outputDF "referenceAirSampleID" l;
        v ← item_where externalLabData "sampleID" key "concentrationCH4";
        Ok (set_at outputDF "concentrationCH4Air" l v));
      (λ outputDF,
        key ← at_row outputDF "equilibratedAirSampleID" l;
        v ← item_where externalLabData "sampleID" key "concentrationCH4";
        Ok (set_at outputDF "concentrationCH4Gas" l v)) ] outputDF in
  let outputDF := try_pass
    [ (λ outputDF,
        key ← at_row outputDF "referenceAirSampleID" l;
        v ← item_where externalLabData "sampleID" key "concentrationN2O";
        Ok (set_at outputDF "concentrationN2OAir" l v));
      (λ outputDF,
        key ← at_row outputDF "equilibratedAirSampleID" l;
        v ← item_where externalLabData "sampleID" key "concentrationN2O";
        Ok (set_at outputDF "concentrationN2OGas" l v)) ] outputDF in
  outputDF.

(** One pass of the loop of lines 141-150. *)
Definition temp_row (fieldSuperParent : DataFrame) (m : nat) (outputDF : DataFrame)
    : result DataFrame :=
  let outputDF := try_pass
    [ (λ outputDF,
        key ← at_row outputDF "waterSampleID" m;
        v ← item_where fieldSuperParent "parentSampleID" key "waterTemp";
        Ok (set_at outputDF "waterTemp" m v)) ] outputDF in
  c ← at_row outputDF "headspaceTemp" m;
  if is_True (pd_isna c) then
    Ok (try_pass
      [ (λ outputDF,
          key ← at_row outputDF "waterSampleID" m;
          v ← item_where fieldSuperParent "parentSampleID" key "waterTemp";
          Ok (set_at outputDF "headspaceTemp" m v)) ] outputDF)
  else Ok outputDF.

(** The function from line 62 on, given the three stacked tables
    (lines 50-60 load them from [data_dir]). *)
Definition def_format_sdg (externalLabData fieldDataProc fieldSuperParent : DataFrame)
    : result DataFrame :=
  (* lines 63-66 *)
  s ← loc fieldDataProc "waterVolumeSyringe";
  let fieldDataProc :=
    if is_True (Series_isna s)
    then setitem_value fieldDataProc "volH2OSource" (Scalar 1)
    else setitem_value fieldDataProc "volH2OSource" (Scalar 0) in
  (* lines 68-71 *)
  s ← loc fieldDataProc "gasVolumeSyringe";
  let fieldDataProc :=
    if is_True (Series_isna s)
    then setitem_value fieldDataProc "volGasSource" (Scalar 1)
    else setitem_value fieldDataProc "volGasSource" (Scalar 0) in
  (* lines 73-74 *)
  s ← loc fieldDataProc "waterVolumeSyringe";
  let fieldDataProc :=
    if is_True (Series_isna s)
    then setitem_value fieldDataProc "waterVolumeSyringe" (Scalar volH2O_default)
    else fieldDataProc in
  (* lines 76-77 *)
  s ← loc fieldDataProc "gasVolumeSyringe";
  let fieldDataProc :=
    if is_True (Series_isna s)
    then setitem_value fieldDataProc "gasVolumeSyringe" (Scalar volGas_default)
    else fieldDataProc in
  (* lines 104-105 *)
  s ← loc fieldDataProc "waterSampleID";
  let outputDF := empty_output (length s) in
  (* lines 108-110 *)
  let outputDF :=
    foldl (λ outputDF name,
             match col_get name (columns fieldDataProc) with
             | Some s => setitem outputDF name s
             | None => outputDF
             end) outputDF outputDFNames in
  (* lines 112-116 *)
  s ← loc fieldDataProc "storageWaterTemp";
  let outputDF := setitem outputDF "headspaceTemp" s in
  s ← loc fieldDataProc "ptBarometricPressure";
  let outputDF := setitem outputDF "barometricPressure" s in
  s ← loc fieldDataProc "waterVolumeSyringe";
  let outputDF := setitem outputDF "waterVolume" s in
  s ← loc fieldDataProc "gasVolumeSyringe";
  let outputDF := setitem outputDF "gasVolume" s in
  s ← loc fieldDataProc "namedLocation";
  let outputDF := setitem outputDF "stationID" s in
  (* lines 120-138 *)
  s ← loc outputDF "waterSampleID";
  outputDF ← for_range (length s) (λ l outputDF, Ok (lab_row externalLabData l outputDF))
                outputDF;
  (* lines 141-150 *)
  s ← loc outputDF "waterSampleID";
  outputDF ← for_range (length s) (temp_row fieldSuperParent) outputDF;
  (* lines 153-159 *)
  s ← getattr outputDF "waterTemp";
  s ← astype_float s;
  let outputDF := setitem outputDF "waterTemp" s in
  s ← getattr outputDF "concentrationCO2Air";
  s ← astype_float s;
  let outputDF := setitem outputDF "concentrationCO2Air" s in
  s ← getattr outputDF "concentrationCO2Gas";
  s ← astype_float s;
  let outputDF := setitem outputDF "concentrationCO2Gas" s in
  s ← getattr outputDF "concentrationCH4Air";
  s ← astype_float s;
  let outputDF := setitem outputDF "concentrationCH4Air" s in
  s ← getattr outputDF "concentrationCH4Gas";
  s ← astype_float s;
  let outputDF := setitem outputDF "concentrationCH4Gas" s in
  s ← getattr outputDF "concentrationN2OAir";
  s ← astype_float s;
  let outputDF := setitem outputDF "concentrationN2OAir" s in
  s ← getattr outputDF "concentrationN2OGas";
  s ← astype_float s;
  let outputDF := setitem outputDF "concentrationN2OGas" s in
  Ok outputDF.

End Formatter.

(** ** The formulas as the specification writes them *)

Inductive gas : Type := CO2 | CH4 | N2O.

(** Henry's-law constant at 298.15 K and its temperature dependence. *)
Definition kH (g : gas) : float :=
  match g with CO2 => 0.00033 | CH4 => 0.000014 | N2O => 0.00024 end.

Definition dHdT (g : gas) : float :=
  match g with CO2 => 2400 | CH4 => 1900 | N2O => 2700 end.

(** The global background substituted for a missing reference-air
    concentration (ppmv). *)
Definition background (g : gas) : float :=
  match g with CO2 => 405 | CH4 => 1.85 | N2O => 0.330 end.

Definition defaulted (g : gas) (air : float) : float :=
  if is_nan air then background g else air.

Definition spec_dissolved `{PyEnv} (g : gas)
    (baro volGas volH2O headspaceTemp eqGas sourceGas : float) : float :=
  (baro * 1e-6 *
     (volGas * (eqGas - sourceGas) / (8.3144598 * (headspaceTemp + 273.15) * volH2O) +
      kH g * libm_exp (dHdT g * (1 / (headspaceTemp + 273.15) - 1 / 298.15)) * eqGas))%float.

Definition spec_satConc `{PyEnv} (g : gas) (waterTemp sourceGas baro : float) : float :=
  (kH g * libm_exp (dHdT g * (1 / (waterTemp + 273.15) - 1 / 298.15)) *
     sourceGas * baro * 1e-6)%float.

Definition spec_percSat (dissolvedGas satConc : float) : float :=
  (dissolvedGas / satConc * 100)%float.

(** The column names of section 3 of the specification. *)
Definition air_col (g : gas) : string :=
  match g with
  | CO2 => "concentrationCO2Air"
  | CH4 => "concentrationCH4Air"
  | N2O => "concentrationN2OAir"
  end.

Definition gas_col (g : gas) : string :=
  match g with
  | CO2 => "concentrationCO2Gas"
  | CH4 => "concentrationCH4Gas"
  | N2O => "concentrationN2OGas"
  end.

Definition dissolved_col (g : gas) : string :=
  match g with CO2 => "dissolvedCO2" | CH4 => "dissolvedCH4" | N2O => "dissolvedN2O" end.

Definition satConc_col (g : gas) : string :=
  match g with CO2 => "satConcCO2" | CH4 => "satConcCH4" | N2O => "satConcN2O" end.

Definition percSat_col (g : gas) : string :=
  match g with CO2 => "CO2PercSat" | CH4 => "CH4PercSat" | N2O => "N2OPercSat" end.

Definition air_cols : list string := air_col <$> [CO2; CH4; N2O].
Definition dissolved_cols : list string := dissolved_col <$> [CO2; CH4; N2O].
Definition sat_cols : list string :=
  (satConc_col <$> [CO2; CH4; N2O]) ++ (percSat_col <$> [CO2; CH4; N2O]).

(** The columns the concentration calculator reads, and those the
    saturation calculator reads. *)
Definition conc_inputs : list string :=
  ["barometricPressure"; "gasVolume"; "waterVolume"; "headspaceTemp"]
  ++ (gas_col <$> [CO2; CH4; N2O]) ++ air_cols.

Definition sat_inputs : list string :=
  ["barometricPressure"; "waterTemp"] ++ dissolved_cols ++ air_cols.

(** Every listed column exists and holds numbers only. *)
Definition float_columns (df : DataFrame) (names : list string) : Prop :=
  Forall (λ n, is_Some (float_column df n)) names.

(** The physical inputs of one row of the formatted table. *)
Record conc_row : Type := {
  c_baro : float;
  c_volGas : float;
  c_volH2O : float;
  c_headspaceTemp : float;
  c_eq : gas → float;
  c_air : gas → float
}.

Definition conc_row_at (df : DataFrame) (i : nat) (r : conc_row) : Prop :=
  fcell df "barometricPressure" i = Some (c_baro r) ∧
  fcell df "gasVolume" i = Some (c_volGas r) ∧
  fcell df "waterVolume" i = Some (c_volH2O r) ∧
  fcell df "headspaceTemp" i = Some (c_headspaceTemp r) ∧
  ∀ g, fcell df (gas_col g) i = Some (c_eq r g) ∧
       fcell df (air_col g) i = Some (c_air r g).

(** The inputs of one row of the concentration-augmented table. *)
Record sat_row : Type := {
  s_baro : float;
  s_waterTemp : float;
  s_dissolved : gas → float;
  s_air : gas → float
}.

Definition sat_row_at (df : DataFrame) (i : nat) (r : sat_row) : Prop :=
  fcell df "barometricPressure" i = Some (s_baro r) ∧
  fcell df "waterTemp" i = Some (s_waterTemp r) ∧
  ∀ g, fcell df (dissolved_col g) i = Some (s_dissolved r g) ∧
       fcell df (air_col g) i = Some (s_air r g).

(** Column names in order, and the names after assigning to [new] in
    turn. *)
Definition names (df : DataFrame) : list string := (columns df).*1.

Definition add_name (ns : list string) (n : string) : list string :=
  if bool_decide (n ∈ ns) then ns else ns ++ [n].

(** One row of a value. *)
Definition vrow (v : value) (i : nat) : option float :=
  match v with
  | Scalar x => Some x
  | FloatSeries xs => xs !! i
  end.

Definition is_series (v : value) : Prop :=
  match v with FloatSeries _ => True | Scalar _ => False end.

Definition sf_finite (s : spec_float) : Prop :=
  match s with S754_finite _ _ _ => True | _ => False end.

Definition sf_not_finite (s : spec_float) : Prop :=
  match s with S754_nan | S754_infinity _ => True | _ => False end.

(** A finite, nonzero number. *)
Definition regular (x : float) : bool := is_finite x && negb (is_zero x).

(** ** An executable environment for the examples

    [exp_limit] evaluates (1 + |x|/2^20)^(2^20) by repeated squaring
    and inverts it for negative [x]; like the C library's [exp] it
    sends NaN to NaN, +infinity to +infinity and -infinity to 0. *)
Definition exp_limit (x : float) : float :=
  let p := Nat.iter 20 (λ z, z * z)%float (1 + abs x / 1048576)%float in
  if (x <? 0)%float then (1 / p)%float else p.

Definition model_env : PyEnv :=
  {| libm_exp := exp_limit; py_float := λ _, None |}.

(** ** The formatter's joins, row by row *)

(** The lab table's column of a gas. *)
Definition lab_col (g : gas) : string :=
  match g with
  | CO2 => "concentrationCO2"
  | CH4 => "concentrationCH4"
  | N2O => "concentrationN2O"
  end.

(** The number of rows of [tbl] whose [key_col] equals [key]. *)
Definition match_count (tbl : DataFrame) (key_col : string) (key : cell) : nat :=
  match col_get key_col (columns tbl) with
  | Some ids => length (mask_select ((λ c, cell_eqb c key) <$> ids) ids)
  | None => 0
  end.

Definition is_num (c : cell) : Prop :=
  match c with Num _ => True | Str _ => False end.

(** The column [name] of [tbl], if there is one, holds numbers only. *)
Definition numeric_if_present (tbl : DataFrame) (name : string) : Prop :=
  ∀ s, col_get name (columns tbl) = Some s → Forall is_num s.

(** The columns the formatter reads from the field table, and the
    output columns it fills from the other two and coerces to float. *)
Definition field_inputs : list string :=
  [ "waterVolumeSyringe"; "gasVolumeSyringe"; "waterSampleID";
    "storageWaterTemp"; "ptBarometricPressure"; "namedLocation" ].

Definition joined_cols : list string :=
  [ "waterTemp"; "concentrationCO2Air"; "concentrationCO2Gas";
    "concentrationCH4Air"; "concentrationCH4Gas"; "concentrationN2OAir";
    "concentrationN2OGas" ].

(** What one try block of lines 120-138 does to a cell of its row:
    [R] and [Q] are the results of the reference-air and of the
    equilibrated-air lookup. *)
Definition block_update (R Q : result cell) (air gas c : string) (old : cell) : cell :=
  if String.eqb c air then
    match R with Ok v => v | Raise _ => old end
  else if String.eqb c gas then
    match R, Q with Ok _, Ok w => w | _, _ => old end
  else old.

Definition lab_update (lab : DataFrame) (ref eq : cell) (c : string) (old : cell)
    : cell :=
  block_update
    (item_where lab "sampleID" ref "concentrationN2O")
    (item_where lab "sampleID" eq "concentrationN2O")
    "concentrationN2OAir" "concentrationN2OGas" c
    (block_update
       (item_where lab "sampleID" ref "concentrationCH4")
       (item_where lab "sampleID" eq "concentrationCH4")
       "concentrationCH4Air" "concentrationCH4Gas" c
       (block_update
          (item_where lab "sampleID" ref "concentrationCO2")
          (item_where lab "sampleID" eq "concentrationCO2")
          "concentrationCO2Air" "concentrationCO2Gas" c old)).

(** What one pass of lines 141-150 does to a cell of its row. *)
Definition temp_update (sp : DataFrame) (wid : cell) (c : string) (old : cell) : cell :=
  let W := item_where sp "parentSampleID" wid "waterTemp" in
  if String.eqb c "waterTemp" then
    match W with Ok v => v | Raise _ => old end
  else if String.eqb c "headspaceTemp" then
    if isna old then match W with Ok v => v | Raise _ => old end else old
  else old.

(** The key of row [l] in the column [name] of the field table (a
    missing cell where the table has no such column), and the cell a
    lookup leaves: its value, or a missing cell when it raised. *)
Definition key_cell (df : DataFrame) (name : string) (l : nat) : cell :=
  default NaN (cell_at df name l).

Definition or_null (R : result cell) : cell :=
  match R with Ok v => v | Raise _ => NaN end.

(** A table with the output columns, each of [n] cells. *)
Definition shaped (n : nat) (df : DataFrame) : Prop :=
  nrows df = n ∧ names df = outputDFNames ∧ wf df.

(** ** Vocabulary of the proofs *)

(** [returns m P]: the computation returns, and its result satisfies [P]. *)
Definition returns {A : Type} (m : result A) (P : A → Prop) : Prop :=
  ∃ a, m = Ok a ∧ P a.

(** [view df d U]: the table [d] is the table [df] after the
    assignments [U] (latest first) to whole columns. *)
Definition view (df d : DataFrame) (U : list (string * Series)) : Prop :=
  nrows d = nrows df ∧
  names d = foldr (λ n ns, add_name ns n) (names df) U.*1 ∧
  (∀ c, col_get c (columns d) = col_get c (U ++ columns df)) ∧
  ∀ P : Series → Prop,
    Forall (λ c, P c.2) (columns df) → Forall (λ c, P c.2) U →
    Forall (λ c, P c.2) (columns d).

(** ** Example tables *)

(** A formatted table of two samples; the second has no reference-air
    measurement. *)
Definition conc_example : DataFrame :=
  {| nrows := 2;
     columns :=
       [ ("waterSampleID", [Str "ARIK.SS.20190703.SDG1"; Str "ARIK.SS.20190703.SDG2"]);
         ("barometricPressure", [Num 98; Num 98]);
         ("headspaceTemp", [Num 22; Num 22]);
         ("waterTemp", [Num 15; Num 15]);
         ("concentrationCO2Air", [Num 405; NaN]);
         ("concentrationCO2Gas", [Num 1200; Num 50]);
         ("concentrationCH4Air", [Num 1.9; NaN]);
         ("concentrationCH4Gas", [Num 12.5; Num 3]);
         ("concentrationN2OAir", [Num 0.34; NaN]);
         ("concentrationN2OGas", [Num 0.6; Num 0.4]);
         ("waterVolume", [Num 40; Num 40]);
         ("gasVolume", [Num 20; Num 20]) ] |}.

Definition conc_example_row0 : conc_row :=
  {| c_baro := 98; c_volGas := 20; c_volH2O := 40; c_headspaceTemp := 22;
     c_eq := λ g, (match g with CO2 => 1200 | CH4 => 12.5 | N2O => 0.6 end)%float;
     c_air := λ g, (match g with CO2 => 405 | CH4 => 1.9 | N2O => 0.34 end)%float |}.

Definition conc_example_row1 : conc_row :=
  {| c_baro := 98; c_volGas := 20; c_volH2O := 40; c_headspaceTemp := 22;
     c_eq := λ g, (match g with CO2 => 50 | CH4 => 3 | N2O => 0.4 end)%float;
     c_air := λ _, nan |}.

(** The same two samples with the barometric pressure of the second
    missing. *)
Definition conc_example_no_baro : DataFrame :=
  setitem conc_example "barometricPressure" [Num 98; NaN].

Definition conc_example_no_baro_row1 : conc_row :=
  {| c_baro := nan; c_volGas := 20; c_volH2O := 40; c_headspaceTemp := 22;
     c_eq := c_eq conc_example_row1; c_air := c_air conc_example_row1 |}.

(** A concentration-augmented table of three samples: one complete, one
    without any lab data, one equilibrated with a gas free of CO2. *)
Definition sat_example : DataFrame :=
  {| nrows := 3;
     columns :=
       [ ("waterSampleID", [Str "S1"; Str "S2"; Str "S3"]);
         ("barometricPressure", [Num 98; Num 98; Num 98]);
         ("waterTemp", [Num 15; Num 15; Num 15]);
         ("concentrationCO2Air", [Num 405; NaN; Num 0]);
         ("concentrationCH4Air", [Num 1.9; NaN; Num 1.9]);
         ("concentrationN2OAir", [Num 0.34; NaN; Num 0.34]);
         ("dissolvedCO2", [Num 0.00005; NaN; Num 0.00005]);
         ("dissolvedCH4", [Num 0.0000001; NaN; Num 0.0000001]);
         ("dissolvedN2O", [Num 0.00000001; NaN; Num 0.00000001]) ] |}.

Definition sat_example_row0 : sat_row :=
  {| s_baro := 98; s_waterTemp := 15;
     s_dissolved := λ g, (match g with
                          | CO2 => 0.00005 | CH4 => 0.0000001 | N2O => 0.00000001
                          end)%float;
     s_air := λ g, (match g with CO2 => 405 | CH4 => 1.9 | N2O => 0.34 end)%float |}.

Definition sat_example_row1 : sat_row :=
  {| s_baro := 98; s_waterTemp := 15; s_dissolved := λ _, nan; s_air := λ _, nan |}.

Definition sat_example_row2 : sat_row :=
  {| s_baro := 98; s_waterTemp := 15;
     s_dissolved := λ g, (match g with
                          | CO2 => 0.00005 | CH4 => 0.0000001 | N2O => 0.00000001
                          end)%float;
     s_air := λ g, (match g with CO2 => 0 | CH4 => 1.9 | N2O => 0.34 end)%float |}.

(** The first sample with the water temperature missing. *)
Definition sat_example_no_temp : DataFrame :=
  setitem sat_example "waterTemp" [NaN; Num 15; Num 15].

Definition sat_example_no_temp_row0 : sat_row :=
  {| s_baro := 98; s_waterTemp := nan;
     s_dissolved := s_dissolved sat_example_row0; s_air := s_air sat_example_row0 |}.

(** One sample with its dissolved concentrations, at a water
    temperature of absolute zero and an ordinary barometric pressure. *)
Definition sat_infinite_saturation : DataFrame :=
  {| nrows := 1;
     columns :=
       [ ("barometricPressure", [Num 98]);
         ("waterTemp", [Num (-273.15)]);
         ("concentrationCO2Air", [Num 405]);
         ("concentrationCH4Air", [Num 1.9]);
         ("concentrationN2OAir", [Num 0.34]);
         ("dissolvedCO2", [Num 0.00005]);
         ("dissolvedCH4", [Num 0.0000001]);
         ("dissolvedN2O", [Num 0.00000001]) ] |}.

Definition sat_infinite_saturation_row : sat_row :=
  {| s_baro := 98; s_waterTemp := (-273.15)%float;
     s_dissolved := λ g, (match g with
                          | CO2 => 0.00005 | CH4 => 0.0000001 | N2O => 0.00000001
                          end)%float;
     s_air := λ g, (match g with CO2 => 405 | CH4 => 1.9 | N2O => 0.34 end)%float |}.

(** One sample without lab data, with a water temperature of absolute
    zero and a barometric pressure of 0. *)
Definition sat_absolute_zero : DataFrame :=
  {| nrows := 1;
     columns :=
       [ ("barometricPressure", [Num 0]);
         ("waterTemp", [Num (-273.15)]);
         ("concentrationCO2Air", [NaN]);
         ("concentrationCH4Air", [NaN]);
         ("concentrationN2OAir", [NaN]);
         ("dissolvedCO2", [NaN]);
         ("dissolvedCH4", [NaN]);
         ("dissolvedN2O", [NaN]) ] |}.

Definition sat_absolute_zero_row : sat_row :=
  {| s_baro := 0; s_waterTemp := -273.15; s_dissolved := λ _, nan; s_air := λ _, nan |}.

(** [conc_example] with a leftover column named like a derived one, and
    the equilibrated-gas CO2 of the second sample missing. *)
Definition conc_example_leftover : DataFrame :=
  setitem
    (setitem conc_example "concentrationCO2Gas" [Num 1200; NaN])
    "dissolvedCO2" [Num 1; Num 1].

Definition conc_example_leftover_row1 : conc_row :=
  {| c_baro := 98; c_volGas := 20; c_volH2O := 40; c_headspaceTemp := 22;
     c_eq := λ g, (match g with CO2 => nan | CH4 => 3 | N2O => 0.4 end)%float;
     c_air := λ _, nan |}.

(** The physical inputs of [conc_example]'s first sample under other
    column names. *)
Definition renamed_example : DataFrame :=
  {| nrows := 1;
     columns :=
       [ ("bp", [Num 98]); ("ht", [Num 22]); ("wt", [Num 15]);
         ("vw", [Num 40]); ("vg", [Num 20]);
         ("sCO2", [Num 405]); ("eCO2", [Num 1200]);
         ("sCH4", [Num 1.9]); ("eCH4", [Num 12.5]);
         ("sN2O", [Num 0.34]); ("eN2O", [Num 0.6]) ] |}.

(** Stacked tables of two samples.  The first sample has no syringe
    volumes and a complete set of lab and super-parent rows; the
    reference air of the second has no lab row, its equilibrated air
    has two, and it has no super-parent row. *)
Definition fieldDataProc_example : DataFrame :=
  {| nrows := 2;
     columns :=
       [ ("namedLocation", [Str "ARIK.AOS.reach"; Str "ARIK.AOS.reach"]);
         ("collectDate", [Str "2019-07-03T15:30Z"; Str "2019-07-17T15:10Z"]);
         ("processedDate", [Str "2019-07-03T17:00Z"; Str "2019-07-17T16:40Z"]);
         ("waterSampleID", [Str "W1"; Str "W2"]);
         ("referenceAirSampleID", [Str "A1"; Str "A2"]);
         ("equilibratedAirSampleID", [Str "G1"; Str "G2"]);
         ("storageWaterTemp", [Num 21.5; NaN]);
         ("ptBarometricPressure", [Num 98; Num 97.5]);
         ("waterVolumeSyringe", [NaN; Num 35]);
         ("gasVolumeSyringe", [NaN; Num 25]) ] |}.

Definition externalLabData_example : DataFrame :=
  {| nrows := 4;
     columns :=
       [ ("sampleID", [Str "A1"; Str "G1"; Str "G2"; Str "G2"]);
         ("concentrationCO2", [Num 410; Num 1200; Num 900; Num 910]);
         ("concentrationCH4", [Num 1.9; Num 12.5; Num 8; Num 8.1]);
         ("concentrationN2O", [Num 0.34; Num 0.6; Num 0.5; Num 0.5]) ] |}.

Definition fieldSuperParent_example : DataFrame :=
  {| nrows := 1;
     columns := [ ("parentSampleID", [Str "W1"]); ("waterTemp", [Num 14.5]) ] |}.

(** ** The formatter's output, cell by cell *)

(** The column of the field table an output column is filled from:
    its namesake (lines 108-110), unless lines 112-116 assign another. *)
Definition field_source (c : string) : string :=
  if String.eqb c "headspaceTemp" then "storageWaterTemp"
  else if String.eqb c "barometricPressure" then "ptBarometricPressure"
  else if String.eqb c "waterVolume" then "waterVolumeSyringe"
  else if String.eqb c "gasVolume" then "gasVolumeSyringe"
  else if String.eqb c "stationID" then "namedLocation"
  else c.

(** The cell of row [l] of an output column before the joins: the two
    flags of lines 63-71, the cell of the field table, or a missing
    cell where the field table has no such column. *)
Definition field_cell (fdp : DataFrame) (c : string) (l : nat) : cell :=
  if String.eqb c "volH2OSource" || String.eqb c "volGasSource" then Num 0
  else key_cell fdp (field_source c) l.

(** The same cell after the two loops of lines 120-150. *)
Definition joined_cell (lab fdp sp : DataFrame) (c : string) (l : nat) : cell :=
  temp_update sp (key_cell fdp "waterSampleID" l) c
    (lab_update lab (key_cell fdp "referenceAirSampleID" l)
       (key_cell fdp "equilibratedAirSampleID" l) c (field_cell fdp c l)).

(** The number in a cell of numbers. *)
Definition num_of (c : cell) : float :=
  match c with Num x => x | Str _ => nan end.

Section OutputCells.
Context `{PyEnv}.

(** [float(c)] on one cell, as [astype(float)] applies it. *)
Definition float_of (c : cell) : result cell :=
  match c with
  | Num x => Ok (Num x)
  | Str t => match py_float t with
             | Some x => Ok (Num x)
             | None => Raise ValueError
             end
  end.

(** One statement of lines 153-159, and the statements for a list of
    column names in turn. *)
Definition astype_column (name : string) (outputDF : DataFrame) : result DataFrame :=
  s ← getattr outputDF name;
  s ← astype_float s;
  Ok (setitem outputDF name s).

Fixpoint astype_columns (cs : list string) (outputDF : DataFrame) : result DataFrame :=
  match cs with
  | [] => Ok outputDF
  | c :: cs => outputDF ← astype_column c outputDF; astype_columns cs outputDF
  end.

(** A cell after a coercion that went through. *)
Definition as_float (c : cell) : cell :=
  match float_of c with Ok k => k | Raise _ => c end.

(** The cell of row [l] of column [c] of the formatter's output. *)
Definition output_cell (lab fdp sp : DataFrame) (c : string) (l : nat) : cell :=
  if bool_decide (c ∈ joined_cols)
  then as_float (joined_cell lab fdp sp c l)
  else joined_cell lab fdp sp c l.

End OutputCells.

(** [continues m k I]: the computation [m] goes on as [k] from a state
    that satisfies [I]. *)
Definition continues {A B : Type} (m : result B) (k : A → result B) (I : A → Prop)
    : Prop :=
  ∃ a, I a ∧ m = k a.

(** ** [analysis_wrapper_example.py] *)

(** Lines 21-33 on the three stacked tables: format, then the
    concentrations, then the saturations (the [print]s left out). *)
Definition analysis_wrapper `{PyEnv}
    (externalLabData fieldDataProc fieldSuperParent : DataFrame) : result DataFrame :=
  sdg_data ← def_format_sdg externalLabData fieldDataProc fieldSuperParent;
  sdg_calc ← calc_sdg_conc sdg_data;
  sdg_sat ← calc_sdg_sat sdg_calc;
  Ok sdg_sat.

(** What the formatter presupposes of its three stacked tables: one
    cell per row in every column, the six field columns it reads, and
    numbers in the columns whose values end in the coerced output
    columns. *)
Definition stacked_tables (lab fdp sp : DataFrame) : Prop :=
  wf lab ∧ wf fdp ∧ wf sp ∧
  Forall (λ c, c ∈ names fdp) field_inputs ∧
  Forall (numeric_if_present fdp) joined_cols ∧
  (∀ g, numeric_if_present lab (lab_col g)) ∧
  numeric_if_present sp "waterTemp".

(** Exactly one row of [tbl], row [j], has [key] in its column
    [key_col]. *)
Definition only_match (tbl : DataFrame) (key_col : string) (key : cell) (j : nat)
    : Prop :=
  (∃ k, cell_at tbl key_col j = Some k ∧ cell_eqb k key = true) ∧
  ∀ i k, i ≠ j → cell_at tbl key_col i = Some k → cell_eqb k key = false.

(** The lab table with a concentration reported as text, and the field
    table with a reference-air concentration of its own. *)
Definition externalLabData_text : DataFrame :=
  setitem externalLabData_example "concentrationCO2"
    [Str "below detection"; Num 1200; Num 900; Num 910].

Definition fieldDataProc_with_air : DataFrame :=
  setitem fieldDataProc_example "concentrationCO2Air" [Num 400; Num 401].

(** The tables of the wrapper: stacked tables whose field table has
    numbers in the four columns that reach the calculators unchanged. *)
Definition pipeline_tables (lab fdp sp : DataFrame) : Prop :=
  stacked_tables lab fdp sp ∧
  Forall (numeric_if_present fdp)
    ["storageWaterTemp"; "ptBarometricPressure"; "waterVolumeSyringe";
     "gasVolumeSyringe"].

(** The inputs of the concentration calculator in row [l] of the
    formatter's output. *)
Definition formatted_row (lab fdp sp : DataFrame) (l : nat) : conc_row :=
  {| c_baro := num_of (joined_cell lab fdp sp "barometricPressure" l);
     c_volGas := num_of (joined_cell lab fdp sp "gasVolume" l);
     c_volH2O := num_of (joined_cell lab fdp sp "waterVolume" l);
     c_headspaceTemp := num_of (joined_cell lab fdp sp "headspaceTemp" l);
     c_eq := λ g, num_of (joined_cell lab fdp sp (gas_col g) l);
     c_air := λ g, num_of (joined_cell lab fdp sp (air_col g) l) |}.

(** * Part II: lemmas and theorems *)

(** ** Binary64

    pandas stores a missing numeric cell as NaN, so null propagation in
    the formulas is NaN propagation of the IEEE operations.  The facts
    below follow from the specification of the primitive operations
    over [spec_float]. *)

Lemma sf_nan_prim x : Prim2SF x = S754_nan → x = nan.
Proof. intros E. rewrite <- (SF2Prim_Prim2SF x), E. reflexivity. Qed.

Lemma sf_eqb_irrefl_nan s : SFeqb s s = false → s = S754_nan.
Proof.
  destruct s as [[]|[]| |[] m e]; cbn; intros E; try discriminate; try reflexivity.
  all: rewrite Z.compare_refl in E.
  all: change (PosDef.Pos.compare_cont Eq m m) with (Pos.compare m m) in E.
  all: rewrite Pos.compare_refl in E; discriminate.
Qed.

Lemma is_nan_eq x : is_nan x = true ↔ x = nan.
Proof.
  split; [|intros ->; reflexivity].
  unfold is_nan. rewrite FloatAxioms.eqb_spec. intros E.
  apply sf_nan_prim, sf_eqb_irrefl_nan.
  by destruct (SFeqb _ _).
Qed.

Lemma prim_nan_sf x : Prim2SF x = S754_nan ↔ is_nan x = true.
Proof.
  split; [intros E%sf_nan_prim; by subst|].
  intros E. unfold Prim2SF. by rewrite E.
Qed.

Lemma not_nan_sf x : is_nan x = false ↔ Prim2SF x ≠ S754_nan.
Proof. rewrite prim_nan_sf. by destruct (is_nan x). Qed.

Lemma add_nan_l y : (nan + y)%float = nan.
Proof. apply sf_nan_prim. rewrite FloatAxioms.add_spec. reflexivity. Qed.

Lemma add_nan_r x : (x + nan)%float = nan.
Proof.
  apply sf_nan_prim. rewrite FloatAxioms.add_spec.
  by destruct (Prim2SF x) as [[]|[]| |].
Qed.

Lemma sub_nan_l y : (nan - y)%float = nan.
Proof. apply sf_nan_prim. rewrite FloatAxioms.sub_spec. reflexivity. Qed.

Lemma sub_nan_r x : (x - nan)%float = nan.
Proof.
  apply sf_nan_prim. rewrite FloatAxioms.sub_spec.
  by destruct (Prim2SF x) as [[]|[]| |].
Qed.

Lemma mul_nan_l y : (nan * y)%float = nan.
Proof. apply sf_nan_prim. rewrite FloatAxioms.mul_spec. reflexivity. Qed.

Lemma mul_nan_r x : (x * nan)%float = nan.
Proof.
  apply sf_nan_prim. rewrite FloatAxioms.mul_spec.
  by destruct (Prim2SF x) as [[]|[]| |].
Qed.

Lemma div_nan_l y : (nan / y)%float = nan.
Proof. apply sf_nan_prim. rewrite FloatAxioms.div_spec. reflexivity. Qed.

Lemma div_nan_r x : (x / nan)%float = nan.
Proof.
  apply sf_nan_prim. rewrite FloatAxioms.div_spec.
  by destruct (Prim2SF x) as [[]|[]| |].
Qed.

(** Rounding never produces a NaN: the mantissa stays non-negative
    through the shifts, so the "must never occur" branch of
    [binary_round_aux] is not taken. *)
Lemma shr_1_nonneg mrs : (0 ≤ shr_m mrs)%Z → (0 ≤ shr_m (shr_1 mrs))%Z.
Proof. destruct mrs as [[|[p|p|]|p] r s]; simpl; lia. Qed.

Lemma iter_pos_inv {A} (P : A → Prop) (f : A → A) :
  (∀ x, P x → P (f x)) → ∀ n x, P x → P (SpecFloat.iter_pos f n x).
Proof. intros Hf. induction n; simpl; auto. Qed.

Lemma shr_fexp_nonneg m e l :
  (0 ≤ m)%Z → (0 ≤ shr_m (fst (shr_fexp prec emax m e l)))%Z.
Proof.
  intros Hm. unfold shr_fexp, shr.
  assert (0 ≤ shr_m (shr_record_of_loc m l))%Z by (by destruct l as [|[]]).
  destruct (_ - e)%Z; simpl; try done.
  by apply (iter_pos_inv (λ r, 0 ≤ shr_m r)%Z); [apply shr_1_nonneg|].
Qed.

Lemma round_nearest_even_nonneg m l :
  (0 ≤ m)%Z → (0 ≤ round_nearest_even m l)%Z.
Proof. intros. destruct l as [|[]]; simpl; try done; [case_match|]; lia. Qed.

Lemma binary_round_aux_not_nan sx mx ex lx :
  (0 ≤ mx)%Z → binary_round_aux prec emax sx mx ex lx ≠ S754_nan.
Proof.
  intros Hm. unfold binary_round_aux.
  pose proof (shr_fexp_nonneg mx ex lx Hm) as H1.
  destruct (shr_fexp prec emax mx ex lx) as [mrs' e']; simpl in H1.
  pose proof (shr_fexp_nonneg _ e' loc_Exact
    (round_nearest_even_nonneg _ (loc_of_shr_record mrs') H1)) as H2.
  destruct (shr_fexp prec emax _ e' loc_Exact) as [mrs'' e'']; simpl in H2.
  destruct (shr_m mrs''); [done| |lia]. by case_match.
Qed.

Lemma binary_normalize_not_nan m e sz :
  binary_normalize prec emax m e sz ≠ S754_nan.
Proof.
  destruct m; simpl; [done| |]; unfold binary_round;
    destruct (shl_align _ _ _); by apply binary_round_aux_not_nan.
Qed.

Lemma sf_add_finite x y :
  x ≠ S754_nan → sf_finite y → SF64add x y ≠ S754_nan.
Proof.
  destruct x as [[]|[]| |], y as [| | |]; try done; intros _ _;
    apply binary_normalize_not_nan.
Qed.

Lemma sf_sub_finite x y :
  x ≠ S754_nan → sf_finite y → SF64sub x y ≠ S754_nan.
Proof.
  destruct x as [[]|[]| |], y as [| | |]; try done; intros _ _;
    apply binary_normalize_not_nan.
Qed.

Lemma sf_mul_finite_r x y :
  x ≠ S754_nan → sf_finite y → SF64mul x y ≠ S754_nan.
Proof.
  destruct x as [[]|[]| |], y as [| | |]; try done; intros _ _;
    by apply binary_round_aux_not_nan.
Qed.

Lemma sf_mul_finite_l x y :
  sf_finite x → y ≠ S754_nan → SF64mul x y ≠ S754_nan.
Proof.
  destruct x as [| | |], y as [[]|[]| |]; try done; intros _ _;
    by apply binary_round_aux_not_nan.
Qed.

Lemma sf_div_finite_l x y :
  sf_finite x → y ≠ S754_nan → SF64div x y ≠ S754_nan.
Proof.
  destruct x as [| | |sx mx ex], y as [[]|[]| |sy my ey]; try done; intros _ _.
  unfold SF64div, SFdiv, SFdiv_core_binary.
  set (m' := match _ with Zpos _ => _ | _ => _ end).
  assert (0 ≤ m')%Z as Hm'.
  { subst m'. case_match; try lia. apply Z.shiftl_nonneg. lia. }
  pose proof (Z.div_pos m' (Zpos my) Hm' eq_refl) as Hq.
  unfold Z.div in Hq. destruct (Z.div_eucl m' (Zpos my)) as [q r].
  by apply binary_round_aux_not_nan.
Qed.

(** The same facts on primitive floats. *)
Lemma regular_sf x : regular x = true → sf_finite (Prim2SF x).
Proof.
  unfold regular. intros [Hf Hz]%andb_prop.
  rewrite <- (SF2Prim_Prim2SF x) in Hf, Hz.
  by destruct (Prim2SF x) as [[]|[]| |].
Qed.

Lemma add_regular_not_nan x c :
  is_nan x = false → regular c = true → is_nan (x + c) = false.
Proof.
  rewrite !not_nan_sf, FloatAxioms.add_spec. intros Hx Hc%regular_sf.
  by apply sf_add_finite.
Qed.

Lemma sub_regular_not_nan x c :
  is_nan x = false → regular c = true → is_nan (x - c) = false.
Proof.
  rewrite !not_nan_sf, FloatAxioms.sub_spec. intros Hx Hc%regular_sf.
  by apply sf_sub_finite.
Qed.

Lemma mul_regular_r_not_nan x c :
  is_nan x = false → regular c = true → is_nan (x * c) = false.
Proof.
  rewrite !not_nan_sf, FloatAxioms.mul_spec. intros Hx Hc%regular_sf.
  by apply sf_mul_finite_r.
Qed.

Lemma mul_regular_l_not_nan c x :
  regular c = true → is_nan x = false → is_nan (c * x) = false.
Proof.
  rewrite !not_nan_sf, FloatAxioms.mul_spec. intros Hc%regular_sf Hx.
  by apply sf_mul_finite_l.
Qed.

Lemma div_regular_l_not_nan c x :
  regular c = true → is_nan x = false → is_nan (c / x) = false.
Proof.
  rewrite !not_nan_sf, FloatAxioms.div_spec. intros Hc%regular_sf Hx.
  by apply sf_div_finite_l.
Qed.

(** Division by zero, and anything multiplied into its result, is
    infinite or NaN. *)
Lemma is_zero_sf z : is_zero z = true → ∃ s, Prim2SF z = S754_zero s.
Proof.
  unfold is_zero. rewrite FloatAxioms.eqb_spec.
  change (Prim2SF zero) with (S754_zero false).
  destruct (Prim2SF z) as [s|[]| |[]]; try done. by exists s.
Qed.

Lemma sf_not_finite_prim x : sf_not_finite (Prim2SF x) → is_finite x = false.
Proof.
  intros E. rewrite <- (SF2Prim_Prim2SF x).
  by destruct (Prim2SF x) as [|[]| |].
Qed.

Lemma div_zero_not_finite x z : is_zero z = true → is_finite (x / z) = false.
Proof.
  intros [s E]%is_zero_sf. apply sf_not_finite_prim.
  rewrite FloatAxioms.div_spec, E.
  by destruct (Prim2SF x) as [| | |].
Qed.

Lemma not_finite_sf x : is_finite x = false → sf_not_finite (Prim2SF x).
Proof.
  unfold is_finite. intros [E|E]%negb_false_iff%orb_prop.
  - apply prim_nan_sf in E. by rewrite E.
  - unfold is_infinity in E.
    rewrite FloatAxioms.eqb_spec, FloatAxioms.abs_spec in E.
    change (Prim2SF infinity) with (S754_infinity false) in E.
    by destruct (Prim2SF x) as [| | |].
Qed.

Lemma mul_not_finite x y : is_finite x = false → is_finite (x * y) = false.
Proof.
  intros E%not_finite_sf. apply sf_not_finite_prim.
  rewrite FloatAxioms.mul_spec.
  by destruct (Prim2SF x) as [| | |], (Prim2SF y) as [| | |].
Qed.

Lemma is_infinity_sf x : is_infinity x = true → ∃ s, Prim2SF x = S754_infinity s.
Proof.
  unfold is_infinity. rewrite FloatAxioms.eqb_spec, FloatAxioms.abs_spec.
  change (Prim2SF infinity) with (S754_infinity false).
  destruct (Prim2SF x) as [|s| |]; try done. by exists s.
Qed.

Lemma is_finite_sf x :
  is_finite x = true → ∃ s, Prim2SF x = S754_zero s ∨ ∃ m e, Prim2SF x = S754_finite s m e.
Proof.
  intros E. destruct (Prim2SF x) as [s|s| |s m e] eqn:Hx.
  - exists s. by left.
  - rewrite <- (SF2Prim_Prim2SF x), Hx in E. by destruct s.
  - apply sf_nan_prim in Hx as ->. done.
  - exists s. right. by exists m, e.
Qed.

Lemma sf_zero_is_zero x s : Prim2SF x = S754_zero s → is_zero x = true.
Proof.
  intros E. unfold is_zero. rewrite FloatAxioms.eqb_spec, E.
  change (Prim2SF zero) with (S754_zero false). by destruct s.
Qed.

(** A finite number over an infinite one is a zero, and stays one when
    scaled; a number that is not finite over an infinite one is NaN. *)
Lemma div_infinity_zero d s c :
  is_finite d = true → is_infinity s = true → regular c = true →
  is_zero (d / s * c) = true.
Proof.
  intros (sd & Hd)%is_finite_sf (ss & Hs)%is_infinity_sf Hc%regular_sf.
  assert (∃ sz, Prim2SF (d / s) = S754_zero sz) as [sz Hz].
  { rewrite FloatAxioms.div_spec, Hs. destruct Hd as [->|(m & e & ->)]; by eexists. }
  apply (sf_zero_is_zero _ (xorb sz (match Prim2SF c with
                                     | S754_finite sc _ _ => sc
                                     | _ => false
                                     end))).
  rewrite FloatAxioms.mul_spec, Hz. by destruct (Prim2SF c).
Qed.

Lemma div_infinity_nan d s c :
  is_finite d = false → is_infinity s = true → (d / s * c)%float = nan.
Proof.
  intros Hd%not_finite_sf (ss & Hs)%is_infinity_sf.
  assert ((d / s)%float = nan) as ->; [|apply mul_nan_l].
  apply sf_nan_prim. rewrite FloatAxioms.div_spec, Hs.
  by destruct (Prim2SF d).
Qed.

Lemma abs_not_nan x : is_nan x = false → is_nan (abs x) = false.
Proof.
  rewrite !not_nan_sf, FloatAxioms.abs_spec.
  by destruct (Prim2SF x) as [| | |].
Qed.

Lemma div_regular_r_not_nan x c :
  is_nan x = false → regular c = true → is_nan (x / c) = false.
Proof.
  rewrite !not_nan_sf, FloatAxioms.div_spec. intros Hx Hc%regular_sf.
  destruct (Prim2SF x) as [| | |sx mx ex] eqn:Ex; try done.
  - by destruct (Prim2SF c) as [| | |].
  - by destruct (Prim2SF c) as [| | |].
  - apply sf_div_finite_l; [done|]. by destruct (Prim2SF c).
Qed.

Lemma add_regular_l_not_nan c x :
  regular c = true → is_nan x = false → is_nan (c + x) = false.
Proof.
  rewrite !not_nan_sf, FloatAxioms.add_spec. intros Hc%regular_sf Hx.
  destruct (Prim2SF c) as [| | |], (Prim2SF x) as [[]|[]| |]; try done.
  all: apply binary_normalize_not_nan.
Qed.

Lemma mul_self_not_nan x : is_nan x = false → is_nan (x * x) = false.
Proof.
  rewrite !not_nan_sf, FloatAxioms.mul_spec. intros Hx.
  destruct (Prim2SF x) as [| | |]; try done.
  by apply binary_round_aux_not_nan.
Qed.

Lemma exp_limit_not_nan x : is_nan x = false → is_nan (exp_limit x) = false.
Proof.
  intros Hx. unfold exp_limit.
  assert (is_nan (Nat.iter 20 (λ z, z * z) (1 + abs x / 1048576))%float = false) as Hp.
  { generalize 20%nat. intros n. induction n as [|n IH]; simpl.
    - apply add_regular_l_not_nan; [done|].
      apply div_regular_r_not_nan; [|done]. by apply abs_not_nan.
    - by apply mul_self_not_nan. }
  case_match; [|done]. by apply div_regular_l_not_nan.
Qed.

(** The constants of the formulas are finite and nonzero. *)
Lemma regular_kH g : regular (kH g) = true.
Proof. by destruct g. Qed.

Lemma regular_dHdT g : regular (dHdT g) = true.
Proof. by destruct g. Qed.

Lemma regular_background g : regular (background g) = true.
Proof. by destruct g. Qed.

Lemma spec_satConc_not_nan `{PyEnv} g wt a b :
  (∀ x, is_nan x = false → is_nan (libm_exp x) = false) →
  is_nan wt = false → regular a = true → regular b = true →
  is_nan (spec_satConc g wt a b) = false.
Proof.
  intros Hexp Hwt Ha Hb. unfold spec_satConc.
  apply mul_regular_r_not_nan; [|done].
  apply mul_regular_r_not_nan; [|done].
  apply mul_regular_r_not_nan; [|done].
  apply mul_regular_l_not_nan; [apply regular_kH|].
  apply Hexp.
  apply mul_regular_l_not_nan; [apply regular_dHdT|].
  apply sub_regular_not_nan; [|done].
  apply div_regular_l_not_nan; [done|].
  by apply add_regular_not_nan.
Qed.

(** ** Tables *)

Lemma bind_Ok {A B} (a : A) (f : A → result B) : Ok a ≫= f = f a.
Proof. reflexivity. Qed.

Lemma col_get_set n m s cs :
  col_get m (col_set n s cs) = if String.eqb n m then Some s else col_get m cs.
Proof.
  induction cs as [|[k t] cs IH]; simpl; [done|].
  destruct (String.eqb_spec k n) as [->|Hkn]; simpl.
  - by destruct (String.eqb n m).
  - destruct (String.eqb_spec k m) as [->|Hkm]; [|done].
    by rewrite (proj2 (String.eqb_neq n m)).
Qed.

Lemma col_get_set_ne n m s cs :
  n ≠ m → col_get m (col_set n s cs) = col_get m cs.
Proof. intros Hn. by rewrite col_get_set, (proj2 (String.eqb_neq n m)). Qed.

Lemma col_get_names n cs : is_Some (col_get n cs) ↔ n ∈ cs.*1.
Proof.
  induction cs as [|[k t] cs IH]; csimpl.
  - split; [by intros [??]|by intros ?%elem_of_nil].
  - rewrite elem_of_cons, <- IH.
    destruct (String.eqb_spec k n) as [->|Hkn]; [split; eauto|].
    split; [by right|]. by intros [->|?].
Qed.

Lemma col_set_names n s cs : (col_set n s cs).*1 = add_name (cs.*1) n.
Proof.
  unfold add_name. induction cs as [|[k t] cs IH]; csimpl; [done|].
  destruct (String.eqb_spec k n) as [->|Hkn]; csimpl.
  - rewrite bool_decide_eq_true_2; [done|]. apply elem_of_cons; by left.
  - rewrite IH. case_bool_decide as Hin.
    + rewrite bool_decide_eq_true_2; [done|]. apply elem_of_cons; by right.
    + rewrite bool_decide_eq_false_2; [done|].
      rewrite elem_of_cons. by intros [->|?].
Qed.

Lemma add_name_old ns n : n ∈ ns → add_name ns n = ns.
Proof. intros Hn. unfold add_name. by rewrite bool_decide_eq_true_2. Qed.

Lemma add_name_new ns n : n ∉ ns → add_name ns n = ns ++ [n].
Proof. intros Hn. unfold add_name. by rewrite bool_decide_eq_false_2. Qed.

Lemma elem_of_add_name m ns n : m ∈ add_name ns n ↔ m ∈ ns ∨ m = n.
Proof.
  unfold add_name. case_bool_decide as Hn.
  - split; [by left|]. by intros [?| ->].
  - rewrite elem_of_app, list_elem_of_singleton. done.
Qed.

Lemma add_name_idem ns n : add_name (add_name ns n) n = add_name ns n.
Proof. apply add_name_old, elem_of_add_name. by right. Qed.

Lemma add_name_keeps m ns n : m ∈ ns → m ∈ add_name ns n.
Proof. intros Hm. apply elem_of_add_name. by left. Qed.

Lemma col_get_elem n cs s : col_get n cs = Some s → n ∈ cs.*1.
Proof. intros E. apply col_get_names. by rewrite E. Qed.

Lemma Forall_col_set (P : Series → Prop) n s cs :
  P s → Forall (λ c, P c.2) cs → Forall (λ c, P c.2) (col_set n s cs).
Proof.
  intros Hs. induction 1 as [|[k t] cs Ht Hcs IH]; simpl.
  - by repeat constructor.
  - destruct (String.eqb k n); by constructor.
Qed.

Lemma wf_col_get df n s :
  wf df → col_get n (columns df) = Some s → length s = nrows df.
Proof.
  unfold wf. induction 1 as [|[k t] cs Ht Hcs IH]; simpl; [done|].
  destruct (String.eqb k n); [by intros [= <-]|done].
Qed.

Lemma names_setitem df n s : names (setitem df n s) = add_name (names df) n.
Proof. apply col_set_names. Qed.

Lemma loc_set_same df n m s :
  String.eqb n m = true → loc (setitem df n s) m = Ok s.
Proof. intros E. unfold loc; simpl. by rewrite col_get_set, E. Qed.

Lemma loc_set_other df n m s :
  String.eqb n m = false → loc (setitem df n s) m = loc df m.
Proof. intros E. unfold loc; simpl. by rewrite col_get_set, E. Qed.

Lemma getattr_set_same df n m s :
  String.eqb n m = true → getattr (setitem df n s) m = Ok s.
Proof. intros E. unfold getattr; simpl. by rewrite col_get_set, E. Qed.

Lemma getattr_set_other df n m s :
  String.eqb n m = false → getattr (setitem df n s) m = getattr df m.
Proof. intros E. unfold getattr; simpl. by rewrite col_get_set, E. Qed.

Lemma loc_Some df n s : col_get n (columns df) = Some s → loc df n = Ok s.
Proof. intros E. unfold loc. by rewrite E. Qed.

Lemma getattr_Some df n s : col_get n (columns df) = Some s → getattr df n = Ok s.
Proof. intros E. unfold getattr. by rewrite E. Qed.

Lemma loc_None df n : col_get n (columns df) = None → loc df n = Raise (KeyError n).
Proof. intros E. unfold loc. by rewrite E. Qed.

(** Columns of numbers *)
Lemma mapM_cons {A B} (f : A → result B) x l :
  mapM f (x :: l) = (y ← f x; k ← mapM f l; Ok (y :: k)).
Proof. reflexivity. Qed.

Lemma operand_num xs : operand (Ok (Num <$> xs)) = Ok (FloatSeries xs).
Proof.
  unfold operand. rewrite bind_Ok.
  induction xs as [|x xs IH]; [done|].
  rewrite fmap_cons, mapM_cons.
  by destruct (mapM _ _); simplify_eq/=.
Qed.

Lemma operand_inv s v : operand (Ok s) = Ok v → ∃ xs, v = FloatSeries xs ∧ s = Num <$> xs.
Proof.
  unfold operand. rewrite bind_Ok. revert v.
  induction s as [|[x|t] s IH]; intros v; [|rewrite mapM_cons..]; simpl.
  - intros [= <-]. by exists [].
  - destruct (mapM _ s) as [xs|e] eqn:E; simpl; [|done].
    intros [= <-]. destruct (IH (FloatSeries xs)) as (xs' & [= <-] & ->); [done|].
    by exists (x :: xs).
  - done.
Qed.

Lemma float_column_Some df n xs :
  float_column df n = Some xs ↔ col_get n (columns df) = Some (Num <$> xs).
Proof.
  unfold float_column, loc. split.
  - destruct (col_get n (columns df)) as [s|]; [|done].
    destruct (operand (Ok s)) as [[x|ys]|e] eqn:E; try done; intros [= ->].
    by apply operand_inv in E as (? & [= <-] & ->).
  - intros ->. by rewrite operand_num.
Qed.

Lemma fcell_Some df n i x :
  fcell df n i = Some x ↔
  ∃ xs, col_get n (columns df) = Some (Num <$> xs) ∧ xs !! i = Some x.
Proof.
  unfold fcell. split.
  - destruct (float_column df n) as [xs|] eqn:E; [|done]. simpl.
    apply float_column_Some in E. eauto.
  - intros (xs & E%float_column_Some & Hx). by rewrite E.
Qed.

Lemma fcell_col df n xs i :
  col_get n (columns df) = Some (Num <$> xs) → fcell df n i = xs !! i.
Proof. intros E%float_column_Some. unfold fcell. by rewrite E. Qed.

Lemma astype_float_num `{PyEnv} xs : astype_float (Num <$> xs) = Ok (Num <$> xs).
Proof.
  unfold astype_float. induction xs as [|x xs IH]; [done|].
  by rewrite fmap_cons, mapM_cons, IH.
Qed.

Lemma replace_nan_num v xs :
  replace_nan v (Num <$> xs) = Num <$> ((λ x, if is_nan x then v else x) <$> xs).
Proof.
  unfold replace_nan. rewrite <- !list_fmap_compose.
  apply list_fmap_ext. intros _ x _. simpl. by destruct (is_nan x).
Qed.

(** Rows of values *)
Lemma vrow_binop f a b i :
  vrow (binop f a b) i = (x ← vrow a i; y ← vrow b i; Some (f x y)).
Proof.
  destruct a as [x|xs], b as [y|ys]; simpl; try done.
  - rewrite list_lookup_fmap. by destruct (ys !! i).
  - rewrite list_lookup_fmap. by destruct (xs !! i).
  - apply lookup_zip_with.
Qed.

Lemma vrow_unop f a i : vrow (unop f a) i = f <$> vrow a i.
Proof. destruct a as [x|xs]; simpl; [done|]. apply list_lookup_fmap. Qed.

Lemma value_cells_series n xs : value_cells n (FloatSeries xs) = Num <$> xs.
Proof. reflexivity. Qed.

Lemma operand_value_cells k v : is_series v → operand (Ok (value_cells k v)) = Ok v.
Proof. destruct v as [|xs]; [done|]. intros _. apply operand_num. Qed.

Lemma arith_Ok f a b : arith f (Ok a) (Ok b) = Ok (binop f a b).
Proof. reflexivity. Qed.

Lemma np_exp_Ok `{PyEnv} a : np_exp (Ok a) = Ok (unop libm_exp a).
Proof. reflexivity. Qed.

Lemma fcell_value df n m v i :
  is_series v → col_get n (columns df) = Some (value_cells m v) →
  fcell df n i = vrow v i.
Proof. destruct v as [|xs]; [done|]. intros _ E. by apply fcell_col. Qed.

(** ** Running a function body

    The table after each assignment is kept as a variable with its
    [view] of the input table; a read of a column is a lookup in the
    view, which computes because the names assigned to are literals. *)

Lemma returns_Ok {A} (a : A) (P : A → Prop) : P a → returns (Ok a) P.
Proof. intros HP. by exists a. Qed.

Lemma returns_elim {A} (m : result A) (P : A → Prop) :
  returns m P → ∃ a, m = Ok a ∧ P a.
Proof. done. Qed.

Lemma view_refl df : view df df [].
Proof. by split_and!. Qed.

Lemma view_setitem df d U n s :
  view df d U → view df (setitem d n s) ((n, s) :: U).
Proof.
  intros (Hn & Hnames & Hget & Hall). split_and!; [done| | |].
  - rewrite names_setitem, Hnames. done.
  - intros c. simpl. rewrite col_get_set. by rewrite Hget.
  - intros P Hdf [Hs HU]%Forall_cons. apply Forall_col_set; [done|]. by apply Hall.
Qed.

Lemma view_setitem_value df d U n v :
  view df d U →
  view df (setitem_value d n v) ((n, value_cells (nrows df) v) :: U).
Proof.
  intros V. unfold setitem_value. rewrite (proj1 V). by apply view_setitem.
Qed.

Lemma view_loc df d U m s :
  view df d U → col_get m (U ++ columns df) = Some s → loc d m = Ok s.
Proof. intros (_ & _ & Hget & _) E. apply loc_Some. by rewrite Hget. Qed.

Lemma view_getattr df d U m s :
  view df d U → col_get m (U ++ columns df) = Some s → getattr d m = Ok s.
Proof. intros (_ & _ & Hget & _) E. apply getattr_Some. by rewrite Hget. Qed.

Lemma view_fcell df d U m i xs :
  view df d U → col_get m (U ++ columns df) = Some (Num <$> xs) →
  fcell d m i = xs !! i.
Proof. intros (_ & _ & Hget & _) E. apply fcell_col. by rewrite Hget. Qed.

Lemma view_fcell_value df d U m i k v :
  view df d U → col_get m (U ++ columns df) = Some (value_cells k v) →
  is_series v → fcell d m i = vrow v i.
Proof.
  intros (_ & _ & Hget & _) E Hv. eapply fcell_value; [done|]. by rewrite Hget.
Qed.

Ltac view_lookup :=
  cbn [col_get app String.eqb Ascii.eqb Bool.eqb andb
       air_col gas_col dissolved_col satConc_col percSat_col];
  first [reflexivity | eassumption].

Ltac py_let :=
  lazymatch goal with
  | V : view ?df ?d ?U |- returns (let x := setitem ?d ?n ?s in @?K x) ?P =>
      let d' := fresh "d" in
      let V' := fresh "V" in
      pose (d' := setitem d n s);
      change (returns (K d') P); cbv beta;
      pose proof (view_setitem df d U n s V : view df d' _) as V';
      clearbody d'; clear V
  | V : view ?df ?d ?U |- returns (let x := setitem_value ?d ?n ?v in @?K x) ?P =>
      let d' := fresh "d" in
      let V' := fresh "V" in
      pose (d' := setitem_value d n v);
      change (returns (K d') P); cbv beta;
      pose proof (view_setitem_value df d U n v V : view df d' _) as V';
      clearbody d'; clear V
  end.

Ltac py_read :=
  match goal with
  | V : view ?df ?d ?U |- context [loc ?d ?m] =>
      erewrite (view_loc df d U m _ V) by view_lookup
  | V : view ?df ?d ?U |- context [getattr ?d ?m] =>
      erewrite (view_getattr df d U m _ V) by view_lookup
  end.

Ltac py_eval :=
  first
    [ rewrite replace_nan_num
    | rewrite operand_value_cells by exact I
    | rewrite operand_num
    | rewrite np_exp_Ok
    | rewrite arith_Ok
    | rewrite astype_float_num
    | rewrite bind_Ok; cbv beta ].

Ltac py_run :=
  cbv delta [lit]; cbv beta; repeat first [py_let | py_read | py_eval].

Ltac py_done :=
  apply returns_Ok;
  lazymatch goal with
  | V : view _ ?d _ |- _ =>
      let Hn := fresh "Hn" in
      let Hnames := fresh "Hnames" in
      let Hget := fresh "Hget" in
      let Hall := fresh "Hall" in
      destruct V as (Hn & Hnames & Hget & Hall); rename d into out
  end.

(** ** The concentration calculator, run on a table of numbers *)

Section Conc.
Context `{PyEnv}.

Lemma conc_run df B VG VW T (EQ AIR : gas → list float) :
  col_get "barometricPressure" (columns df) = Some (Num <$> B) →
  col_get "gasVolume" (columns df) = Some (Num <$> VG) →
  col_get "waterVolume" (columns df) = Some (Num <$> VW) →
  col_get "headspaceTemp" (columns df) = Some (Num <$> T) →
  (∀ g, col_get (gas_col g) (columns df) = Some (Num <$> EQ g)) →
  (∀ g, col_get (air_col g) (columns df) = Some (Num <$> AIR g)) →
  returns (calc_sdg_conc df) (λ out,
    nrows out = nrows df ∧
    (wf df → wf out) ∧
    names out = foldl add_name (names df) dissolved_cols ∧
    (∀ c, c ∉ air_cols ++ dissolved_cols →
          col_get c (columns out) = col_get c (columns df)) ∧
    (∀ g, col_get (air_col g) (columns out) = Some (Num <$> (defaulted g <$> AIR g))) ∧
    (∀ g i, fcell out (dissolved_col g) i =
       (b ← B !! i; vg ← VG !! i; vw ← VW !! i; t ← T !! i;
        e ← EQ g !! i; a ← AIR g !! i;
        Some (spec_dissolved g b vg vw t e (defaulted g a))))).
Proof.
  intros HB HVG HVW HT HEQ HAIR.
  pose proof (HEQ CO2) as HE1. pose proof (HEQ CH4) as HE2.
  pose proof (HEQ N2O) as HE3. pose proof (HAIR CO2) as HA1.
  pose proof (HAIR CH4) as HA2. pose proof (HAIR N2O) as HA3.
  simpl in HE1, HE2, HE3, HA1, HA2, HA3.
  pose proof (view_refl df) as V.
  cbv delta [calc_sdg_conc def_calc_sdg_conc]; cbv beta.
  py_run.
  py_done. split_and!.
  - done.
  - intros Hwf. unfold wf. rewrite Hn.
    apply (Hall (λ s, length s = nrows df)); [done|].
    pose proof (wf_col_get _ _ _ Hwf HB) as LB.
    pose proof (wf_col_get _ _ _ Hwf HVG) as LVG.
    pose proof (wf_col_get _ _ _ Hwf HVW) as LVW.
    pose proof (wf_col_get _ _ _ Hwf HT) as LT.
    pose proof (λ g, wf_col_get _ _ _ Hwf (HEQ g)) as LEQ.
    pose proof (λ g, wf_col_get _ _ _ Hwf (HAIR g)) as LAIR.
    pose proof (LEQ CO2). pose proof (LEQ CH4). pose proof (LEQ N2O).
    pose proof (LAIR CO2). pose proof (LAIR CH4). pose proof (LAIR N2O).
    rewrite length_fmap in *.
    repeat apply Forall_cons_2; [..|apply Forall_nil_2];
      cbn [snd value_cells binop unop]; unfold replace_nan;
      repeat first [rewrite length_fmap|rewrite length_zip_with|rewrite length_replicate];
      lia.
  - rewrite Hnames. cbn [foldr foldl fmap list_fmap fst dissolved_cols dissolved_col].
    apply col_get_elem in HVG, HVW, HA1, HA2, HA3. fold (names df) in *.
    rewrite (add_name_old _ "concentrationCO2Air") by done.
    rewrite (add_name_old _ "concentrationCH4Air") by done.
    rewrite (add_name_old _ "concentrationN2OAir") by done.
    rewrite !add_name_idem.
    rewrite (add_name_old _ "gasVolume") by (by do 3 apply add_name_keeps).
    by rewrite (add_name_old _ "waterVolume") by (by do 3 apply add_name_keeps).
  - intros c Hc. rewrite Hget.
    cbn [air_cols dissolved_cols fmap list_fmap app air_col dissolved_col] in Hc.
    rewrite !not_elem_of_cons in Hc. destruct_and!.
    cbn [col_get app].
    repeat match goal with
           | |- context [String.eqb ?n c] =>
               destruct (String.eqb_spec n c) as [<-|?]; [first [done|by symmetry]|]
           end.
    done.
  - intros []; rewrite Hget; cbn [col_get app String.eqb Ascii.eqb Bool.eqb andb air_col];
      by rewrite replace_nan_num.
  - intros g i.
    assert (∀ v k, col_get (dissolved_col g) (columns out) = Some (value_cells k v) →
              is_series v → fcell out (dissolved_col g) i = vrow v i) as Hv.
    { intros v k E Hs. by eapply fcell_value. }
    destruct g; (erewrite Hv; [|rewrite Hget; view_lookup|exact I]).
    all: rewrite !vrow_binop, !vrow_unop, !vrow_binop; cbn [vrow].
    all: rewrite list_lookup_fmap.
    all: destruct (B !! i), (VG !! i), (VW !! i), (T !! i), (EQ _ !! i), (AIR _ !! i).
    all: reflexivity.
Qed.

End Conc.

(** ** The saturation calculator, run on a table of numbers *)

Section Sat.
Context `{PyEnv}.

Lemma sat_run df B WT (D AIR : gas → list float) :
  col_get "barometricPressure" (columns df) = Some (Num <$> B) →
  col_get "waterTemp" (columns df) = Some (Num <$> WT) →
  (∀ g, col_get (dissolved_col g) (columns df) = Some (Num <$> D g)) →
  (∀ g, col_get (air_col g) (columns df) = Some (Num <$> AIR g)) →
  returns (calc_sdg_sat df) (λ out,
    nrows out = nrows df ∧
    (wf df → wf out) ∧
    names out = foldl add_name (names df) sat_cols ∧
    (∀ c, c ∉ air_cols ++ sat_cols →
          col_get c (columns out) = col_get c (columns df)) ∧
    (∀ g, col_get (air_col g) (columns out) = Some (Num <$> (defaulted g <$> AIR g))) ∧
    (∀ g i, fcell out (satConc_col g) i =
       (wt ← WT !! i; a ← AIR g !! i; b ← B !! i;
        Some (spec_satConc g wt (defaulted g a) b))) ∧
    (∀ g i, fcell out (percSat_col g) i =
       (d ← D g !! i; s ← fcell out (satConc_col g) i; Some (spec_percSat d s)))).
Proof.
  intros HB HWT HD HAIR.
  pose proof (HD CO2) as HD1. pose proof (HD CH4) as HD2.
  pose proof (HD N2O) as HD3. pose proof (HAIR CO2) as HA1.
  pose proof (HAIR CH4) as HA2. pose proof (HAIR N2O) as HA3.
  simpl in HD1, HD2, HD3, HA1, HA2, HA3.
  pose proof (view_refl df) as V.
  cbv delta [calc_sdg_sat def_calc_sdg_sat]; cbv beta.
  py_run.
  py_done.
  assert (∀ n v k i, col_get n (columns out) = Some (value_cells k v) →
            is_series v → fcell out n i = vrow v i) as Hv.
  { intros n v k i E Hs. by eapply fcell_value. }
  split_and!.
  - done.
  - intros Hwf. unfold wf. rewrite Hn.
    apply (Hall (λ s, length s = nrows df)); [done|].
    pose proof (wf_col_get _ _ _ Hwf HB) as LB.
    pose proof (wf_col_get _ _ _ Hwf HWT) as LWT.
    pose proof (λ g, wf_col_get _ _ _ Hwf (HD g)) as LD.
    pose proof (λ g, wf_col_get _ _ _ Hwf (HAIR g)) as LAIR.
    pose proof (LD CO2). pose proof (LD CH4). pose proof (LD N2O).
    pose proof (LAIR CO2). pose proof (LAIR CH4). pose proof (LAIR N2O).
    rewrite length_fmap in *.
    repeat apply Forall_cons_2; [..|apply Forall_nil_2];
      cbn [snd value_cells binop unop]; unfold replace_nan;
      repeat first [rewrite length_fmap|rewrite length_zip_with|rewrite length_replicate];
      lia.
  - rewrite Hnames.
    cbn [foldr foldl fmap list_fmap fst app sat_cols satConc_col percSat_col].
    apply col_get_elem in HA1, HA2, HA3. fold (names df) in *.
    rewrite (add_name_old _ "concentrationCO2Air") by done.
    rewrite (add_name_old _ "concentrationCH4Air") by done.
    rewrite (add_name_old _ "concentrationN2OAir") by done.
    by rewrite !add_name_idem.
  - intros c Hc. rewrite Hget.
    cbn [air_cols sat_cols fmap list_fmap app air_col satConc_col percSat_col] in Hc.
    rewrite !not_elem_of_cons in Hc. destruct_and!.
    cbn [col_get app].
    repeat match goal with
           | |- context [String.eqb ?n c] =>
               destruct (String.eqb_spec n c) as [<-|?]; [first [done|by symmetry]|]
           end.
    done.
  - intros []; rewrite Hget; cbn [col_get app String.eqb Ascii.eqb Bool.eqb andb air_col];
      by rewrite replace_nan_num.
  - intros g i.
    destruct g; (erewrite Hv; [|rewrite Hget; view_lookup|exact I]).
    all: rewrite !vrow_binop, !vrow_unop, !vrow_binop; cbn [vrow].
    all: rewrite list_lookup_fmap.
    all: destruct (B !! i), (WT !! i), (AIR _ !! i).
    all: reflexivity.
  - intros g i.
    destruct g.
    all: erewrite (Hv (percSat_col _)); [|rewrite Hget; view_lookup|exact I].
    all: erewrite (Hv (satConc_col _)); [|rewrite Hget; view_lookup|exact I].
    all: rewrite vrow_binop, vrow_binop; cbn [vrow].
    all: match goal with |- context [vrow ?v ?j] => generalize (vrow v j) end.
    all: intros s; by destruct (D _ !! _), s.
Qed.

End Sat.

(** ** One row through the calculators *)

Lemma gas_choice {A} (P : gas → A → Prop) :
  (∀ g, ∃ a, P g a) → ∃ f : gas → A, ∀ g, P g (f g).
Proof.
  intros HP.
  destruct (HP CO2) as [a1 H1], (HP CH4) as [a2 H2], (HP N2O) as [a3 H3].
  exists (λ g, match g with CO2 => a1 | CH4 => a2 | N2O => a3 end).
  by intros [].
Qed.

Section Rows.
Context `{PyEnv}.

Lemma conc_row_run df i r :
  conc_row_at df i r →
  returns (calc_sdg_conc df) (λ out,
    (∀ g, fcell out (air_col g) i = Some (defaulted g (c_air r g))) ∧
    (∀ g, fcell out (dissolved_col g) i =
       Some (spec_dissolved g (c_baro r) (c_volGas r) (c_volH2O r)
               (c_headspaceTemp r) (c_eq r g) (defaulted g (c_air r g))))).
Proof.
  intros (HB & HVG & HVW & HT & Hg).
  apply fcell_Some in HB as (B & HB & HBi), HVG as (VG & HVG & HVGi),
    HVW as (VW & HVW & HVWi), HT as (T & HT & HTi).
  destruct (gas_choice (λ g xs, col_get (gas_col g) (columns df) = Some (Num <$> xs)
                                ∧ xs !! i = Some (c_eq r g))) as [EQ HEQ].
  { intros g. destruct (Hg g) as [(xs & ? & ?)%fcell_Some _]. eauto. }
  destruct (gas_choice (λ g xs, col_get (air_col g) (columns df) = Some (Num <$> xs)
                                ∧ xs !! i = Some (c_air r g))) as [AIR HAIR].
  { intros g. destruct (Hg g) as [_ (xs & ? & ?)%fcell_Some]. eauto. }
  destruct (conc_run df B VG VW T EQ AIR) as (out & Hrun & _ & _ & _ & _ & Hair & Hdis);
    try done; try (intros g; by (apply HEQ || apply HAIR)).
  exists out. split; [done|]. split; intros g.
  - rewrite (fcell_col _ _ _ _ (Hair g)), list_lookup_fmap.
    by rewrite (proj2 (HAIR g)).
  - rewrite Hdis, HBi, HVGi, HVWi, HTi, (proj2 (HEQ g)), (proj2 (HAIR g)). done.
Qed.

Lemma sat_row_run df i r :
  sat_row_at df i r →
  returns (calc_sdg_sat df) (λ out,
    (∀ g, fcell out (air_col g) i = Some (defaulted g (s_air r g))) ∧
    (∀ g, fcell out (dissolved_col g) i = Some (s_dissolved r g)) ∧
    (∀ g, fcell out (satConc_col g) i =
       Some (spec_satConc g (s_waterTemp r) (defaulted g (s_air r g)) (s_baro r))) ∧
    (∀ g k, fcell out (percSat_col g) k =
       (d ← fcell out (dissolved_col g) k; s ← fcell out (satConc_col g) k;
        Some (spec_percSat d s)))).
Proof.
  intros (HB & HWT & Hg).
  apply fcell_Some in HB as (B & HB & HBi), HWT as (WT & HWT & HWTi).
  destruct (gas_choice (λ g xs, col_get (dissolved_col g) (columns df) = Some (Num <$> xs)
                                ∧ xs !! i = Some (s_dissolved r g))) as [D HD].
  { intros g. destruct (Hg g) as [(xs & ? & ?)%fcell_Some _]. eauto. }
  destruct (gas_choice (λ g xs, col_get (air_col g) (columns df) = Some (Num <$> xs)
                                ∧ xs !! i = Some (s_air r g))) as [AIR HAIR].
  { intros g. destruct (Hg g) as [_ (xs & ? & ?)%fcell_Some]. eauto. }
  destruct (sat_run df B WT D AIR) as (out & Hrun & _ & _ & _ & Hfr & Hair & Hsat & Hperc);
    try done; try (intros g; by (apply HD || apply HAIR)).
  assert (∀ g k, fcell out (dissolved_col g) k = D g !! k) as Hdis.
  { intros g k. apply fcell_col. rewrite Hfr; [by apply HD|].
    destruct g; cbn; rewrite !not_elem_of_cons; split_and!; try done.
    all: apply not_elem_of_nil. }
  exists out. split; [done|]. split_and!; intros g.
  - rewrite (fcell_col _ _ _ _ (Hair g)), list_lookup_fmap.
    by rewrite (proj2 (HAIR g)).
  - by rewrite Hdis, (proj2 (HD g)).
  - by rewrite Hsat, HWTi, (proj2 (HAIR g)), HBi.
  - intros k. by rewrite Hperc, Hdis.
Qed.

End Rows.

(** ** The formatter's loops *)

Ltac in_names :=
  solve [repeat first [apply list_elem_of_here | apply list_elem_of_further]].

Lemma cell_at_setitem df c s c' l :
  cell_at (setitem df c s) c' l =
  if String.eqb c c' then s !! l else cell_at df c' l.
Proof. unfold cell_at. simpl. rewrite col_get_set. by destruct (String.eqb c c'). Qed.

Lemma shaped_col n df c :
  shaped n df → c ∈ outputDFNames →
  ∃ s, col_get c (columns df) = Some s ∧ length s = n.
Proof.
  intros (Hn & Hnames & Hwf) Hc. rewrite <- Hnames in Hc.
  apply col_get_names in Hc as [s Hs]. exists s. split; [done|].
  rewrite <- Hn. by eapply wf_col_get.
Qed.

Lemma shaped_setitem n df c s :
  shaped n df → c ∈ outputDFNames → length s = n → shaped n (setitem df c s).
Proof.
  intros (Hn & Hnames & Hwf) Hc Hs. split_and!; [done| |].
  - rewrite names_setitem, add_name_old; [done|]. by rewrite Hnames.
  - unfold wf. simpl.
    apply (Forall_col_set (λ t, length t = nrows df)); [by rewrite Hn|done].
Qed.

Lemma set_at_setitem df c l v s :
  col_get c (columns df) = Some s → set_at df c l v = setitem df c (<[l:=v]> s).
Proof. intros E. unfold set_at. by rewrite E. Qed.

Lemma shaped_set_at n df c l v :
  shaped n df → c ∈ outputDFNames → shaped n (set_at df c l v).
Proof.
  intros Hdf Hc. destruct (shaped_col n df c) as (s & Hs & Hlen); [done..|].
  rewrite (set_at_setitem _ _ _ _ _ Hs). apply shaped_setitem; [done..|].
  by rewrite length_insert.
Qed.

Lemma cell_at_set_at n df c l v c' l' :
  shaped n df → c ∈ outputDFNames → l < n →
  cell_at (set_at df c l v) c' l' =
  if decide (c' = c ∧ l' = l) then Some v else cell_at df c' l'.
Proof.
  intros Hdf Hc Hl. destruct (shaped_col n df c) as (s & Hs & Hlen); [done..|].
  rewrite (set_at_setitem _ _ _ _ _ Hs), cell_at_setitem.
  destruct (String.eqb_spec c c') as [<-|Hne].
  - rewrite list_lookup_insert. unfold cell_at. rewrite Hs. simpl.
    case_decide as H1; case_decide as H2; try done.
    + destruct H2. split; [done|]. by destruct H1.
    + destruct H1. destruct H2 as [_ ->]. split; [done|lia].
  - case_decide as H1; [|done]. by destruct H1 as [-> _].
Qed.

Lemma at_row_shaped n df c l :
  shaped n df → c ∈ outputDFNames → l < n →
  ∃ k, cell_at df c l = Some k ∧ at_row df c l = Ok k.
Proof.
  intros Hdf Hc Hl. destruct (shaped_col n df c) as (s & Hs & Hlen); [done..|].
  destruct (lookup_lt_is_Some_2 s l) as [k Hk]; [lia|].
  exists k. unfold cell_at, at_row, loc. rewrite Hs. simpl. by rewrite Hk.
Qed.

Lemma at_row_cell n df c l k :
  shaped n df → c ∈ outputDFNames → l < n →
  cell_at df c l = Some k → at_row df c l = Ok k.
Proof.
  intros Hdf Hc Hl Hk. destruct (at_row_shaped n df c l) as (k' & Hk' & ->); [done..|].
  congruence.
Qed.

(** A loop whose pass [l] rewrites the cells of row [l] only, each from
    its old value. *)
Lemma for_range_rows (I : DataFrame → Prop) (f : nat → string → cell → cell)
    (body : nat → DataFrame → result DataFrame) n df :
  I df →
  (∀ d l, I d → l < n →
     ∃ d', body l d = Ok d' ∧ I d' ∧
       ∀ c l', cell_at d' c l' =
               if decide (l' = l) then f l c <$> cell_at d c l else cell_at d c l') →
  ∃ out, for_range n body df = Ok out ∧ I out ∧
    ∀ c l', cell_at out c l' =
            if decide (l' < n) then f l' c <$> cell_at df c l' else cell_at df c l'.
Proof.
  intros Hdf. induction n as [|n IH]; intros Hbody.
  - exists df. split_and!; [done..|]. intros c l'. case_decide; [lia|done].
  - destruct IH as (out & Hrun & Hout & Hcells).
    { intros d l Hd Hl. apply Hbody; [done|lia]. }
    destruct (Hbody out n Hout) as (d' & Hd' & HI' & Hcells'); [lia|].
    exists d'. split_and!; [|done|].
    + unfold for_range in *. rewrite seq_S, foldl_app. simpl. by rewrite Hrun.
    + intros c l'. rewrite Hcells'. case_decide as Hl'.
      * subst l'. rewrite Hcells. repeat case_decide; try lia. done.
      * rewrite Hcells. repeat case_decide; try lia; done.
Qed.

Ltac decide_names :=
  repeat first
    [ rewrite decide_True by (split; congruence)
    | rewrite decide_False by (intros [? ?]; congruence) ].

Lemma block_update_fmap_id (R Q : result cell) air gas c (o : option cell) :
  c ≠ air → c ≠ gas → block_update R Q air gas c <$> o = o.
Proof.
  intros H1%String.eqb_neq H2%String.eqb_neq. unfold block_update.
  rewrite H1, H2. by destruct o.
Qed.

Lemma lab_block_spec n lab conc air gas l d ref eq :
  shaped n d → l < n → air ∈ outputDFNames → gas ∈ outputDFNames →
  air ≠ gas → air ≠ "equilibratedAirSampleID" →
  cell_at d "referenceAirSampleID" l = Some ref →
  cell_at d "equilibratedAirSampleID" l = Some eq →
  let d' :=
    try_pass
      [ (λ outputDF,
          key ← at_row outputDF "referenceAirSampleID" l;
          v ← item_where lab "sampleID" key conc;
          Ok (set_at outputDF air l v));
        (λ outputDF,
          key ← at_row outputDF "equilibratedAirSampleID" l;
          v ← item_where lab "sampleID" key conc;
          Ok (set_at outputDF gas l v)) ] d in
  shaped n d' ∧
  ∀ c l', cell_at d' c l' =
    if decide (l' = l)
    then block_update (item_where lab "sampleID" ref conc)
           (item_where lab "sampleID" eq conc) air gas c <$> cell_at d c l
    else cell_at d c l'.
Proof.
  intros Hd Hl Hair Hgas Hag Hae Href Heq. simpl.
  assert ("referenceAirSampleID" ∈ outputDFNames) as Hrn by in_names.
  assert ("equilibratedAirSampleID" ∈ outputDFNames) as Hen by in_names.
  destruct (at_row_shaped n d air l) as (oa & Hoa & _); [done..|].
  destruct (at_row_shaped n d gas l) as (og & Hog & _); [done..|].
  rewrite (at_row_cell n d _ l ref) by done. rewrite bind_Ok.
  destruct (item_where lab "sampleID" ref conc) as [v|e] eqn:HR; simpl.
  - pose proof (shaped_set_at n d air l v Hd Hair) as Hd1.
    assert (cell_at (set_at d air l v) "equilibratedAirSampleID" l = Some eq) as Heq1.
    { rewrite (cell_at_set_at n) by done. case_decide as Hx; [|done].
      by destruct Hx as [<- _]. }
    rewrite (at_row_cell n _ _ l eq) by done. rewrite bind_Ok.
    destruct (item_where lab "sampleID" eq conc) as [w|e] eqn:HQ; simpl.
    + split; [by apply shaped_set_at|]. intros c l'.
      rewrite !(cell_at_set_at n) by done. unfold block_update.
      destruct (decide (l' = l)) as [->|Hl'].
      * destruct (String.eqb_spec c air) as [->|Hca].
        { rewrite Hoa. simpl. rewrite decide_False by (by intros [? _]).
          by rewrite decide_True. }
        destruct (String.eqb_spec c gas) as [->|Hcg].
        { rewrite Hog. simpl. by rewrite decide_True. }
        rewrite !decide_False by (by intros [? _]). by destruct (cell_at d c l).
      * by rewrite !decide_False by (by intros [_ ?]).
    + split; [done|]. intros c l'.
      rewrite !(cell_at_set_at n) by done. unfold block_update.
      destruct (decide (l' = l)) as [->|Hl'].
      * destruct (String.eqb_spec c air) as [->|Hca].
        { rewrite Hoa. simpl. by rewrite decide_True. }
        rewrite decide_False by (by intros [? _]).
        destruct (String.eqb c gas); by destruct (cell_at d c l).
      * by rewrite !decide_False by (by intros [_ ?]).
  - split; [done|]. intros c l'. unfold block_update.
    destruct (decide (l' = l)) as [->|Hl']; [|done].
    destruct (String.eqb c air), (String.eqb c gas); by destruct (cell_at d c l).
Qed.

Lemma lab_row_spec n lab l d ref eq :
  shaped n d → l < n →
  cell_at d "referenceAirSampleID" l = Some ref →
  cell_at d "equilibratedAirSampleID" l = Some eq →
  shaped n (lab_row lab l d) ∧
  ∀ c l', cell_at (lab_row lab l d) c l' =
    if decide (l' = l) then lab_update lab ref eq c <$> cell_at d c l
    else cell_at d c l'.
Proof.
  intros Hd Hl Href Heq. unfold lab_row. cbv zeta.
  destruct (lab_block_spec n lab "concentrationCO2" "concentrationCO2Air"
              "concentrationCO2Gas" l d ref eq) as [Hs1 Hc1];
    [done|done|in_names|in_names|done|done|done|done|].
  set (d1 := try_pass _ d) in *.
  destruct (lab_block_spec n lab "concentrationCH4" "concentrationCH4Air"
              "concentrationCH4Gas" l d1 ref eq) as [Hs2 Hc2];
    [done|done|in_names|in_names|done|done|..].
  { rewrite Hc1, decide_True, Href by done. reflexivity. }
  { rewrite Hc1, decide_True, Heq by done. reflexivity. }
  set (d2 := try_pass _ d1) in *.
  destruct (lab_block_spec n lab "concentrationN2O" "concentrationN2OAir"
              "concentrationN2OGas" l d2 ref eq) as [Hs3 Hc3];
    [done|done|in_names|in_names|done|done|..].
  { rewrite Hc2, decide_True, Hc1, decide_True, Href by done. reflexivity. }
  { rewrite Hc2, decide_True, Hc1, decide_True, Heq by done. reflexivity. }
  split; [done|]. intros c l'. rewrite Hc3.
  case_decide as Hl'; [|by rewrite Hc2, decide_False, Hc1, decide_False by done].
  rewrite Hc2, decide_True, Hc1, decide_True by done.
  by destruct (cell_at d c l).
Qed.

Lemma temp_row_spec n sp m d wid :
  shaped n d → m < n → cell_at d "waterSampleID" m = Some wid →
  ∃ d', temp_row sp m d = Ok d' ∧ shaped n d' ∧
    ∀ c l', cell_at d' c l' =
      if decide (l' = m) then temp_update sp wid c <$> cell_at d c m
      else cell_at d c l'.
Proof.
  intros Hd Hm Hwid. unfold temp_row. cbv zeta. simpl try_pass.
  assert ("waterSampleID" ∈ outputDFNames) as Hwn by in_names.
  assert ("waterTemp" ∈ outputDFNames) as Htn by in_names.
  assert ("headspaceTemp" ∈ outputDFNames) as Hhn by in_names.
  destruct (at_row_shaped n d "waterTemp" m) as (ot & Hot & _); [done..|].
  destruct (at_row_shaped n d "headspaceTemp" m) as (oh & Hoh & _); [done..|].
  rewrite (at_row_cell n d "waterSampleID" m wid) by done. rewrite bind_Ok.
  unfold temp_update.
  destruct (item_where sp "parentSampleID" wid "waterTemp") as [v|e] eqn:HW; simpl.
  - pose proof (shaped_set_at n d "waterTemp" m v Hd Htn) as Hd1.
    assert (cell_at (set_at d "waterTemp" m v) "headspaceTemp" m = Some oh) as Hoh1.
    { rewrite (cell_at_set_at n) by done. by decide_names. }
    assert (cell_at (set_at d "waterTemp" m v) "waterSampleID" m = Some wid) as Hwid1.
    { rewrite (cell_at_set_at n) by done. by decide_names. }
    rewrite (at_row_cell n _ "headspaceTemp" m oh) by done. rewrite bind_Ok.
    destruct (isna oh) eqn:Hna; simpl.
    + rewrite (at_row_cell n _ "waterSampleID" m wid) by done. rewrite bind_Ok, HW. simpl.
      eexists. split; [done|]. split; [by apply shaped_set_at|].
      intros c l'. rewrite !(cell_at_set_at n) by done.
      destruct (decide (l' = m)) as [->|Hl'];
        [|by rewrite !decide_False by (by intros [_ ?])].
      destruct (String.eqb_spec c "waterTemp") as [->|Hct];
        [decide_names; by rewrite Hot|].
      destruct (String.eqb_spec c "headspaceTemp") as [->|Hch];
        [decide_names; rewrite Hoh; simpl; by rewrite Hna|].
      decide_names. by destruct (cell_at d c m).
    + eexists. split; [done|]. split; [done|].
      intros c l'. rewrite !(cell_at_set_at n) by done.
      destruct (decide (l' = m)) as [->|Hl'];
        [|by rewrite !decide_False by (by intros [_ ?])].
      destruct (String.eqb_spec c "waterTemp") as [->|Hct];
        [decide_names; by rewrite Hot|].
      destruct (String.eqb_spec c "headspaceTemp") as [->|Hch];
        [decide_names; rewrite Hoh; simpl; by rewrite Hna|].
      decide_names. by destruct (cell_at d c m).
  - rewrite (at_row_cell n _ "headspaceTemp" m oh) by done. rewrite bind_Ok.
    assert (∀ c l', cell_at d c l' =
              if decide (l' = m)
              then (λ old, if String.eqb c "waterTemp" then old
                           else if String.eqb c "headspaceTemp"
                                then if isna old then old else old
                                else old) <$> cell_at d c m
              else cell_at d c l') as Hsame.
    { intros c l'. case_decide as Hl'; [subst l'|done].
      destruct (cell_at d c m) as [old|]; [|done]. simpl.
      by destruct (String.eqb c "waterTemp"), (String.eqb c "headspaceTemp"),
        (isna old). }
    destruct (isna oh) eqn:Hna; simpl.
    + rewrite (at_row_cell n _ "waterSampleID" m wid) by done. rewrite bind_Ok, HW. simpl.
      by exists d.
    + by exists d.
Qed.

(** ** Lookups by key *)

Lemma mask_select_length mask (s t : Series) :
  length s = length t →
  length (mask_select mask s) = length (mask_select mask t).
Proof.
  revert s t. induction mask as [|b mask IH]; intros [|x s] [|y t] Hlen;
    try done.
  injection Hlen as Hlen. simpl. destruct b; simpl; auto.
Qed.

Lemma mask_select_elem mask (s : Series) v : v ∈ mask_select mask s → v ∈ s.
Proof.
  revert s. induction mask as [|b mask IH]; intros [|x s]; simpl;
    try (by intros ?%elem_of_nil).
  destruct b; rewrite ?elem_of_cons; intros Hv; [destruct Hv as [->|Hv]|]; auto.
Qed.

Lemma item_Ok (s : Series) v : item s = Ok v → s = [v].
Proof. destruct s as [|x [|y s]]; simpl; congruence. Qed.

Lemma item_length (s : Series) : length s ≠ 1 → item s = Raise ValueError.
Proof. destruct s as [|x [|y s]]; simpl; [done| |done]. by intros []. Qed.

(** A lookup that returns has found its value in the value column. *)
Lemma item_where_Ok tbl kc key vc v :
  item_where tbl kc key vc = Ok v →
  ∃ s, col_get vc (columns tbl) = Some s ∧ v ∈ s.
Proof.
  unfold item_where, loc.
  destruct (col_get kc (columns tbl)) as [ids|]; [|done].
  destruct (col_get vc (columns tbl)) as [vals|]; [|done].
  rewrite !bind_Ok. intros Hv%item_Ok. exists vals. split; [done|].
  apply (mask_select_elem ((λ c, cell_eqb c key) <$> ids)). rewrite Hv.
  apply list_elem_of_here.
Qed.

(** A key with no match, or with several, makes the lookup raise. *)
Lemma item_where_count tbl kc key vc :
  wf tbl → match_count tbl kc key ≠ 1 →
  ∃ e, item_where tbl kc key vc = Raise e.
Proof.
  intros Hwf. unfold match_count, item_where, loc.
  destruct (col_get kc (columns tbl)) as [ids|] eqn:Hids; [|by eexists].
  destruct (col_get vc (columns tbl)) as [vals|] eqn:Hvals; [|by eexists].
  rewrite !bind_Ok. intros Hn. exists ValueError. apply item_length.
  rewrite (mask_select_length _ vals ids); [done|].
  by rewrite (wf_col_get tbl kc ids), (wf_col_get tbl vc vals).
Qed.

Lemma item_where_num tbl kc key vc :
  numeric_if_present tbl vc → is_num (or_null (item_where tbl kc key vc)).
Proof.
  intros Hnum. destruct (item_where tbl kc key vc) as [v|e] eqn:E; [|done].
  apply item_where_Ok in E as (s & Hs & Hv). simpl.
  specialize (Hnum s Hs). rewrite Forall_forall in Hnum. by apply Hnum.
Qed.

(** ** Lines 104-116: the output table before the joins *)

Lemma copy_columns n src ns d :
  (∀ c s, col_get c (columns src) = Some s → length s = n) →
  shaped n d → ns ⊆ outputDFNames →
  let d' := foldl (λ outputDF name,
                     match col_get name (columns src) with
                     | Some s => setitem outputDF name s
                     | None => outputDF
                     end) d ns in
  shaped n d' ∧
  ∀ c, col_get c (columns d') =
       if bool_decide (c ∈ ns)
       then match col_get c (columns src) with
            | Some s => Some s
            | None => col_get c (columns d)
            end
       else col_get c (columns d).
Proof.
  intros Hsrc. revert d. induction ns as [|k ns IH]; intros d Hd Hns; cbn [foldl].
  - split; [done|]. intros c. by rewrite bool_decide_eq_false_2 by apply not_elem_of_nil.
  - assert (k ∈ outputDFNames) as Hk by (apply Hns, list_elem_of_here).
    assert (ns ⊆ outputDFNames) as Hns'.
    { intros x Hx. by apply Hns, list_elem_of_further. }
    destruct (col_get k (columns src)) as [s|] eqn:Hks.
    + destruct (IH (setitem d k s)) as [Hs' Hc']; [|done|].
      { apply shaped_setitem; [done..|]. by eapply Hsrc. }
      split; [done|]. intros c. rewrite Hc'. simpl. rewrite col_get_set.
      destruct (String.eqb_spec k c) as [->|Hkc].
      * rewrite Hks. rewrite (bool_decide_eq_true_2 (c ∈ c :: ns)) by apply list_elem_of_here.
        by case_bool_decide.
      * case_bool_decide as Hin.
        -- by rewrite bool_decide_eq_true_2 by by apply list_elem_of_further.
        -- rewrite bool_decide_eq_false_2; [done|].
           rewrite elem_of_cons. by intros [->|?].
    + destruct (IH d) as [Hs' Hc']; [done..|].
      split; [done|]. intros c. rewrite Hc'.
      case_bool_decide as Hin.
      * by rewrite bool_decide_eq_true_2 by by apply list_elem_of_further.
      * case_bool_decide as Hin'; [|done].
        apply elem_of_cons in Hin' as [->|?]; [|done]. by rewrite Hks.
Qed.

Lemma shaped_empty_output n : shaped n (empty_output n).
Proof.
  split_and!; [done|done|]. unfold wf. simpl.
  repeat constructor; simpl; by rewrite length_replicate.
Qed.

Lemma col_get_filled (ns : list string) (s : Series) c :
  c ∈ ns → col_get c ((λ name, (name, s)) <$> ns) = Some s.
Proof.
  induction ns as [|k ns IH]; intros Hc; [by apply elem_of_nil in Hc|].
  rewrite fmap_cons. cbn [col_get].
  destruct (String.eqb_spec k c) as [->|Hkc]; [done|].
  apply IH. apply elem_of_cons in Hc as [->|?]; done.
Qed.

Lemma col_get_empty_output n c :
  c ∈ outputDFNames → col_get c (columns (empty_output n)) = Some (replicate n NaN).
Proof. apply (col_get_filled outputDFNames). Qed.

(** ** Lines 153-159: the coercion of a column of numbers *)

Section Coercion.
Context `{PyEnv}.

Lemma astype_float_is_num s : Forall is_num s → astype_float s = Ok s.
Proof.
  unfold astype_float. induction 1 as [|[x|t] s Hx Hs IH]; [done| |done].
  rewrite mapM_cons, IH. done.
Qed.

Lemma astype_step n d c :
  shaped n d → c ∈ outputDFNames →
  (∀ l k, cell_at d c l = Some k → is_num k) →
  ∃ s, getattr d c = Ok s ∧ astype_float s = Ok s ∧
       shaped n (setitem d c s) ∧
       ∀ c' l, cell_at (setitem d c s) c' l = cell_at d c' l.
Proof.
  intros Hd Hc Hnum. destruct (shaped_col n d c) as (s & Hs & Hlen); [done..|].
  exists s. split_and!.
  - by apply getattr_Some.
  - apply astype_float_is_num, Forall_lookup. intros i k Hk.
    apply (Hnum i). unfold cell_at. by rewrite Hs.
  - by apply shaped_setitem.
  - intros c' l. rewrite cell_at_setitem.
    destruct (String.eqb_spec c c') as [<-|]; [|done].
    unfold cell_at. by rewrite Hs.
Qed.

End Coercion.

(** ** The formatter, run on well-formed tables *)

Lemma have_column df c :
  wf df → c ∈ names df →
  ∃ s, col_get c (columns df) = Some s ∧ length s = nrows df.
Proof.
  intros Hwf Hc. apply col_get_names in Hc as [s Hs]. exists s.
  split; [done|]. by eapply wf_col_get.
Qed.

Lemma no_column df c : c ∉ names df → col_get c (columns df) = None.
Proof.
  intros Hc. destruct (col_get c (columns df)) eqn:E; [|done].
  destruct Hc. by eapply col_get_elem.
Qed.

(** The test of lines 63-77 fails on every column. *)
Lemma isna_is_never_True (s : Series) : is_True (Series_isna s) = false.
Proof. reflexivity. Qed.

Lemma copied_cell n src o c l :
  (∀ s, col_get c (columns src) = Some s → length s = n) →
  col_get c (columns o) =
    match col_get c (columns src) with
    | Some s => Some s
    | None => Some (replicate n NaN)
    end →
  l < n → cell_at o c l = Some (key_cell src c l).
Proof.
  intros Hlen Ho Hl. unfold key_cell, cell_at. rewrite Ho.
  destruct (col_get c (columns src)) as [s|] eqn:E; simpl.
  - destruct (lookup_lt_is_Some_2 s l) as [k Hk]; [by rewrite (Hlen s)|].
    by rewrite Hk.
  - by rewrite lookup_replicate_2.
Qed.

Lemma cell_at_lt n d c l k :
  shaped n d → c ∈ outputDFNames → cell_at d c l = Some k → l < n.
Proof.
  intros Hd Hc Hk. destruct (shaped_col n d c) as (s & Hs & Hlen); [done..|].
  unfold cell_at in Hk. rewrite Hs in Hk. simpl in Hk.
  apply lookup_lt_Some in Hk. lia.
Qed.

Lemma joined_cols_output c : c ∈ joined_cols → c ∈ outputDFNames.
Proof.
  intros Hc. unfold joined_cols in Hc.
  repeat (apply elem_of_cons in Hc as [->|Hc]); [in_names..|].
  by apply elem_of_nil in Hc.
Qed.

Lemma joined_cell_num lab sp ref eq wid c :
  (∀ g, numeric_if_present lab (lab_col g)) →
  numeric_if_present sp "waterTemp" →
  c ∈ joined_cols →
  is_num (temp_update sp wid c (lab_update lab ref eq c NaN)).
Proof.
  intros Hlab Hsp Hc. unfold joined_cols in Hc.
  repeat (apply elem_of_cons in Hc as [->|Hc]); [..|by apply elem_of_nil in Hc];
    cbn [temp_update lab_update block_update String.eqb Ascii.eqb Bool.eqb andb].
  - apply (item_where_num sp "parentSampleID" wid "waterTemp" Hsp).
  - apply (item_where_num lab "sampleID" ref "concentrationCO2" (Hlab CO2)).
  - destruct (item_where lab "sampleID" ref "concentrationCO2"); [|done].
    apply (item_where_num lab "sampleID" eq "concentrationCO2" (Hlab CO2)).
  - apply (item_where_num lab "sampleID" ref "concentrationCH4" (Hlab CH4)).
  - destruct (item_where lab "sampleID" ref "concentrationCH4"); [|done].
    apply (item_where_num lab "sampleID" eq "concentrationCH4" (Hlab CH4)).
  - apply (item_where_num lab "sampleID" ref "concentrationN2O" (Hlab N2O)).
  - destruct (item_where lab "sampleID" ref "concentrationN2O"); [|done].
    apply (item_where_num lab "sampleID" eq "concentrationN2O" (Hlab N2O)).
Qed.

Lemma joined_air lab sp ref eq wid g :
  temp_update sp wid (air_col g) (lab_update lab ref eq (air_col g) NaN) =
  or_null (item_where lab "sampleID" ref (lab_col g)).
Proof. by destruct g. Qed.

Lemma joined_gas lab sp ref eq wid g :
  temp_update sp wid (gas_col g) (lab_update lab ref eq (gas_col g) NaN) =
  match item_where lab "sampleID" ref (lab_col g) with
  | Ok _ => or_null (item_where lab "sampleID" eq (lab_col g))
  | Raise _ => NaN
  end.
Proof. by destruct g. Qed.

Lemma joined_temp lab sp ref eq wid :
  temp_update sp wid "waterTemp" (lab_update lab ref eq "waterTemp" NaN) =
  or_null (item_where sp "parentSampleID" wid "waterTemp").
Proof. reflexivity. Qed.

Lemma air_col_joined g : air_col g ∈ joined_cols.
Proof. destruct g; in_names. Qed.

Lemma gas_col_joined g : gas_col g ∈ joined_cols.
Proof. destruct g; in_names. Qed.

Ltac py_pose o :=
  lazymatch goal with
  | |- returns (let x := ?e in @?K x) ?P =>
      pose (o := e); change (returns (K o) P); cbv beta
  end.

Ltac py_skip :=
  lazymatch goal with
  | |- returns (let x := ?d in @?K x) ?P =>
      is_var d; change (returns (K d) P); cbv beta
  end.

Ltac py_flag :=
  py_read; rewrite bind_Ok; cbv beta; rewrite isna_is_never_True; cbv iota.

Ltac py_assign o Ho Hc :=
  rewrite bind_Ok; cbv beta; py_pose o;
  lazymatch goal with
  | o' := setitem ?d ?name ?s |- _ =>
      assert (∀ c, col_get c (columns o) =
                   if String.eqb name c then Some s else col_get c (columns d))
        as Hc by (intros; apply col_get_set);
      lazymatch goal with
      | Hd : shaped ?n d |- _ =>
          assert (shaped n o) as Ho
            by (apply shaped_setitem; [exact Hd|in_names|done])
      end;
      clearbody o
  end.

Ltac py_astype d' :=
  lazymatch goal with
  | Hsh : shaped ?n ?d, Hsame : (∀ x i, cell_at ?d x i = cell_at ?dT x i),
    Hnum : (∀ x i k, x ∈ joined_cols → cell_at ?dT x i = Some k → is_num k)
    |- context [getattr ?d ?name] =>
      let s := fresh "s" in
      let Hg := fresh "Hg" in
      let Ha := fresh "Ha" in
      let Hs' := fresh "Hsh" in
      let Hc' := fresh "Hsame" in
      destruct (astype_step n d name Hsh) as (s & Hg & Ha & Hs' & Hc');
        [in_names
        |let Hk := fresh "Hk" in
         intros ? ? Hk; eapply Hnum;
           [|etrans; [symmetry; apply Hsame|exact Hk]]; in_names
        |];
      rewrite Hg, bind_Ok; cbv beta; rewrite Ha, bind_Ok; cbv beta;
      py_pose d'; fold d' in Hs', Hc';
      assert (∀ x i, cell_at d' x i = cell_at dT x i)
        by (intros; rewrite Hc'; apply Hsame);
      clearbody d'; clear Hsame Hc' Hsh Hg Ha
  end.

Section Format.
Context `{PyEnv}.

Lemma format_run lab fdp sp :
  wf fdp →
  Forall (λ c, c ∈ names fdp) field_inputs →
  Forall (λ c, c ∉ names fdp) joined_cols →
  (∀ g, numeric_if_present lab (lab_col g)) →
  numeric_if_present sp "waterTemp" →
  returns (def_format_sdg lab fdp sp) (λ out,
    shaped (nrows fdp) out ∧
    (∀ l, l < nrows fdp →
       cell_at out "waterSampleID" l = Some (key_cell fdp "waterSampleID" l)) ∧
    ∀ c l, c ∈ joined_cols → l < nrows fdp →
      cell_at out c l =
      Some (temp_update sp (key_cell fdp "waterSampleID" l) c
              (lab_update lab (key_cell fdp "referenceAirSampleID" l)
                 (key_cell fdp "equilibratedAirSampleID" l) c NaN))).
Proof.
  intros Hwf Hin Hnot Hlab Hsp.
  assert (∀ c, c ∈ field_inputs →
            ∃ s, col_get c (columns fdp) = Some s ∧ length s = nrows fdp) as Hcol.
  { intros c Hc. apply have_column; [done|]. rewrite Forall_forall in Hin. by apply Hin. }
  destruct (Hcol "waterVolumeSyringe") as (sWV & HWV & LWV); [in_names|].
  destruct (Hcol "gasVolumeSyringe") as (sGV & HGV & LGV); [in_names|].
  destruct (Hcol "waterSampleID") as (sID & HID & LID); [in_names|].
  destruct (Hcol "storageWaterTemp") as (sST & HST & LST); [in_names|].
  destruct (Hcol "ptBarometricPressure") as (sBP & HBP & LBP); [in_names|].
  destruct (Hcol "namedLocation") as (sNL & HNL & LNL); [in_names|].
  clear Hcol.
  pose proof (view_refl fdp) as V.
  cbv delta [def_format_sdg]; cbv beta.
  (* lines 63-77 *)
  py_flag. py_let. py_flag. py_let. py_flag. py_skip. py_flag. py_skip.
  lazymatch goal with V : view _ ?d _ |- _ => rename d into fdp2; rename V into V2 end.
  clear d.
  pose proof V2 as (Hn2 & _ & Hget2 & Hall2).
  assert (∀ c s, col_get c (columns fdp2) = Some s → length s = nrows fdp) as Hlen2.
  { intros c s Hs. rewrite <- Hn2. apply (wf_col_get fdp2 c s); [|done].
    unfold wf. rewrite Hn2. apply (Hall2 (λ s, length s = nrows fdp)); [exact Hwf|].
    repeat constructor; simpl; by rewrite length_replicate. }
  (* lines 104-110 *)
  repeat py_read. rewrite bind_Ok; cbv beta. rewrite LID. py_pose o0. py_pose o1.
  destruct (copy_columns (nrows fdp) fdp2 outputDFNames o0) as [Ho1 Hc1];
    [done|apply shaped_empty_output|done|].
  subst o0. fold o1 in Ho1, Hc1. clearbody o1.
  (* lines 112-116 *)
  py_assign o2 Ho2 Hc2. py_assign o3 Ho3 Hc3. py_assign o4 Ho4 Hc4.
  py_assign o5 Ho5 Hc5. py_assign o6 Ho6 Hc6.
  assert (∀ c l, c ∈ ["waterSampleID"; "referenceAirSampleID";
                      "equilibratedAirSampleID"] → l < nrows fdp →
            cell_at o6 c l = Some (key_cell fdp c l)) as Hkeys.
  { intros c l Hc Hl. apply (copied_cell (nrows fdp)); [|clear Hl|done].
    { intros s. apply wf_col_get, Hwf. }
    rewrite Hc6, Hc5, Hc4, Hc3, Hc2, Hc1, Hget2.
    repeat (apply elem_of_cons in Hc as [->|Hc]); [..|by apply elem_of_nil in Hc];
      cbn [String.eqb Ascii.eqb Bool.eqb andb app col_get];
      rewrite bool_decide_eq_true_2 by in_names;
      rewrite col_get_empty_output by in_names;
      by destruct (col_get _ (columns fdp)). }
  assert (∀ c l, c ∈ joined_cols → l < nrows fdp → cell_at o6 c l = Some NaN)
    as Hnull.
  { intros c l Hc Hl. unfold cell_at.
    rewrite Hc6, Hc5, Hc4, Hc3, Hc2, Hc1, Hget2.
    assert (col_get c (columns fdp) = None) as Hnone.
    { apply no_column. rewrite Forall_forall in Hnot. by apply Hnot. }
    pose proof (joined_cols_output c Hc) as Hco.
    unfold joined_cols in Hc.
    repeat (apply elem_of_cons in Hc as [->|Hc]); [..|by apply elem_of_nil in Hc];
      cbn [String.eqb Ascii.eqb Bool.eqb andb app col_get];
      rewrite bool_decide_eq_true_2 by done;
      rewrite Hnone, col_get_empty_output by done; simpl;
      by rewrite lookup_replicate_2. }
  (* lines 120-138 *)
  destruct (shaped_col _ o6 "waterSampleID" Ho6) as (sW & HsW & LsW); [in_names|].
  rewrite (loc_Some o6 _ _ HsW), bind_Ok; cbv beta. rewrite LsW. clear sW HsW LsW.
  destruct (for_range_rows
    (λ d, shaped (nrows fdp) d ∧
          ∀ l, cell_at d "referenceAirSampleID" l = cell_at o6 "referenceAirSampleID" l ∧
               cell_at d "equilibratedAirSampleID" l =
               cell_at o6 "equilibratedAirSampleID" l)
    (λ l c, lab_update lab (key_cell fdp "referenceAirSampleID" l)
              (key_cell fdp "equilibratedAirSampleID" l) c)
    (λ l d, Ok (lab_row lab l d)) (nrows fdp) o6) as (dL & HrunL & [HdL _] & HcL).
  { by split. }
  { intros d l [Hd Hk] Hl.
    destruct (lab_row_spec (nrows fdp) lab l d
                (key_cell fdp "referenceAirSampleID" l)
                (key_cell fdp "equilibratedAirSampleID" l) Hd Hl) as [Hs' Hc'].
    - rewrite (proj1 (Hk l)). apply Hkeys; [in_names|done].
    - rewrite (proj2 (Hk l)). apply Hkeys; [in_names|done].
    - eexists. split; [done|]. split; [|exact Hc'].
      split; [done|]. intros l'. rewrite !Hc'.
      case_decide as E; [subst l'|apply Hk].
      rewrite <- (proj1 (Hk l)), <- (proj2 (Hk l)).
      by destruct (cell_at d "referenceAirSampleID" l),
        (cell_at d "equilibratedAirSampleID" l). }
  rewrite HrunL, bind_Ok; cbv beta. clear HrunL.
  (* lines 141-150 *)
  destruct (shaped_col _ dL "waterSampleID" HdL) as (sW & HsW & LsW); [in_names|].
  rewrite (loc_Some dL _ _ HsW), bind_Ok; cbv beta. rewrite LsW. clear sW HsW LsW.
  assert (∀ l, l < nrows fdp →
            cell_at dL "waterSampleID" l = Some (key_cell fdp "waterSampleID" l))
    as HkeyL.
  { intros l Hl. rewrite HcL, decide_True, Hkeys by first [done|in_names]. done. }
  destruct (for_range_rows
    (λ d, shaped (nrows fdp) d ∧
          ∀ l, cell_at d "waterSampleID" l = cell_at dL "waterSampleID" l)
    (λ l c, temp_update sp (key_cell fdp "waterSampleID" l) c)
    (temp_row sp) (nrows fdp) dL) as (dT & HrunT & [HdT _] & HcT).
  { by split. }
  { intros d l [Hd Hk] Hl.
    destruct (temp_row_spec (nrows fdp) sp l d (key_cell fdp "waterSampleID" l) Hd Hl)
      as (d' & Hrun & Hs' & Hc').
    - rewrite Hk. by apply HkeyL.
    - exists d'. split; [done|]. split; [|exact Hc'].
      split; [done|]. intros l'. rewrite Hc'.
      case_decide as E; [subst l'|apply Hk].
      rewrite <- Hk. by destruct (cell_at d "waterSampleID" l). }
  rewrite HrunT, bind_Ok; cbv beta. clear HrunT.
  assert (∀ c l, l < nrows fdp → cell_at dT c l =
            temp_update sp (key_cell fdp "waterSampleID" l) c <$>
              (lab_update lab (key_cell fdp "referenceAirSampleID" l)
                 (key_cell fdp "equilibratedAirSampleID" l) c <$> cell_at o6 c l))
    as Hcells.
  { intros c l Hl. by rewrite HcT, decide_True, HcL, decide_True by done. }
  assert (∀ c l k, c ∈ joined_cols → cell_at dT c l = Some k → is_num k) as Hnum.
  { intros c l k Hc Hk.
    assert (l < nrows fdp) as Hl.
    { eapply cell_at_lt; [exact HdT|by apply joined_cols_output|done]. }
    rewrite Hcells, Hnull in Hk by done. injection Hk as <-.
    by apply joined_cell_num. }
  assert (∀ c l, cell_at dT c l = cell_at dT c l) as Hsame by done.
  (* lines 153-159 *)
  py_astype d1. py_astype d2. py_astype d3. py_astype d4. py_astype d5.
  py_astype d6. py_astype d7.
  lazymatch goal with
  | Hsh : shaped _ ?d, Hs : (∀ x i, cell_at ?d x i = cell_at dT x i) |- _ =>
      rename Hs into Hout; rename Hsh into Hshaped
  end.
  apply returns_Ok. split_and!; [done| |].
  - intros l Hl. rewrite Hout, Hcells, Hkeys by first [done|in_names]. done.
  - intros c l Hc Hl. by rewrite Hout, Hcells, Hnull by done.
Qed.

End Format.

(** ** The formatter's tables before the coercion *)

Lemma key_cell_lookup df c s l :
  col_get c (columns df) = Some s → l < length s → s !! l = Some (key_cell df c l).
Proof.
  intros Hs Hl. unfold key_cell, cell_at. rewrite Hs. simpl.
  destruct (lookup_lt_is_Some_2 s l Hl) as [k ->]. done.
Qed.

Lemma field_cell_copied n fdp c l (o : option Series) :
  wf fdp → n = nrows fdp → l < n →
  o = col_get c (columns fdp) →
  match o with Some s => Some s | None => Some (replicate n NaN) end ≫= (.!! l) =
  Some (key_cell fdp c l).
Proof.
  intros Hwf -> Hl ->. destruct (col_get c (columns fdp)) as [s|] eqn:Hs; simpl.
  - apply (key_cell_lookup fdp c); [done|]. by rewrite (wf_col_get fdp c s).
  - unfold key_cell, cell_at. rewrite Hs. simpl. by rewrite lookup_replicate_2.
Qed.

Ltac fm_pose o :=
  lazymatch goal with
  | |- continues (let x := ?e in @?K x) ?k ?I =>
      pose (o := e); change (continues (K o) k I); cbv beta
  end.

Ltac fm_skip :=
  lazymatch goal with
  | |- continues (let x := ?d in @?K x) ?k ?I =>
      is_var d; change (continues (K d) k I); cbv beta
  end.

Ltac fm_let :=
  lazymatch goal with
  | V : view ?df ?d ?U |- continues (let x := setitem_value ?d ?n ?v in @?K x) ?k ?I =>
      let d' := fresh "d" in
      let V' := fresh "V" in
      pose (d' := setitem_value d n v);
      change (continues (K d') k I); cbv beta;
      pose proof (view_setitem_value df d U n v V : view df d' _) as V';
      clearbody d'; clear V
  end.

Ltac fm_flag :=
  py_read; rewrite bind_Ok; cbv beta; rewrite isna_is_never_True; cbv iota.

Ltac fm_assign o Ho Hc :=
  rewrite bind_Ok; cbv beta; fm_pose o;
  lazymatch goal with
  | o' := setitem ?d ?name ?s |- _ =>
      assert (∀ c, col_get c (columns o) =
                   if String.eqb name c then Some s else col_get c (columns d))
        as Hc by (intros; apply col_get_set);
      lazymatch goal with
      | Hd : shaped ?n d |- _ =>
          assert (shaped n o) as Ho
            by (apply shaped_setitem; [exact Hd|in_names|done])
      end;
      clearbody o
  end.

Section Format.
Context `{PyEnv}.

(** Lines 63-150: whatever the lab and super-parent tables hold, the
    joins end, on a table whose cells are [joined_cell]s, and lines
    153-159 follow. *)
Lemma format_joins lab fdp sp :
  wf fdp →
  Forall (λ c, c ∈ names fdp) field_inputs →
  continues (def_format_sdg lab fdp sp) (astype_columns joined_cols) (λ d,
    shaped (nrows fdp) d ∧
    ∀ c l, c ∈ outputDFNames → l < nrows fdp →
      cell_at d c l = Some (joined_cell lab fdp sp c l)).
Proof.
  intros Hwf Hin.
  assert (∀ c, c ∈ field_inputs →
            ∃ s, col_get c (columns fdp) = Some s ∧ length s = nrows fdp) as Hcol.
  { intros c Hc. apply have_column; [done|]. rewrite Forall_forall in Hin. by apply Hin. }
  destruct (Hcol "waterVolumeSyringe") as (sWV & HWV & LWV); [in_names|].
  destruct (Hcol "gasVolumeSyringe") as (sGV & HGV & LGV); [in_names|].
  destruct (Hcol "waterSampleID") as (sID & HID & LID); [in_names|].
  destruct (Hcol "storageWaterTemp") as (sST & HST & LST); [in_names|].
  destruct (Hcol "ptBarometricPressure") as (sBP & HBP & LBP); [in_names|].
  destruct (Hcol "namedLocation") as (sNL & HNL & LNL); [in_names|].
  clear Hcol.
  pose proof (view_refl fdp) as V.
  cbv delta [def_format_sdg]; cbv beta.
  (* lines 63-77 *)
  fm_flag. fm_let. fm_flag. fm_let. fm_flag. fm_skip. fm_flag. fm_skip.
  lazymatch goal with V : view _ ?d _ |- _ => rename d into fdp2; rename V into V2 end.
  clear d.
  pose proof V2 as (Hn2 & _ & Hget2 & Hall2).
  assert (∀ c s, col_get c (columns fdp2) = Some s → length s = nrows fdp) as Hlen2.
  { intros c s Hs. rewrite <- Hn2. apply (wf_col_get fdp2 c s); [|done].
    unfold wf. rewrite Hn2. apply (Hall2 (λ s, length s = nrows fdp)); [exact Hwf|].
    repeat constructor; simpl; by rewrite length_replicate. }
  (* lines 104-110 *)
  repeat py_read. rewrite bind_Ok; cbv beta. rewrite LID. fm_pose o0. fm_pose o1.
  destruct (copy_columns (nrows fdp) fdp2 outputDFNames o0) as [Ho1 Hc1];
    [done|apply shaped_empty_output|done|].
  subst o0. fold o1 in Ho1, Hc1. clearbody o1.
  (* lines 112-116 *)
  fm_assign o2 Ho2 Hc2. fm_assign o3 Ho3 Hc3. fm_assign o4 Ho4 Hc4.
  fm_assign o5 Ho5 Hc5. fm_assign o6 Ho6 Hc6.
  assert (∀ c l, c ∈ outputDFNames → l < nrows fdp →
            cell_at o6 c l = Some (field_cell fdp c l)) as Hfield.
  { intros c l Hc Hl. unfold cell_at.
    rewrite Hc6, Hc5, Hc4, Hc3, Hc2, Hc1, Hget2.
    rewrite (bool_decide_eq_true_2 _ Hc), (col_get_empty_output _ _ Hc).
    unfold outputDFNames in Hc.
    repeat (apply elem_of_cons in Hc as [->|Hc]); [..|by apply elem_of_nil in Hc];
      cbn [String.eqb Ascii.eqb Bool.eqb andb orb app col_get field_cell field_source];
      first
        [ by apply (field_cell_copied (nrows fdp))
        | simpl; by apply (key_cell_lookup fdp); [|lia]
        | simpl; by rewrite lookup_replicate_2 ]. }
  (* lines 120-138 *)
  destruct (shaped_col _ o6 "waterSampleID" Ho6) as (sW & HsW & LsW); [in_names|].
  rewrite (loc_Some o6 _ _ HsW), bind_Ok; cbv beta. rewrite LsW. clear sW HsW LsW.
  destruct (for_range_rows
    (λ d, shaped (nrows fdp) d ∧
          ∀ l, cell_at d "referenceAirSampleID" l = cell_at o6 "referenceAirSampleID" l ∧
               cell_at d "equilibratedAirSampleID" l =
               cell_at o6 "equilibratedAirSampleID" l)
    (λ l c, lab_update lab (key_cell fdp "referenceAirSampleID" l)
              (key_cell fdp "equilibratedAirSampleID" l) c)
    (λ l d, Ok (lab_row lab l d)) (nrows fdp) o6) as (dL & HrunL & [HdL _] & HcL).
  { by split. }
  { intros d l [Hd Hk] Hl.
    destruct (lab_row_spec (nrows fdp) lab l d
                (key_cell fdp "referenceAirSampleID" l)
                (key_cell fdp "equilibratedAirSampleID" l) Hd Hl) as [Hs' Hc'].
    - rewrite (proj1 (Hk l)). apply Hfield; [in_names|done].
    - rewrite (proj2 (Hk l)). apply Hfield; [in_names|done].
    - eexists. split; [done|]. split; [|exact Hc'].
      split; [done|]. intros l'. rewrite !Hc'.
      case_decide as E; [subst l'|apply Hk].
      rewrite <- (proj1 (Hk l)), <- (proj2 (Hk l)).
      by destruct (cell_at d "referenceAirSampleID" l),
        (cell_at d "equilibratedAirSampleID" l). }
  rewrite HrunL, bind_Ok; cbv beta. clear HrunL.
  (* lines 141-150 *)
  destruct (shaped_col _ dL "waterSampleID" HdL) as (sW & HsW & LsW); [in_names|].
  rewrite (loc_Some dL _ _ HsW), bind_Ok; cbv beta. rewrite LsW. clear sW HsW LsW.
  assert (∀ l, l < nrows fdp →
            cell_at dL "waterSampleID" l = Some (key_cell fdp "waterSampleID" l))
    as HkeyL.
  { intros l Hl. rewrite HcL, decide_True, Hfield by first [done|in_names]. done. }
  destruct (for_range_rows
    (λ d, shaped (nrows fdp) d ∧
          ∀ l, cell_at d "waterSampleID" l = cell_at dL "waterSampleID" l)
    (λ l c, temp_update sp (key_cell fdp "waterSampleID" l) c)
    (temp_row sp) (nrows fdp) dL) as (dT & HrunT & [HdT _] & HcT).
  { by split. }
  { intros d l [Hd Hk] Hl.
    destruct (temp_row_spec (nrows fdp) sp l d (key_cell fdp "waterSampleID" l) Hd Hl)
      as (d' & Hrun & Hs' & Hc').
    - rewrite Hk. by apply HkeyL.
    - exists d'. split; [done|]. split; [|exact Hc'].
      split; [done|]. intros l'. rewrite Hc'.
      case_decide as E; [subst l'|apply Hk].
      rewrite <- Hk. by destruct (cell_at d "waterSampleID" l). }
  rewrite HrunT, bind_Ok; cbv beta. clear HrunT.
  (* lines 153-159 *)
  exists dT. split; [split; [done|]|].
  - intros c l Hc Hl.
    by rewrite HcT, decide_True, HcL, decide_True, Hfield by done.
  - cbn [astype_columns joined_cols]. unfold astype_column.
    repeat first
      [ match goal with
        | |- context [getattr ?d ?c] =>
            destruct (getattr d c); [rewrite !bind_Ok; cbv beta zeta|reflexivity]
        end
      | match goal with
        | |- context [astype_float ?s] =>
            destruct (astype_float s); [rewrite !bind_Ok; cbv beta zeta|reflexivity]
        end ].
    reflexivity.
Qed.

End Format.

(** ** Lines 153-159 on any table *)

Section Coercions.
Context `{PyEnv}.

Lemma float_of_as_float k k' : float_of k = Ok k' → as_float k = k'.
Proof. unfold as_float. by intros ->. Qed.

Lemma float_of_raise k e : float_of k = Raise e → e = ValueError.
Proof. destruct k as [x|t]; simpl; [done|]. destruct (py_float t); congruence. Qed.

Lemma float_of_num k : is_num k → float_of k = Ok k.
Proof. by destruct k. Qed.

Lemma as_float_num k : is_num k → as_float k = k.
Proof. by destruct k. Qed.

Lemma is_num_as_float k k' : float_of k = Ok k' → is_num k'.
Proof.
  destruct k as [x|t]; simpl; [by intros [= <-]|].
  destruct (py_float t); [by intros [= <-]|done].
Qed.

(** [astype(float)] on a column: every cell coerced, or [ValueError]
    at a cell that cannot be. *)
Lemma astype_float_cells s :
  match astype_float s with
  | Ok s' => s' = as_float <$> s ∧ ∀ l k, s !! l = Some k → float_of k = Ok (as_float k)
  | Raise e => e = ValueError ∧ ∃ l k, s !! l = Some k ∧ float_of k = Raise ValueError
  end.
Proof.
  unfold astype_float. induction s as [|k s IH]; [by split|].
  rewrite mapM_cons. change (match k with Num x => Ok (Num x) | Str t => _ end)
    with (float_of k).
  destruct (float_of k) as [k'|e] eqn:Hk.
  - rewrite bind_Ok. destruct (mapM _ s) as [s'|e].
    + rewrite bind_Ok. destruct IH as [-> Hall]. split.
      * by rewrite fmap_cons, (float_of_as_float k k').
      * intros [|l] k0; simpl; [|apply Hall].
        intros [= <-]. by rewrite (float_of_as_float k k').
    + destruct IH as [-> (l & k0 & Hl & Hk0)]. split; [done|].
      by exists (S l), k0.
  - pose proof (float_of_raise _ _ Hk) as ->. split; [done|]. by exists 0, k.
Qed.

Lemma astype_column_cells n d c :
  shaped n d → c ∈ outputDFNames →
  match astype_column c d with
  | Ok d' =>
      shaped n d' ∧
      (∀ c' l, cell_at d' c' l =
               if String.eqb c c' then as_float <$> cell_at d c l else cell_at d c' l) ∧
      ∀ l k, cell_at d c l = Some k → float_of k = Ok (as_float k)
  | Raise e =>
      e = ValueError ∧ ∃ l k, cell_at d c l = Some k ∧ float_of k = Raise ValueError
  end.
Proof.
  intros Hd Hc. destruct (shaped_col n d c) as (s & Hs & Hlen); [done..|].
  unfold astype_column. rewrite (getattr_Some d c s Hs), bind_Ok.
  assert (∀ l, cell_at d c l = s !! l) as Hcell.
  { intros l. unfold cell_at. by rewrite Hs. }
  pose proof (astype_float_cells s) as Hs'.
  destruct (astype_float s) as [s'|e].
  - rewrite bind_Ok. destruct Hs' as [-> Hall]. split_and!.
    + apply shaped_setitem; [done..|]. by rewrite length_fmap.
    + intros c' l. rewrite cell_at_setitem, Hcell. by rewrite list_lookup_fmap.
    + intros l k. rewrite Hcell. apply Hall.
  - destruct Hs' as [-> (l & k & Hl & Hk)]. split; [done|].
    exists l, k. by rewrite Hcell.
Qed.

Lemma astype_columns_cells n cs d :
  shaped n d → NoDup cs → cs ⊆ outputDFNames →
  match astype_columns cs d with
  | Ok d' =>
      shaped n d' ∧
      (∀ c l, cell_at d' c l =
              if bool_decide (c ∈ cs) then as_float <$> cell_at d c l
              else cell_at d c l) ∧
      ∀ c l k, c ∈ cs → cell_at d c l = Some k → float_of k = Ok (as_float k)
  | Raise e =>
      e = ValueError ∧
      ∃ c l k, c ∈ cs ∧ cell_at d c l = Some k ∧ float_of k = Raise ValueError
  end.
Proof.
  intros Hd Hnd. revert d Hd.
  induction Hnd as [|c cs Hc Hnd IH]; intros d Hd Hsub; cbn [astype_columns].
  - split_and!; [done| |].
    + intros c l. by rewrite bool_decide_eq_false_2 by apply not_elem_of_nil.
    + intros c l k Hc. by apply elem_of_nil in Hc.
  - assert (c ∈ outputDFNames) as Hco by apply Hsub, list_elem_of_here.
    assert (cs ⊆ outputDFNames) as Hsub'.
    { intros x Hx. by apply Hsub, list_elem_of_further. }
    pose proof (astype_column_cells n d c Hd Hco) as H1.
    destruct (astype_column c d) as [d1|e].
    + rewrite bind_Ok. destruct H1 as (Hd1 & Hc1 & Hall1).
      assert (∀ c' l, c' ∈ cs → cell_at d1 c' l = cell_at d c' l) as Hsame.
      { intros c' l Hc'. rewrite Hc1.
        destruct (String.eqb_spec c c') as [->|]; done. }
      specialize (IH d1 Hd1 Hsub').
      destruct (astype_columns cs d1) as [d'|e].
      * destruct IH as (Hd' & Hc' & Hall'). split_and!; [done| |].
        -- intros c' l. rewrite Hc'. case_bool_decide as Hin.
           ++ rewrite bool_decide_eq_true_2 by by apply list_elem_of_further.
              by rewrite Hsame.
           ++ rewrite Hc1. destruct (String.eqb_spec c c') as [->|Hne].
              ** by rewrite bool_decide_eq_true_2 by apply list_elem_of_here.
              ** rewrite bool_decide_eq_false_2; [done|].
                 rewrite elem_of_cons. by intros [->|?].
        -- intros c' l k [->|Hin]%elem_of_cons; [apply Hall1|].
           rewrite <- Hsame by done. by apply Hall'.
      * destruct IH as [-> (c' & l & k & Hin & Hk & Hf)]. split; [done|].
        exists c', l, k. split_and!; [by apply list_elem_of_further| |done].
        by rewrite <- Hsame.
    + destruct H1 as [-> (l & k & Hk & Hf)]. split; [done|].
      exists c, l, k. split_and!; [apply list_elem_of_here|done..].
Qed.

Lemma NoDup_joined_cols : NoDup joined_cols.
Proof. apply (bool_decide_unpack _). by vm_compute. Qed.

Lemma joined_cols_subseteq : joined_cols ⊆ outputDFNames.
Proof. intros c. apply joined_cols_output. Qed.

(** The formatter returns when every joined cell can be coerced, with
    [output_cell]s in its table. *)
Lemma format_cells lab fdp sp :
  wf fdp →
  Forall (λ c, c ∈ names fdp) field_inputs →
  (∀ c l, c ∈ joined_cols → l < nrows fdp →
     ∃ k, float_of (joined_cell lab fdp sp c l) = Ok k) →
  returns (def_format_sdg lab fdp sp) (λ out,
    shaped (nrows fdp) out ∧
    ∀ c l, c ∈ outputDFNames → l < nrows fdp →
      cell_at out c l = Some (output_cell lab fdp sp c l)).
Proof.
  intros Hwf Hin Hfl.
  destruct (format_joins lab fdp sp Hwf Hin) as (d & [Hd Hcells] & ->).
  pose proof (astype_columns_cells (nrows fdp) joined_cols d Hd
                NoDup_joined_cols joined_cols_subseteq) as Hs.
  destruct (astype_columns joined_cols d) as [out|e].
  - destruct Hs as (Hout & Hc & _). exists out. split; [done|]. split; [done|].
    intros c l Hco Hl. rewrite Hc, Hcells by done. unfold output_cell.
    by case_bool_decide.
  - destruct Hs as [_ (c & l & k & Hc & Hk & Hf)].
    assert (l < nrows fdp) as Hl.
    { eapply cell_at_lt; [exact Hd|by apply joined_cols_output|done]. }
    rewrite Hcells in Hk by first [done|by apply joined_cols_output].
    injection Hk as <-. destruct (Hfl c l Hc Hl) as [k' Hk']. congruence.
Qed.

(** ... and raises [ValueError] when one cannot. *)
Lemma format_raises lab fdp sp c l :
  wf fdp →
  Forall (λ c, c ∈ names fdp) field_inputs →
  c ∈ joined_cols → l < nrows fdp →
  float_of (joined_cell lab fdp sp c l) = Raise ValueError →
  def_format_sdg lab fdp sp = Raise ValueError.
Proof.
  intros Hwf Hin Hc Hl Hf.
  destruct (format_joins lab fdp sp Hwf Hin) as (d & [Hd Hcells] & ->).
  pose proof (astype_columns_cells (nrows fdp) joined_cols d Hd
                NoDup_joined_cols joined_cols_subseteq) as Hs.
  destruct (astype_columns joined_cols d) as [out|e].
  - destruct Hs as (_ & _ & Hall).
    rewrite (Hall c l (joined_cell lab fdp sp c l)) in Hf; [done..|].
    apply Hcells; [by apply joined_cols_output|done].
  - by destruct Hs as [-> _].
Qed.

End Coercions.

(** ** The formatter on stacked tables of numbers *)

Lemma cell_eqb_nan c : cell_eqb c NaN = false.
Proof.
  destruct c as [x|t]; [|done]. simpl.
  rewrite FloatAxioms.eqb_spec. by destruct (Prim2SF x) as [| | |[] ? ?].
Qed.

Lemma isna_NaN k : isna k = true → k = NaN.
Proof. destruct k as [x|t]; [|done]. simpl. by intros ->%is_nan_eq. Qed.

Lemma mask_select_false (mask : list bool) (vals : Series) :
  (∀ i, mask !! i ≠ Some true) → mask_select mask vals = [].
Proof.
  revert vals. induction mask as [|b mask IH]; intros [|v vals] Hm; try done.
  simpl. destruct b; [by destruct (Hm 0)|].
  apply IH. intros i. apply (Hm (S i)).
Qed.

Lemma mask_select_only (mask : list bool) (vals : Series) j v :
  mask !! j = Some true → (∀ i, i ≠ j → mask !! i ≠ Some true) →
  vals !! j = Some v → mask_select mask vals = [v].
Proof.
  revert vals j. induction mask as [|b mask IH]; intros [|w vals] j Hj Hm Hv;
    try done.
  simpl. destruct j as [|j]; simpl in *.
  - injection Hj as ->. injection Hv as ->. f_equal.
    apply mask_select_false. intros i. by apply (Hm (S i)).
  - destruct b; [by destruct (Hm 0)|].
    apply (IH vals j); [done| |done].
    intros i Hi. apply (Hm (S i)). lia.
Qed.

(** A key that never matches, such as a missing one, finds nothing. *)
Lemma match_count_nan tbl kc : match_count tbl kc NaN = 0.
Proof.
  unfold match_count. destruct (col_get kc (columns tbl)) as [ids|]; [|done].
  rewrite mask_select_false; [done|].
  intros i. rewrite list_lookup_fmap. destruct (ids !! i); simpl; [|done].
  by rewrite cell_eqb_nan.
Qed.

(** The one row that matches gives the lookup its value. *)
Lemma item_where_only tbl kc key vc j v :
  only_match tbl kc key j → cell_at tbl vc j = Some v →
  item_where tbl kc key vc = Ok v.
Proof.
  intros [(k & Hk & Heq) Hother] Hv. unfold cell_at in *.
  unfold item_where, loc.
  destruct (col_get kc (columns tbl)) as [ids|]; [|done].
  destruct (col_get vc (columns tbl)) as [vals|]; [|done].
  simpl in Hk, Hv. rewrite !bind_Ok.
  rewrite (mask_select_only _ vals j v); [done| | |done].
  - by rewrite list_lookup_fmap, Hk; simpl; rewrite Heq.
  - intros i Hi. rewrite list_lookup_fmap.
    destruct (ids !! i) as [k'|] eqn:Hk'; simpl; [|done].
    by rewrite (Hother i k' Hi Hk').
Qed.

Lemma is_num_key_cell df c l : numeric_if_present df c → is_num (key_cell df c l).
Proof.
  intros Hnum. unfold key_cell, cell_at.
  destruct (col_get c (columns df)) as [s|] eqn:Hs; [|done]. simpl.
  destruct (s !! l) as [k|] eqn:Hk; [|done]. simpl.
  specialize (Hnum s Hs). rewrite Forall_lookup in Hnum. by eapply Hnum.
Qed.

Lemma is_num_block_update R Q air gas c old :
  is_num (or_null R) → is_num (or_null Q) → is_num old →
  is_num (block_update R Q air gas c old).
Proof.
  intros HR HQ Hold. unfold block_update.
  destruct (String.eqb c air); [by destruct R|].
  destruct (String.eqb c gas); [|done]. by destruct R, Q.
Qed.

Lemma is_num_joined_cell lab fdp sp c l :
  (∀ g, numeric_if_present lab (lab_col g)) →
  numeric_if_present sp "waterTemp" →
  Forall (numeric_if_present fdp) joined_cols →
  c ∈ joined_cols → is_num (joined_cell lab fdp sp c l).
Proof.
  intros Hlab Hsp Hfdp Hc. rewrite Forall_forall in Hfdp.
  assert (is_num (field_cell fdp c l)) as Hf.
  { pose proof (is_num_key_cell fdp c l (Hfdp c Hc)) as Hk.
    unfold joined_cols in Hc.
    repeat (apply elem_of_cons in Hc as [->|Hc]); [..|by apply elem_of_nil in Hc];
      exact Hk. }
  assert (is_num (lab_update lab (key_cell fdp "referenceAirSampleID" l)
                    (key_cell fdp "equilibratedAirSampleID" l) c (field_cell fdp c l)))
    as Hl.
  { unfold lab_update.
    repeat apply is_num_block_update; try done;
      first [apply (item_where_num _ _ _ _ (Hlab CO2))
            |apply (item_where_num _ _ _ _ (Hlab CH4))
            |apply (item_where_num _ _ _ _ (Hlab N2O))]. }
  unfold joined_cell, temp_update. cbv zeta.
  pose proof (item_where_num sp "parentSampleID"
                (key_cell fdp "waterSampleID" l) "waterTemp" Hsp) as HW.
  unfold joined_cols in Hc.
  repeat (apply elem_of_cons in Hc as [->|Hc]); [..|by apply elem_of_nil in Hc];
    cbn [String.eqb Ascii.eqb Bool.eqb andb]; try exact Hl.
  by destruct (item_where sp _ _ _).
Qed.

Section Stacked.
Context `{PyEnv}.

(** On stacked tables the formatter returns, and its table holds the
    [joined_cell]s: the coercion of lines 153-159 finds numbers. *)
Lemma stacked_run lab fdp sp :
  stacked_tables lab fdp sp →
  returns (def_format_sdg lab fdp sp) (λ out,
    shaped (nrows fdp) out ∧
    ∀ c l, c ∈ outputDFNames → l < nrows fdp →
      cell_at out c l = Some (joined_cell lab fdp sp c l)).
Proof.
  intros (Hlab & Hfdp & Hsp & Hin & Hj & Hnl & Hns).
  destruct (format_cells lab fdp sp Hfdp Hin) as (out & Hrun & Hout & Hcells).
  { intros c l Hc Hl. eexists. by apply float_of_num, is_num_joined_cell. }
  exists out. split; [done|]. split; [done|].
  intros c l Hc Hl. rewrite Hcells by done. unfold output_cell.
  case_bool_decide; [|done]. by rewrite as_float_num by by apply is_num_joined_cell.
Qed.

End Stacked.

Lemma stacked_example :
  stacked_tables externalLabData_example fieldDataProc_example fieldSuperParent_example.
Proof.
  split; [by repeat constructor|]. split; [by repeat constructor|].
  split; [by repeat constructor|]. split; [by repeat constructor|].
  split; [|split].
  - repeat apply Forall_cons_2; [..|apply Forall_nil_2];
      intros s Hs; vm_compute in Hs; discriminate.
  - intros g s Hs. destruct g; vm_compute in Hs; injection Hs as <-;
      repeat constructor.
  - intros s Hs. vm_compute in Hs. injection Hs as <-. repeat constructor.
Defined.

Lemma cell_at_key_cell df c l :
  wf df → c ∈ names df → l < nrows df → cell_at df c l = Some (key_cell df c l).
Proof.
  intros Hwf Hc Hl. destruct (have_column df c Hwf Hc) as (s & Hs & Hlen).
  unfold cell_at. rewrite Hs. simpl. apply (key_cell_lookup df c); [done|lia].
Qed.

Lemma joined_cell_air lab fdp sp g l :
  joined_cell lab fdp sp (air_col g) l =
  match item_where lab "sampleID" (key_cell fdp "referenceAirSampleID" l) (lab_col g) with
  | Ok v => v
  | Raise _ => key_cell fdp (air_col g) l
  end.
Proof. by destruct g. Qed.

Lemma joined_cell_gas lab fdp sp g l :
  joined_cell lab fdp sp (gas_col g) l =
  match item_where lab "sampleID" (key_cell fdp "referenceAirSampleID" l) (lab_col g),
        item_where lab "sampleID" (key_cell fdp "equilibratedAirSampleID" l) (lab_col g)
  with
  | Ok _, Ok w => w
  | _, _ => key_cell fdp (gas_col g) l
  end.
Proof. by destruct g. Qed.

Lemma air_col_output g : air_col g ∈ outputDFNames.
Proof. destruct g; in_names. Qed.

Lemma gas_col_output g : gas_col g ∈ outputDFNames.
Proof. destruct g; in_names. Qed.

Lemma view_loc_None df d U m :
  view df d U → col_get m (U ++ columns df) = None → loc d m = Raise (KeyError m).
Proof. intros (_ & _ & Hget & _) E. apply loc_None. by rewrite Hget. Qed.

Lemma continues_raise {B} (m : result B) e :
  continues m (λ _ : unit, Raise e) (λ _, True) → m = Raise e.
Proof. by intros (_ & _ & ->). Qed.

Lemma col_get_None_names df c : col_get c (columns df) = None → c ∉ names df.
Proof. intros E [s Hs]%col_get_names. congruence. Qed.

Ltac fm_steps :=
  repeat first
    [ py_read
    | rewrite bind_Ok; cbv beta
    | rewrite isna_is_never_True; cbv iota
    | fm_let
    | fm_skip ].

Ltac fm_missing :=
  match goal with
  | V : view ?df ?d ?U |- context [loc ?d ?m] =>
      rewrite (view_loc_None df d U m V)
        by (cbn [col_get app String.eqb Ascii.eqb Bool.eqb andb]; assumption)
  end;
  exists tt; split; [exact I|reflexivity].

(** ** The calculators row by row *)

Create Rewrite HintDb nan.
#[local] Hint Rewrite add_nan_l add_nan_r sub_nan_l sub_nan_r
  mul_nan_l mul_nan_r div_nan_l div_nan_r : nan.

Lemma spec_dissolved_nan `{PyEnv} g b vg vw t e a :
  is_nan b = true ∨ is_nan vg = true ∨ is_nan vw = true ∨
  is_nan t = true ∨ is_nan e = true →
  spec_dissolved g b vg vw t e a = nan.
Proof.
  unfold spec_dissolved.
  intros [E|[E|[E|[E|E]]]]; apply is_nan_eq in E; subst;
    by autorewrite with nan.
Qed.

Lemma spec_satConc_nan `{PyEnv} g wt a b :
  libm_exp nan = nan → is_nan wt = true ∨ is_nan b = true →
  spec_satConc g wt a b = nan.
Proof.
  unfold spec_satConc.
  intros Hexp [E|E]; apply is_nan_eq in E; subst; autorewrite with nan;
    [rewrite Hexp|]; by autorewrite with nan.
Qed.

Lemma spec_percSat_nan d s :
  is_nan d = true ∨ is_nan s = true → spec_percSat d s = nan.
Proof.
  unfold spec_percSat.
  intros [E|E]; apply is_nan_eq in E; subst; by autorewrite with nan.
Qed.

(** C1.  On every row of a formatted table, [def_calc_sdg_conc] (called
    with the default column names) returns and sets dissolved<Gas>, for
    each of CO2, CH4 and N2O, to the value of the specification's
    formula at the row's barometric pressure, volumes, headspace
    temperature and equilibrated-gas concentration, with the
    reference-air concentration after defaulting as source gas.  The
    cell is the formula's value whatever its sign: nothing is clamped. *)
Theorem conc_dissolved_formula `{PyEnv} (df : DataFrame) (i : nat) (r : conc_row) :
  conc_row_at df i r →
  ∃ out, calc_sdg_conc df = Ok out ∧
    ∀ g, fcell out (dissolved_col g) i =
         Some (spec_dissolved g (c_baro r) (c_volGas r) (c_volH2O r)
                 (c_headspaceTemp r) (c_eq r g) (defaulted g (c_air r g))).
Proof.
  intros Hrow. destruct (conc_row_run df i r Hrow) as (out & Hrun & _ & Hdis).
  by exists out.
Qed.

(** C2.  On every row of a concentration-augmented table,
    [def_calc_sdg_sat] returns and sets satConc<Gas> to
    kH * exp(dHdT * (1/(waterTemp + 273.15) - 1/298.15)) * sourceGas * baro * 1e-6
    at the water temperature and the defaulted reference-air
    concentration, and <Gas>PercSat to dissolved<Gas> / satConc<Gas> * 100;
    the latter holds on every row of the result given the cells of the
    two columns. *)
Theorem sat_formulas `{PyEnv} (df : DataFrame) (i : nat) (r : sat_row) :
  sat_row_at df i r →
  ∃ out, calc_sdg_sat df = Ok out ∧
    ∀ g,
      fcell out (satConc_col g) i =
        Some (spec_satConc g (s_waterTemp r) (defaulted g (s_air r g)) (s_baro r)) ∧
      fcell out (percSat_col g) i =
        Some (spec_percSat (s_dissolved r g)
                (spec_satConc g (s_waterTemp r) (defaulted g (s_air r g)) (s_baro r))) ∧
      ∀ k d s, fcell out (dissolved_col g) k = Some d →
               fcell out (satConc_col g) k = Some s →
               fcell out (percSat_col g) k = Some (spec_percSat d s).
Proof.
  intros Hrow.
  destruct (sat_row_run df i r Hrow) as (out & Hrun & _ & Hdis & Hsat & Hperc).
  exists out. split; [done|]. intros g. split_and!.
  - apply Hsat.
  - by rewrite Hperc, Hdis, Hsat.
  - intros k d s Hd Hs. by rewrite Hperc, Hd, Hs.
Qed.

(** C3.  Each calculator, on its own input table, replaces a null
    reference-air concentration of a row by the global background of
    the gas (CO2 405, CH4 1.85, N2O 0.330 ppmv) and keeps a non-null
    one, and computes its derived column from the value so defaulted. *)
Theorem reference_air_defaulting `{PyEnv}
    (dfc : DataFrame) (i : nat) (rc : conc_row)
    (dfs : DataFrame) (j : nat) (rs : sat_row) :
  conc_row_at dfc i rc → sat_row_at dfs j rs →
  (∃ out, calc_sdg_conc dfc = Ok out ∧
     ∀ g, (is_nan (c_air rc g) = true → fcell out (air_col g) i = Some (background g)) ∧
          (is_nan (c_air rc g) = false → fcell out (air_col g) i = Some (c_air rc g)) ∧
          ∃ a, fcell out (air_col g) i = Some a ∧
               fcell out (dissolved_col g) i =
                 Some (spec_dissolved g (c_baro rc) (c_volGas rc) (c_volH2O rc)
                         (c_headspaceTemp rc) (c_eq rc g) a)) ∧
  (∃ out, calc_sdg_sat dfs = Ok out ∧
     ∀ g, (is_nan (s_air rs g) = true → fcell out (air_col g) j = Some (background g)) ∧
          (is_nan (s_air rs g) = false → fcell out (air_col g) j = Some (s_air rs g)) ∧
          ∃ a, fcell out (air_col g) j = Some a ∧
               fcell out (satConc_col g) j =
                 Some (spec_satConc g (s_waterTemp rs) a (s_baro rs))).
Proof.
  intros Hc Hs. split.
  - destruct (conc_row_run dfc i rc Hc) as (out & Hrun & Hair & Hdis).
    exists out. split; [done|]. intros g. rewrite Hair, Hdis. unfold defaulted.
    split_and!; [by intros ->|by intros ->|eauto].
  - destruct (sat_row_run dfs j rs Hs) as (out & Hrun & Hair & _ & Hsat & _).
    exists out. split; [done|]. intros g. rewrite Hair, Hsat. unfold defaulted.
    split_and!; [by intros ->|by intros ->|eauto].
Qed.

(** C6.  A null input of a row gives a null derived cell, and the call
    still returns: dissolved<Gas> is null when the barometric pressure,
    a volume, the headspace temperature or the equilibrated-gas
    concentration is null; satConc<Gas> and <Gas>PercSat are null when
    the water temperature or the barometric pressure is null, and
    <Gas>PercSat also when dissolved<Gas> is.  (The reference-air
    concentrations are the exception: C3.)  For the water temperature
    the exponential is taken to send NaN to NaN, as [np.exp] does. *)
Theorem null_propagation `{PyEnv}
    (dfc : DataFrame) (i : nat) (rc : conc_row)
    (dfs : DataFrame) (j : nat) (rs : sat_row) :
  conc_row_at dfc i rc → sat_row_at dfs j rs → libm_exp nan = nan →
  (∃ out, calc_sdg_conc dfc = Ok out ∧
     ∀ g, is_nan (c_baro rc) = true ∨ is_nan (c_volGas rc) = true ∨
          is_nan (c_volH2O rc) = true ∨ is_nan (c_headspaceTemp rc) = true ∨
          is_nan (c_eq rc g) = true →
          fcell out (dissolved_col g) i = Some nan) ∧
  (∃ out, calc_sdg_sat dfs = Ok out ∧
     ∀ g, (is_nan (s_waterTemp rs) = true ∨ is_nan (s_baro rs) = true →
           fcell out (satConc_col g) j = Some nan ∧
           fcell out (percSat_col g) j = Some nan) ∧
          (is_nan (s_dissolved rs g) = true →
           fcell out (percSat_col g) j = Some nan)).
Proof.
  intros Hc Hs Hexp. split.
  - destruct (conc_row_run dfc i rc Hc) as (out & Hrun & _ & Hdis).
    exists out. split; [done|]. intros g Hnull.
    by rewrite Hdis, spec_dissolved_nan.
  - destruct (sat_row_run dfs j rs Hs) as (out & Hrun & _ & Hdis & Hsat & Hperc).
    exists out. split; [done|]. intros g. split.
    + intros Hnull. rewrite Hperc, Hdis, Hsat. simpl.
      rewrite spec_satConc_nan by done. split; [done|].
      rewrite spec_percSat_nan; [done|by right].
    + intros Hnull. rewrite Hperc, Hdis, Hsat. simpl.
      rewrite spec_percSat_nan; [done|by left].
Qed.

(** C7, as the code has it.  [def_calc_sdg_sat] returns whatever the
    saturation concentrations are.  On every row the satConc<Gas> cell
    is the formula's value and the <Gas>PercSat cell the quotient
    dissolved<Gas> / satConc<Gas> * 100 of the row's own cells, so no
    row affects another.  Where satConc<Gas> is zero the <Gas>PercSat
    cell is infinite or NaN, and where satConc<Gas> is NaN it is NaN.
    Where satConc<Gas> is infinite it need not be: it is a zero for a
    finite dissolved<Gas>, and NaN otherwise. *)
Theorem percsat_zero_saturation `{PyEnv} (df : DataFrame) (i : nat) (r : sat_row) :
  sat_row_at df i r →
  ∃ out, calc_sdg_sat df = Ok out ∧
    ∀ g,
      let d := s_dissolved r g in
      let s := spec_satConc g (s_waterTemp r) (defaulted g (s_air r g)) (s_baro r) in
      fcell out (satConc_col g) i = Some s ∧
      fcell out (percSat_col g) i = Some (spec_percSat d s) ∧
      (is_zero s = true → is_finite (spec_percSat d s) = false) ∧
      (is_nan s = true → spec_percSat d s = nan) ∧
      (is_infinity s = true → is_finite d = true →
         is_zero (spec_percSat d s) = true) ∧
      (is_infinity s = true → is_finite d = false → spec_percSat d s = nan) ∧
      ∀ k r', sat_row_at df k r' →
        fcell out (percSat_col g) k =
          Some (spec_percSat (s_dissolved r' g)
                  (spec_satConc g (s_waterTemp r') (defaulted g (s_air r' g))
                     (s_baro r'))).
Proof.
  intros Hrow.
  destruct (sat_row_run df i r Hrow) as (out & Hrun & _ & Hdis & Hsat & Hperc).
  exists out. split; [done|]. intros g. cbv zeta. split_and!.
  - apply Hsat.
  - by rewrite Hperc, Hdis, Hsat.
  - intros Hz. unfold spec_percSat. by apply mul_not_finite, div_zero_not_finite.
  - intros Hn. apply spec_percSat_nan. by right.
  - intros Hi Hd. unfold spec_percSat. by apply div_infinity_zero.
  - intros Hi Hd. unfold spec_percSat. by apply div_infinity_nan.
  - intros k r' Hrow'.
    destruct (sat_row_run df k r' Hrow') as (out' & Hrun' & _ & Hdis' & Hsat' & Hperc').
    rewrite Hrun in Hrun'. injection Hrun' as <-.
    by rewrite Hperc', Hdis', Hsat'.
Qed.

(** ** The calculators on the example tables *)

Lemma conc_example_rows :
  conc_row_at conc_example 0 conc_example_row0 ∧
  conc_row_at conc_example 1 conc_example_row1 ∧
  conc_row_at conc_example_no_baro 1 conc_example_no_baro_row1.
Proof.
  unfold conc_row_at. split_and!; try reflexivity.
  all: intros []; split; reflexivity.
Defined.

Lemma sat_example_rows :
  sat_row_at sat_example 0 sat_example_row0 ∧
  sat_row_at sat_example 1 sat_example_row1 ∧
  sat_row_at sat_example 2 sat_example_row2 ∧
  sat_row_at sat_example_no_temp 0 sat_example_no_temp_row0.
Proof.
  unfold sat_row_at. split_and!; try reflexivity.
  all: intros []; split; reflexivity.
Defined.

(** The second sample of [conc_example]: no reference air, so the
    background is the source gas; its dissolved CO2 is negative and is
    returned as it is. *)
Example conc_example_negative :
  (out ← calc_sdg_conc (H:=model_env) conc_example;
   Ok ((λ x, x <? 0)%float <$> fcell out "dissolvedCO2" 1)) = Ok (Some true).
Proof. vm_compute. reflexivity. Qed.

(** The third sample of [sat_example]: the source gas holds no CO2, the
    saturation concentration is 0 and the percent saturation infinite. *)
Example sat_example_infinite :
  (out ← calc_sdg_sat (H:=model_env) sat_example;
   Ok (fcell out "satConcCO2" 2, fcell out "CO2PercSat" 2))
  = Ok (Some 0%float, Some infinity).
Proof. vm_compute. reflexivity. Qed.

Lemma conc_dissolved_formula_witness :
  conc_row_at conc_example 1 conc_example_row1 ∧
  ∃ out, calc_sdg_conc (H:=model_env) conc_example = Ok out ∧
    ∀ g, fcell out (dissolved_col g) 1 =
         Some (spec_dissolved (H:=model_env) g 98 20 40 22
                 (c_eq conc_example_row1 g) (background g)).
Proof.
  split; [apply conc_example_rows|].
  apply (conc_dissolved_formula (H:=model_env) conc_example 1 conc_example_row1).
  apply conc_example_rows.
Defined.

Lemma sat_formulas_witness :
  sat_row_at sat_example 0 sat_example_row0 ∧
  ∃ out, calc_sdg_sat (H:=model_env) sat_example = Ok out ∧
    ∀ g,
      fcell out (satConc_col g) 0 =
        Some (spec_satConc (H:=model_env) g 15 (defaulted g (s_air sat_example_row0 g)) 98) ∧
      fcell out (percSat_col g) 0 =
        Some (spec_percSat (s_dissolved sat_example_row0 g)
                (spec_satConc (H:=model_env) g 15
                   (defaulted g (s_air sat_example_row0 g)) 98)) ∧
      ∀ k d s, fcell out (dissolved_col g) k = Some d →
               fcell out (satConc_col g) k = Some s →
               fcell out (percSat_col g) k = Some (spec_percSat d s).
Proof.
  split; [apply sat_example_rows|].
  apply (sat_formulas (H:=model_env) sat_example 0 sat_example_row0).
  apply sat_example_rows.
Defined.

Lemma reference_air_defaulting_witness :
  conc_row_at conc_example 1 conc_example_row1 ∧
  sat_row_at sat_example 1 sat_example_row1 ∧
  (∃ out, calc_sdg_conc (H:=model_env) conc_example = Ok out ∧
     ∀ g, fcell out (air_col g) 1 = Some (background g)) ∧
  (∃ out, calc_sdg_sat (H:=model_env) sat_example = Ok out ∧
     ∀ g, fcell out (air_col g) 1 = Some (background g)).
Proof.
  split; [apply conc_example_rows|]. split; [apply sat_example_rows|].
  destruct (reference_air_defaulting (H:=model_env)
              conc_example 1 conc_example_row1 sat_example 1 sat_example_row1)
    as [(outc & Hc & Hcg) (outs & Hs & Hsg)];
    [apply conc_example_rows|apply sat_example_rows|].
  split; [exists outc|exists outs]; (split; [done|]); intros g.
  - by apply (Hcg g).
  - by apply (Hsg g).
Defined.

Lemma null_propagation_witness :
  conc_row_at conc_example_no_baro 1 conc_example_no_baro_row1 ∧
  sat_row_at sat_example_no_temp 0 sat_example_no_temp_row0 ∧
  exp_limit nan = nan ∧
  (∃ out, calc_sdg_conc (H:=model_env) conc_example_no_baro = Ok out ∧
     ∀ g, fcell out (dissolved_col g) 1 = Some nan) ∧
  (∃ out, calc_sdg_sat (H:=model_env) sat_example_no_temp = Ok out ∧
     ∀ g, fcell out (satConc_col g) 0 = Some nan ∧
          fcell out (percSat_col g) 0 = Some nan).
Proof.
  split; [apply conc_example_rows|]. split; [apply sat_example_rows|].
  split; [reflexivity|].
  destruct (null_propagation (H:=model_env)
              conc_example_no_baro 1 conc_example_no_baro_row1
              sat_example_no_temp 0 sat_example_no_temp_row0)
    as [(outc & Hc & Hcg) (outs & Hs & Hsg)];
    [apply conc_example_rows|apply sat_example_rows|reflexivity|].
  split; [exists outc|exists outs]; (split; [done|]); intros g.
  - apply Hcg. by left.
  - apply (Hsg g). by left.
Defined.

(** The third sample of [sat_example], whose source gas holds no CO2:
    its saturation concentration is a zero and its percent saturation
    is not finite; the first sample keeps its quotient. *)
Lemma percsat_zero_saturation_witness :
  sat_row_at sat_example 2 sat_example_row2 ∧
  is_zero (spec_satConc (H:=model_env) CO2 15 (defaulted CO2 0) 98) = true ∧
  ∃ out, calc_sdg_sat (H:=model_env) sat_example = Ok out ∧
    (∃ s, fcell out (satConc_col CO2) 2 = Some s ∧ is_zero s = true) ∧
    (∃ p, fcell out (percSat_col CO2) 2 = Some p ∧ is_finite p = false) ∧
    ∀ g, fcell out (percSat_col g) 0 =
           Some (spec_percSat (s_dissolved sat_example_row0 g)
                   (spec_satConc (H:=model_env) g 15
                      (defaulted g (s_air sat_example_row0 g)) 98)).
Proof.
  split; [apply sat_example_rows|].
  assert (is_zero (spec_satConc (H:=model_env) CO2 15 (defaulted CO2 0) 98) = true)
    as Hz by (vm_compute; reflexivity).
  split; [exact Hz|].
  destruct (percsat_zero_saturation (H:=model_env) sat_example 2 sat_example_row2)
    as (out & Hrun & Hg); [apply sat_example_rows|].
  exists out. split; [done|].
  destruct (Hg CO2) as (Hs & Hp & Hzero & _ & _ & _ & _).
  split; [eexists; split; [exact Hs|exact Hz]|].
  split; [eexists; split; [exact Hp|apply Hzero; exact Hz]|].
  intros g. destruct (Hg g) as (_ & _ & _ & _ & _ & _ & Hrows).
  apply (Hrows 0 sat_example_row0). apply sat_example_rows.
Defined.

(** C7 as stated fails where the saturation formula gives infinity.  At
    a water temperature of absolute zero the exponent is +infinity and
    the exponential with it, so satConc<Gas> is +infinity; the finite
    dissolved<Gas> over it is 0, and <Gas>PercSat is 0, a finite value. *)
Lemma percsat_finite_at_infinite_saturation :
  sat_row_at sat_infinite_saturation 0 sat_infinite_saturation_row ∧
  exp_limit infinity = infinity ∧
  is_finite 0%float = true ∧
  ∀ E : PyEnv, libm_exp infinity = infinity →
    ∃ out, calc_sdg_sat sat_infinite_saturation = Ok out ∧
      ∀ g, fcell out (satConc_col g) 0 = Some infinity ∧
           fcell out (percSat_col g) 0 = Some 0%float.
Proof.
  assert (sat_row_at sat_infinite_saturation 0 sat_infinite_saturation_row) as Hrow.
  { unfold sat_row_at. split_and!; try reflexivity. intros []; split; reflexivity. }
  split_and!; try reflexivity; [done|]. intros E Hexp.
  destruct (sat_row_run sat_infinite_saturation 0 _ Hrow)
    as (out & Hrun & _ & Hdis & Hsat & Hperc).
  exists out. split; [done|]. intros g.
  assert (spec_satConc g (s_waterTemp sat_infinite_saturation_row)
            (defaulted g (s_air sat_infinite_saturation_row g))
            (s_baro sat_infinite_saturation_row) = infinity) as Hinf.
  { unfold spec_satConc.
    destruct g;
      match goal with |- context [libm_exp ?x] => change x with infinity end;
      rewrite Hexp; reflexivity. }
  split; [by rewrite Hsat, Hinf|].
  rewrite Hperc, Hdis, Hsat, Hinf. simpl. f_equal. by destruct g.
Qed.

(** ** Saturation without lab data *)

(** C10, as the code has it.  On a row whose water temperature is
    non-null and whose barometric pressure is finite and nonzero,
    satConc<Gas> is non-null for every gas whose reference-air value is
    null (the background is used) or finite and nonzero; if
    dissolved<Gas> is null as well, <Gas>PercSat is null while
    satConc<Gas> is not.  The exponential is taken to return NaN at NaN
    only, as [np.exp] does. *)
Theorem satconc_without_lab_data `{PyEnv} (df : DataFrame) (i : nat) (r : sat_row) :
  sat_row_at df i r →
  (∀ x, is_nan x = false → is_nan (libm_exp x) = false) →
  is_nan (s_waterTemp r) = false →
  regular (s_baro r) = true →
  ∃ out, calc_sdg_sat df = Ok out ∧
    ∀ g, is_nan (s_air r g) = true ∨ regular (s_air r g) = true →
      (∃ s, fcell out (satConc_col g) i = Some s ∧ is_nan s = false) ∧
      (is_nan (s_dissolved r g) = true → fcell out (percSat_col g) i = Some nan).
Proof.
  intros Hrow Hexp Hwt Hb.
  destruct (sat_row_run df i r Hrow) as (out & Hrun & _ & Hdis & Hsat & Hperc).
  exists out. split; [done|]. intros g Hair. split.
  - eexists. split; [apply Hsat|].
    apply spec_satConc_not_nan; try done.
    unfold defaulted. destruct Hair as [->|Ha]; [apply regular_background|].
    case_match; [apply regular_background|done].
  - intros Hd. rewrite Hperc, Hdis, Hsat. simpl.
    rewrite spec_percSat_nan; [done|by left].
Qed.

Lemma satconc_without_lab_data_witness :
  sat_row_at sat_example 1 sat_example_row1 ∧
  (∀ x, is_nan x = false → is_nan (exp_limit x) = false) ∧
  is_nan (s_waterTemp sat_example_row1) = false ∧
  regular (s_baro sat_example_row1) = true ∧
  ∃ out, calc_sdg_sat (H:=model_env) sat_example = Ok out ∧
    ∀ g, (∃ s, fcell out (satConc_col g) 1 = Some s ∧ is_nan s = false) ∧
         fcell out (percSat_col g) 1 = Some nan.
Proof.
  split; [apply sat_example_rows|].
  split; [apply exp_limit_not_nan|].
  split; [reflexivity|]. split; [reflexivity|].
  destruct (satconc_without_lab_data (H:=model_env) sat_example 1 sat_example_row1)
    as (out & Hrun & Hg);
    [apply sat_example_rows|apply exp_limit_not_nan|reflexivity|reflexivity|].
  exists out. split; [done|]. intros g.
  destruct (Hg g) as [Hs Hp]; [by left|]. split; [done|]. by apply Hp.
Defined.

(** C10 as stated fails: at absolute zero the exponent is +infinity,
    the exponential with it, and infinity times a pressure of 0 is NaN.
    Water temperature and pressure are non-null, satConc<Gas> is null. *)
Lemma satconc_null_at_absolute_zero :
  sat_row_at sat_absolute_zero 0 sat_absolute_zero_row ∧
  is_nan (s_waterTemp sat_absolute_zero_row) = false ∧
  is_nan (s_baro sat_absolute_zero_row) = false ∧
  exp_limit infinity = infinity ∧
  ∀ E : PyEnv, libm_exp infinity = infinity →
    ∃ out, calc_sdg_sat sat_absolute_zero = Ok out ∧
      ∀ g, fcell out (satConc_col g) 0 = Some nan.
Proof.
  assert (sat_row_at sat_absolute_zero 0 sat_absolute_zero_row) as Hrow.
  { unfold sat_row_at. split_and!; try reflexivity. intros []; split; reflexivity. }
  split_and!; try reflexivity; [done|]. intros E Hexp.
  destruct (sat_row_run sat_absolute_zero 0 _ Hrow) as (out & Hrun & _ & _ & Hsat & _).
  exists out. split; [done|]. intros g. rewrite Hsat. f_equal.
  unfold spec_satConc.
  destruct g;
    match goal with |- context [libm_exp ?x] => change x with infinity end;
    rewrite Hexp; reflexivity.
Qed.

(** ** What the calculators leave alone *)

Section Frame.
Context `{PyEnv}.

Lemma float_columns_conc df :
  float_columns df conc_inputs →
  ∃ B VG VW T (EQ AIR : gas → list float),
    col_get "barometricPressure" (columns df) = Some (Num <$> B) ∧
    col_get "gasVolume" (columns df) = Some (Num <$> VG) ∧
    col_get "waterVolume" (columns df) = Some (Num <$> VW) ∧
    col_get "headspaceTemp" (columns df) = Some (Num <$> T) ∧
    (∀ g, col_get (gas_col g) (columns df) = Some (Num <$> EQ g)) ∧
    (∀ g, col_get (air_col g) (columns df) = Some (Num <$> AIR g)).
Proof.
  unfold float_columns. cbn. intros Hall.
  repeat match type of Hall with
         | Forall _ (_ :: _) =>
             let Hx := fresh "Hx" in
             let xs := fresh "xs" in
             apply Forall_cons in Hall as [[xs Hx%float_column_Some] Hall]
         end.
  exists xs, xs0, xs1, xs2,
    (λ g, match g with CO2 => xs3 | CH4 => xs4 | N2O => xs5 end),
    (λ g, match g with CO2 => xs6 | CH4 => xs7 | N2O => xs8 end).
  split_and!; try done; by intros [].
Qed.

Lemma float_columns_sat df :
  float_columns df sat_inputs →
  ∃ B WT (D AIR : gas → list float),
    col_get "barometricPressure" (columns df) = Some (Num <$> B) ∧
    col_get "waterTemp" (columns df) = Some (Num <$> WT) ∧
    (∀ g, col_get (dissolved_col g) (columns df) = Some (Num <$> D g)) ∧
    (∀ g, col_get (air_col g) (columns df) = Some (Num <$> AIR g)).
Proof.
  unfold float_columns. cbn. intros Hall.
  repeat match type of Hall with
         | Forall _ (_ :: _) =>
             let Hx := fresh "Hx" in
             let xs := fresh "xs" in
             apply Forall_cons in Hall as [[xs Hx%float_column_Some] Hall]
         end.
  exists xs, xs0,
    (λ g, match g with CO2 => xs1 | CH4 => xs2 | N2O => xs3 end),
    (λ g, match g with CO2 => xs4 | CH4 => xs5 | N2O => xs6 end).
  split_and!; try done; by intros [].
Qed.

End Frame.

(** C8, as the code has it.  Each calculator returns a table with the
    rows of its input (every column still has one cell per row) in
    which every column other than the three reference-air columns and
    the columns named like a derived column holds the cells it held; a
    reference-air column holds its cells with the nulls replaced by the
    background.  The derived columns are assigned by name: [add_name]
    puts a name that is new after the existing columns and leaves the
    order alone for a name that exists, whose column is overwritten. *)
Theorem calculators_frame `{PyEnv} (dfc dfs : DataFrame) :
  float_columns dfc conc_inputs → float_columns dfs sat_inputs →
  (∃ out, calc_sdg_conc dfc = Ok out ∧
     nrows out = nrows dfc ∧ (wf dfc → wf out) ∧
     names out = foldl add_name (names dfc) dissolved_cols ∧
     (∀ c, c ∉ air_cols ++ dissolved_cols →
           col_get c (columns out) = col_get c (columns dfc)) ∧
     (∀ g, col_get (air_col g) (columns out) =
           replace_nan (background g) <$> col_get (air_col g) (columns dfc))) ∧
  (∃ out, calc_sdg_sat dfs = Ok out ∧
     nrows out = nrows dfs ∧ (wf dfs → wf out) ∧
     names out = foldl add_name (names dfs) sat_cols ∧
     (∀ c, c ∉ air_cols ++ sat_cols →
           col_get c (columns out) = col_get c (columns dfs)) ∧
     (∀ g, col_get (air_col g) (columns out) =
           replace_nan (background g) <$> col_get (air_col g) (columns dfs))).
Proof.
  intros (B & VG & VW & T & EQ & AIR & HB & HVG & HVW & HT & HEQ & HAIR)%float_columns_conc
         (B' & WT & D & AIR' & HB' & HWT & HD & HAIR')%float_columns_sat.
  split.
  - destruct (conc_run dfc B VG VW T EQ AIR)
      as (out & Hrun & Hn & Hwf & Hnames & Hfr & Hair & _); try done.
    exists out. split_and!; try done.
    intros g. rewrite Hair, HAIR. csimpl. by rewrite replace_nan_num.
  - destruct (sat_run dfs B' WT D AIR')
      as (out & Hrun & Hn & Hwf & Hnames & Hfr & Hair & _); try done.
    exists out. split_and!; try done.
    intros g. rewrite Hair, HAIR'. csimpl. by rewrite replace_nan_num.
Qed.

Lemma calculators_frame_witness :
  float_columns conc_example conc_inputs ∧
  float_columns sat_example sat_inputs ∧
  (∃ out, calc_sdg_conc (H:=model_env) conc_example = Ok out ∧
     wf out ∧
     names out = names conc_example ++ ["dissolvedCO2"; "dissolvedCH4"; "dissolvedN2O"] ∧
     col_get "waterSampleID" (columns out) = col_get "waterSampleID" (columns conc_example) ∧
     col_get "gasVolume" (columns out) = col_get "gasVolume" (columns conc_example)) ∧
  (∃ out, calc_sdg_sat (H:=model_env) sat_example = Ok out ∧
     wf out ∧
     names out = names sat_example ++ sat_cols ∧
     col_get "dissolvedCO2" (columns out) = col_get "dissolvedCO2" (columns sat_example)).
Proof.
  assert (float_columns conc_example conc_inputs) as Hc.
  { repeat apply Forall_cons_2; [..|apply Forall_nil_2]; by eexists. }
  assert (float_columns sat_example sat_inputs) as Hs.
  { repeat apply Forall_cons_2; [..|apply Forall_nil_2]; by eexists. }
  split; [done|]. split; [done|].
  destruct (calculators_frame (H:=model_env) conc_example sat_example Hc Hs)
    as [(outc & Hrc & _ & Hwc & Hnc & Hfc & _) (outs & Hrs & _ & Hws & Hns & Hfs & _)].
  split; [exists outc|exists outs]; (split; [done|]).
  - split_and!.
    + apply Hwc. by repeat constructor.
    + by rewrite Hnc.
    + apply Hfc. cbn. rewrite !not_elem_of_cons. split_and!; try done.
      apply not_elem_of_nil.
    + apply Hfc. cbn. rewrite !not_elem_of_cons. split_and!; try done.
      apply not_elem_of_nil.
  - split_and!.
    + apply Hws. by repeat constructor.
    + by rewrite Hns.
    + apply Hfs. cbn. rewrite !not_elem_of_cons. split_and!; try done.
      apply not_elem_of_nil.
Defined.

(** C8 as stated fails on a table that already has a column named
    dissolvedCO2: lines 112-113 assign to it.  The cells were 1; after
    the call the first is the formula's value, and the second, whose
    equilibrated-gas concentration is missing, is null whatever the
    exponential. *)
Lemma derived_column_overwritten :
  ("dissolvedCO2" ∉ air_cols) ∧
  fcell conc_example_leftover "dissolvedCO2" 0 = Some 1%float ∧
  fcell conc_example_leftover "dissolvedCO2" 1 = Some 1%float ∧
  (∃ out x, calc_sdg_conc (H:=model_env) conc_example_leftover = Ok out ∧
     fcell out "dissolvedCO2" 0 = Some x ∧ (x =? 1)%float = false) ∧
  (∀ E : PyEnv, ∃ out, calc_sdg_conc conc_example_leftover = Ok out ∧
     fcell out "dissolvedCO2" 1 = Some nan).
Proof.
  split_and!; try reflexivity.
  - cbn. rewrite !not_elem_of_cons. split_and!; try done. apply not_elem_of_nil.
  - eexists _, _. split_and!; vm_compute; reflexivity.
  - intros E.
    assert (conc_row_at conc_example_leftover 1 conc_example_leftover_row1) as Hrow.
    { unfold conc_row_at. split_and!; try reflexivity.
      intros []; split; reflexivity. }
    destruct (conc_row_run _ _ _ Hrow) as (out & Hrun & _ & Hdis).
    exists out. split; [done|]. change "dissolvedCO2" with (dissolved_col CO2).
    rewrite Hdis, spec_dissolved_nan; [done|]. by do 4 right.
Qed.

(** ** The formatter's joins *)

(** C5 (confirmed).  On a field table that has the columns the
    formatter reads and none of the joined ones, with one cell per row
    in each of the three tables and numbers in the lab and super-parent
    value columns, [def_format_sdg] returns: the output has the field
    table's rows, one for one and in order.  On each row and for each
    gas, the reference-air and the equilibrated-air cell hold what the
    lookups of that gas alone left there: a reference-air key with no
    match in the lab table, or with several, leaves both cells of the
    gas missing; an equilibrated-air key with no or several matches
    leaves the equilibrated-air cell missing; a water sample with no or
    several super-parent rows leaves the water temperature missing. *)
Theorem format_lookup_failures `{PyEnv}
    (externalLabData fieldDataProc fieldSuperParent : DataFrame) :
  wf externalLabData → wf fieldDataProc → wf fieldSuperParent →
  Forall (λ c, c ∈ names fieldDataProc) field_inputs →
  Forall (λ c, c ∉ names fieldDataProc) joined_cols →
  (∀ g, numeric_if_present externalLabData (lab_col g)) →
  numeric_if_present fieldSuperParent "waterTemp" →
  ∃ out,
    def_format_sdg externalLabData fieldDataProc fieldSuperParent = Ok out ∧
    nrows out = nrows fieldDataProc ∧ wf out ∧
    ∀ l, l < nrows fieldDataProc →
      let ref := key_cell fieldDataProc "referenceAirSampleID" l in
      let eq := key_cell fieldDataProc "equilibratedAirSampleID" l in
      let wid := key_cell fieldDataProc "waterSampleID" l in
      cell_at out "waterSampleID" l = Some wid ∧
      (∀ g,
         let R := item_where externalLabData "sampleID" ref (lab_col g) in
         let Q := item_where externalLabData "sampleID" eq (lab_col g) in
         cell_at out (air_col g) l = Some (or_null R) ∧
         cell_at out (gas_col g) l =
           Some (match R with Ok _ => or_null Q | Raise _ => NaN end) ∧
         (match_count externalLabData "sampleID" ref ≠ 1 →
            cell_at out (air_col g) l = Some NaN ∧
            cell_at out (gas_col g) l = Some NaN) ∧
         (match_count externalLabData "sampleID" eq ≠ 1 →
            cell_at out (gas_col g) l = Some NaN)) ∧
      cell_at out "waterTemp" l =
        Some (or_null (item_where fieldSuperParent "parentSampleID" wid "waterTemp")) ∧
      (match_count fieldSuperParent "parentSampleID" wid ≠ 1 →
         cell_at out "waterTemp" l = Some NaN).
Proof.
  intros Hlab Hfdp Hsp Hin Hnot Hnum Hnumt.
  destruct (format_run externalLabData fieldDataProc fieldSuperParent)
    as (out & Hrun & (Hn & Hnames & Hwf) & Hid & Hcells); [done..|].
  exists out. split_and!; [done..|]. intros l Hl. cbv zeta.
  assert (∀ g, cell_at out (air_col g) l =
            Some (or_null (item_where externalLabData "sampleID"
                    (key_cell fieldDataProc "referenceAirSampleID" l) (lab_col g))))
    as Hair.
  { intros g. rewrite Hcells by first [done|apply air_col_joined].
    by rewrite joined_air. }
  assert (∀ g, cell_at out (gas_col g) l =
            Some (match item_where externalLabData "sampleID"
                          (key_cell fieldDataProc "referenceAirSampleID" l) (lab_col g)
                  with
                  | Ok _ =>
                      or_null (item_where externalLabData "sampleID"
                        (key_cell fieldDataProc "equilibratedAirSampleID" l) (lab_col g))
                  | Raise _ => NaN
                  end)) as Hgas.
  { intros g. rewrite Hcells by first [done|apply gas_col_joined].
    by rewrite joined_gas. }
  assert (cell_at out "waterTemp" l =
            Some (or_null (item_where fieldSuperParent "parentSampleID"
                    (key_cell fieldDataProc "waterSampleID" l) "waterTemp")))
    as Htemp.
  { rewrite Hcells by first [done|in_names]. by rewrite joined_temp. }
  split_and!.
  - by apply Hid.
  - intros g. split_and!; [apply Hair|apply Hgas| |].
    + intros Hc. rewrite Hair, Hgas.
      by destruct (item_where_count externalLabData "sampleID"
                     (key_cell fieldDataProc "referenceAirSampleID" l) (lab_col g)
                     Hlab Hc) as [e ->].
    + intros Hc. rewrite Hgas.
      destruct (item_where_count externalLabData "sampleID"
                  (key_cell fieldDataProc "equilibratedAirSampleID" l) (lab_col g)
                  Hlab Hc) as [e ->].
      by destruct (item_where externalLabData "sampleID"
                     (key_cell fieldDataProc "referenceAirSampleID" l) (lab_col g)).
  - done.
  - intros Hc. rewrite Htemp.
    by destruct (item_where_count fieldSuperParent "parentSampleID"
                   (key_cell fieldDataProc "waterSampleID" l) "waterTemp" Hsp Hc)
      as [e ->].
Qed.

(** The second sample of [fieldDataProc_example]: its reference air has
    no lab row, its equilibrated air has two, and it has no
    super-parent row; the first sample has one of each. *)
Lemma format_lookup_failures_witness :
  match_count externalLabData_example "sampleID" (Str "A2") = 0 ∧
  match_count externalLabData_example "sampleID" (Str "G2") = 2 ∧
  match_count fieldSuperParent_example "parentSampleID" (Str "W2") = 0 ∧
  ∃ out,
    def_format_sdg (H:=model_env) externalLabData_example fieldDataProc_example
      fieldSuperParent_example = Ok out ∧
    nrows out = 2 ∧ wf out ∧
    cell_at out "waterSampleID" 0 = Some (Str "W1") ∧
    cell_at out "waterSampleID" 1 = Some (Str "W2") ∧
    (∀ g, cell_at out (air_col g) 1 = Some NaN ∧
          cell_at out (gas_col g) 1 = Some NaN) ∧
    cell_at out "waterTemp" 1 = Some NaN ∧
    cell_at out "concentrationCO2Air" 0 = Some (Num 410) ∧
    cell_at out "concentrationCO2Gas" 0 = Some (Num 1200) ∧
    cell_at out "waterTemp" 0 = Some (Num 14.5).
Proof.
  split; [reflexivity|]. split; [reflexivity|]. split; [reflexivity|].
  destruct (format_lookup_failures (H:=model_env) externalLabData_example
              fieldDataProc_example fieldSuperParent_example)
    as (out & Hrun & Hn & Hwf & Hrows).
  - repeat constructor.
  - repeat constructor.
  - repeat constructor.
  - repeat constructor.
  - compute_done.
  - intros g s Hs. destruct g; vm_compute in Hs; injection Hs as <-;
      repeat constructor.
  - intros s Hs. vm_compute in Hs. injection Hs as <-. repeat constructor.
  - exists out. split; [done|]. split; [done|]. split; [done|].
    pose proof (Hrows 0 ltac:(simpl; lia)) as (Hid0 & Hg0 & Ht0 & _).
    pose proof (Hrows 1 ltac:(simpl; lia)) as (Hid1 & Hg1 & _ & Ht1).
    split; [exact Hid0|]. split; [exact Hid1|].
    split; [|split; [|split; [|split]]].
    + intros g. destruct (Hg1 g) as (_ & _ & Hnone & _).
      apply Hnone. vm_compute. lia.
    + apply Ht1. vm_compute. lia.
    + apply (Hg0 CO2).
    + apply (Hg0 CO2).
    + exact Ht0.
Defined.

(** ** Where the code departs from its documentation *)

(** C4 (code_bug): the code at a sample without syringe volumes.
    [fieldDataProc['waterVolumeSyringe'].isna() is True] compares a
    column of booleans with the object [True] and never holds, so the
    flags are 0 on every row and the defaults of lines 47-48 are never
    substituted: the first sample of [fieldDataProc_example], whose
    syringe volumes are missing, leaves the formatter with
    volH2OSource = volGasSource = 0 and null volumes (the claim: flags
    1, volumes 40 and 20). *)
Theorem format_missing_volumes `{PyEnv} :
  cell_at fieldDataProc_example "waterVolumeSyringe" 0 = Some NaN ∧
  cell_at fieldDataProc_example "gasVolumeSyringe" 0 = Some NaN ∧
  ∃ out,
    def_format_sdg externalLabData_example fieldDataProc_example
      fieldSuperParent_example = Ok out ∧
    cell_at out "volH2OSource" 0 = Some (Num 0) ∧
    cell_at out "waterVolume" 0 = Some NaN ∧
    cell_at out "volGasSource" 0 = Some (Num 0) ∧
    cell_at out "gasVolume" 0 = Some NaN.
Proof.
  split; [reflexivity|]. split; [reflexivity|].
  eexists. split; [vm_compute; reflexivity|].
  split_and!; reflexivity.
Qed.

(** C9 (code_bug): the code on a table whose columns all have other
    names.  The overrides are honoured by the formulas, and then lines
    127-128 read [inputFile.gasVolume] and [inputFile.waterVolume], the
    default names as literals: the call raises [AttributeError] (the
    claim: it succeeds). *)
Theorem conc_overrides_raise `{PyEnv} :
  def_calc_sdg_conc renamed_example "vg" "vw" "bp" "wt" "ht"
    "eCO2" "sCO2" "eCH4" "sCH4" "eN2O" "sN2O"
  = Raise (AttributeError "gasVolume").
Proof. vm_compute. reflexivity. Qed.

(** With the two literal columns present as well, the same call returns
    and the formulas have read the overridden columns. *)
Example conc_overrides_with_literal_columns `{PyEnv} :
  let df :=
    setitem (setitem renamed_example "gasVolume" [Num 0]) "waterVolume" [Num 0] in
  ∃ out,
    def_calc_sdg_conc df "vg" "vw" "bp" "wt" "ht"
      "eCO2" "sCO2" "eCH4" "sCH4" "eN2O" "sN2O" = Ok out ∧
    fcell out "dissolvedCO2" 0 = Some (spec_dissolved CO2 98 20 40 22 1200 405).
Proof.
  eexists. split; [vm_compute; reflexivity|]. reflexivity.
Qed.

(** ** The calculators one after the other *)

Lemma fcell_frame df out c i :
  col_get c (columns out) = col_get c (columns df) → fcell out c i = fcell df c i.
Proof. intros E. unfold fcell, float_column, loc. by rewrite E. Qed.

Lemma float_column_frame df out c :
  col_get c (columns out) = col_get c (columns df) →
  float_column out c = float_column df c.
Proof. intros E. unfold float_column, loc. by rewrite E. Qed.

Lemma fcell_is_Some df c i x : fcell df c i = Some x → is_Some (float_column df c).
Proof. unfold fcell. by destruct (float_column df c). Qed.

Lemma defaulted_idem g a : defaulted g (defaulted g a) = defaulted g a.
Proof. unfold defaulted. destruct (is_nan a) eqn:E; [by destruct g|by rewrite E]. Qed.

Lemma conc_row_float_columns df i r : conc_row_at df i r → float_columns df conc_inputs.
Proof.
  intros (HB & HVG & HVW & HT & Hg).
  pose proof (Hg CO2) as [? ?]. pose proof (Hg CH4) as [? ?].
  pose proof (Hg N2O) as [? ?].
  repeat apply Forall_cons_2; [..|apply Forall_nil_2]; by eapply fcell_is_Some.
Qed.

Lemma sat_row_float_columns df i r : sat_row_at df i r → float_columns df sat_inputs.
Proof.
  intros (HB & HWT & Hg).
  pose proof (Hg CO2) as [? ?]. pose proof (Hg CH4) as [? ?].
  pose proof (Hg N2O) as [? ?].
  repeat apply Forall_cons_2; [..|apply Forall_nil_2]; by eapply fcell_is_Some.
Qed.

Lemma not_derived_conc c :
  c ∈ ["barometricPressure"; "waterTemp"; "gasVolume"; "waterVolume"; "headspaceTemp";
       "concentrationCO2Gas"; "concentrationCH4Gas"; "concentrationN2OGas"] →
  c ∉ air_cols ++ dissolved_cols.
Proof.
  intros Hc Hin.
  repeat (apply elem_of_cons in Hc as [->|Hc]); [..|by apply elem_of_nil in Hc];
    cbn in Hin;
    repeat (apply elem_of_cons in Hin as [Hin|Hin]; [discriminate Hin|]);
    by apply elem_of_nil in Hin.
Qed.

Section Compose.
Context `{PyEnv}.

(** The derived columns are columns of numbers, also on a table
    without rows. *)
Lemma conc_run_series df B VG VW T (EQ AIR : gas → list float) :
  col_get "barometricPressure" (columns df) = Some (Num <$> B) →
  col_get "gasVolume" (columns df) = Some (Num <$> VG) →
  col_get "waterVolume" (columns df) = Some (Num <$> VW) →
  col_get "headspaceTemp" (columns df) = Some (Num <$> T) →
  (∀ g, col_get (gas_col g) (columns df) = Some (Num <$> EQ g)) →
  (∀ g, col_get (air_col g) (columns df) = Some (Num <$> AIR g)) →
  returns (calc_sdg_conc df) (λ out,
    ∀ g, ∃ xs, col_get (dissolved_col g) (columns out) = Some (Num <$> xs)).
Proof.
  intros HB HVG HVW HT HEQ HAIR.
  pose proof (HEQ CO2) as HE1. pose proof (HEQ CH4) as HE2.
  pose proof (HEQ N2O) as HE3. pose proof (HAIR CO2) as HA1.
  pose proof (HAIR CH4) as HA2. pose proof (HAIR N2O) as HA3.
  simpl in HE1, HE2, HE3, HA1, HA2, HA3.
  pose proof (view_refl df) as V.
  cbv delta [calc_sdg_conc def_calc_sdg_conc]; cbv beta.
  py_run.
  py_done.
  assert (∀ c v k, col_get c (columns out) = Some (value_cells k v) →
            is_series v → ∃ xs, col_get c (columns out) = Some (Num <$> xs)) as Hv.
  { intros c [x|xs] k E; [done|]. intros _. by exists xs. }
  intros []; (eapply Hv; [rewrite Hget; view_lookup|exact I]).
Qed.

Lemma sat_run_series df B WT (D AIR : gas → list float) :
  col_get "barometricPressure" (columns df) = Some (Num <$> B) →
  col_get "waterTemp" (columns df) = Some (Num <$> WT) →
  (∀ g, col_get (dissolved_col g) (columns df) = Some (Num <$> D g)) →
  (∀ g, col_get (air_col g) (columns df) = Some (Num <$> AIR g)) →
  returns (calc_sdg_sat df) (λ out,
    ∀ g, (∃ xs, col_get (satConc_col g) (columns out) = Some (Num <$> xs)) ∧
         (∃ xs, col_get (percSat_col g) (columns out) = Some (Num <$> xs))).
Proof.
  intros HB HWT HD HAIR.
  pose proof (HD CO2) as HD1. pose proof (HD CH4) as HD2.
  pose proof (HD N2O) as HD3. pose proof (HAIR CO2) as HA1.
  pose proof (HAIR CH4) as HA2. pose proof (HAIR N2O) as HA3.
  simpl in HD1, HD2, HD3, HA1, HA2, HA3.
  pose proof (view_refl df) as V.
  cbv delta [calc_sdg_sat def_calc_sdg_sat]; cbv beta.
  py_run.
  py_done.
  assert (∀ c v k, col_get c (columns out) = Some (value_cells k v) →
            is_series v → ∃ xs, col_get c (columns out) = Some (Num <$> xs)) as Hv.
  { intros c [x|xs] k E; [done|]. intros _. by exists xs. }
  intros []; split; (eapply Hv; [rewrite Hget; view_lookup|exact I]).
Qed.

(** What the saturation calculator needs, it finds in the output of
    the concentration calculator, the water temperature apart. *)
Lemma conc_output df :
  float_columns df conc_inputs →
  returns (calc_sdg_conc df) (λ out,
    nrows out = nrows df ∧
    names out = foldl add_name (names df) dissolved_cols ∧
    (∀ c, c ∉ air_cols ++ dissolved_cols →
          col_get c (columns out) = col_get c (columns df)) ∧
    (is_Some (float_column df "waterTemp") → float_columns out sat_inputs)).
Proof.
  intros Hfc.
  destruct (float_columns_conc df Hfc)
    as (B & VG & VW & T & EQ & AIR & HB & HVG & HVW & HT & HEQ & HAIR).
  destruct (conc_run df B VG VW T EQ AIR)
    as (out & Hrun & Hn & _ & Hnames & Hfr & Hair & _); try done.
  destruct (conc_run_series df B VG VW T EQ AIR) as (out' & Hrun' & Hser); try done.
  rewrite Hrun in Hrun'. injection Hrun' as <-.
  exists out. split; [done|]. split_and!; [done..|].
  intros Hwt.
  assert (∀ g, is_Some (float_column out (dissolved_col g))) as Hd.
  { intros g. destruct (Hser g) as [xs Hxs]. exists xs. by apply float_column_Some. }
  assert (∀ g, is_Some (float_column out (air_col g))) as Ha.
  { intros g. eexists. apply float_column_Some, Hair. }
  unfold float_columns, sat_inputs.
  repeat apply Forall_cons_2; [..|apply Forall_nil_2];
    first [apply (Hd CO2)|apply (Hd CH4)|apply (Hd N2O)
          |apply (Ha CO2)|apply (Ha CH4)|apply (Ha N2O)|idtac].
  - rewrite (float_column_frame df) by (apply Hfr, not_derived_conc; in_names).
    exists B. by apply float_column_Some.
  - by rewrite (float_column_frame df) by (apply Hfr, not_derived_conc; in_names).
Qed.

Lemma sat_output df :
  float_columns df sat_inputs →
  returns (calc_sdg_sat df) (λ out,
    nrows out = nrows df ∧
    names out = foldl add_name (names df) sat_cols).
Proof.
  intros Hfc.
  destruct (float_columns_sat df Hfc) as (B & WT & D & AIR & HB & HWT & HD & HAIR).
  destruct (sat_run df B WT D AIR) as (out & Hrun & Hn & _ & Hnames & _); try done.
  by exists out.
Qed.

(** One row through both calculators. *)
Lemma conc_sat_row df i r wt :
  conc_row_at df i r → fcell df "waterTemp" i = Some wt →
  ∃ calc out,
    calc_sdg_conc df = Ok calc ∧ calc_sdg_sat calc = Ok out ∧
    nrows out = nrows df ∧
    names out = foldl add_name (foldl add_name (names df) dissolved_cols) sat_cols ∧
    ∀ g,
      let a := defaulted g (c_air r g) in
      let d := spec_dissolved g (c_baro r) (c_volGas r) (c_volH2O r)
                 (c_headspaceTemp r) (c_eq r g) a in
      let s := spec_satConc g wt a (c_baro r) in
      fcell out (air_col g) i = Some a ∧
      fcell out (dissolved_col g) i = Some d ∧
      fcell out (satConc_col g) i = Some s ∧
      fcell out (percSat_col g) i = Some (spec_percSat d s).
Proof.
  intros Hrow Hwt.
  destruct (conc_output df (conc_row_float_columns df i r Hrow))
    as (calc & Hrun & Hn & Hnames & Hfr & Hsat).
  destruct (conc_row_run df i r Hrow) as (calc' & Hrun' & Hair & Hdis).
  rewrite Hrun in Hrun'. injection Hrun' as <-.
  set (rs := {| s_baro := c_baro r; s_waterTemp := wt;
                s_dissolved := λ g, spec_dissolved g (c_baro r) (c_volGas r)
                                  (c_volH2O r) (c_headspaceTemp r) (c_eq r g)
                                  (defaulted g (c_air r g));
                s_air := λ g, defaulted g (c_air r g) |}).
  assert (sat_row_at calc i rs) as Hrs.
  { destruct Hrow as (HB & _). split_and!.
    - rewrite (fcell_frame df) by (apply Hfr, not_derived_conc; in_names). done.
    - rewrite (fcell_frame df) by (apply Hfr, not_derived_conc; in_names). done.
    - intros g. split; [apply Hdis|apply Hair]. }
  destruct (sat_output calc (sat_row_float_columns calc i rs Hrs))
    as (out & Hrun2 & Hn2 & Hnames2).
  destruct (sat_row_run calc i rs Hrs) as (out' & Hrun2' & Hair2 & Hdis2 & Hsat2 & Hperc2).
  rewrite Hrun2 in Hrun2'. injection Hrun2' as <-.
  exists calc, out. split_and!; [done..|congruence|congruence|].
  intros g. cbv zeta. split_and!.
  - rewrite Hair2. simpl. by rewrite defaulted_idem.
  - by rewrite Hdis2.
  - rewrite Hsat2. simpl. by rewrite defaulted_idem.
  - rewrite Hperc2, Hdis2, Hsat2. simpl. by rewrite defaulted_idem.
Qed.

End Compose.

(** ** Running a calculator again *)

Lemma columns_ext (cs1 cs2 : list (string * Series)) :
  cs1.*1 = cs2.*1 → NoDup cs1.*1 →
  (∀ c, col_get c cs1 = col_get c cs2) → cs1 = cs2.
Proof.
  revert cs2. induction cs1 as [|[n s] cs1 IH]; intros [|[n' s'] cs2];
    csimpl; try done.
  intros [= <- Hnames] [Hn Hnd]%NoDup_cons Hget.
  pose proof (Hget n) as Hs. cbn [col_get] in Hs.
  rewrite String.eqb_refl in Hs. injection Hs as <-.
  f_equal. apply IH; [done..|]. intros c.
  destruct (String.eqb_spec n c) as [<-|Hne].
  - destruct (col_get n cs1) as [t|] eqn:E1.
    { destruct Hn. by eapply col_get_elem. }
    destruct (col_get n cs2) as [t|] eqn:E2; [|done].
    destruct Hn. rewrite Hnames. by eapply col_get_elem.
  - specialize (Hget c). cbn [col_get] in Hget.
    by rewrite (proj2 (String.eqb_neq n c)) in Hget.
Qed.

Lemma table_ext (d1 d2 : DataFrame) :
  nrows d1 = nrows d2 → names d1 = names d2 → NoDup (names d1) →
  (∀ c, col_get c (columns d1) = col_get c (columns d2)) → d1 = d2.
Proof.
  destruct d1 as [n1 cs1], d2 as [n2 cs2]. unfold names. simpl.
  intros -> Hnames Hnd Hget. f_equal. by apply columns_ext.
Qed.

Lemma NoDup_add_name ns n : NoDup ns → NoDup (add_name ns n).
Proof.
  intros Hnd. unfold add_name. case_bool_decide as Hin; [done|].
  apply NoDup_app. split_and!; [done| |apply NoDup_singleton].
  intros x Hx ->%list_elem_of_singleton. done.
Qed.

Lemma NoDup_foldl_add_name cs ns : NoDup ns → NoDup (foldl add_name ns cs).
Proof.
  revert ns. induction cs as [|c cs IH]; intros ns Hnd; simpl; [done|].
  by apply IH, NoDup_add_name.
Qed.

Lemma foldl_add_name_keeps cs ns m : m ∈ ns → m ∈ foldl add_name ns cs.
Proof.
  revert ns. induction cs as [|c cs IH]; intros ns Hm; simpl; [done|].
  by apply IH, add_name_keeps.
Qed.

Lemma foldl_add_name_elem cs ns m : m ∈ cs → m ∈ foldl add_name ns cs.
Proof.
  revert ns. induction cs as [|c cs IH]; intros ns Hm; simpl.
  { by apply elem_of_nil in Hm. }
  apply elem_of_cons in Hm as [->|Hm]; [|by apply IH].
  apply foldl_add_name_keeps, elem_of_add_name. by right.
Qed.

Lemma foldl_add_name_old cs ns : (∀ c, c ∈ cs → c ∈ ns) → foldl add_name ns cs = ns.
Proof.
  induction cs as [|c cs IH]; intros Hin; simpl; [done|].
  rewrite add_name_old by apply Hin, list_elem_of_here.
  apply IH. intros x Hx. by apply Hin, list_elem_of_further.
Qed.

Lemma foldl_add_name_idem cs ns :
  foldl add_name (foldl add_name ns cs) cs = foldl add_name ns cs.
Proof. apply foldl_add_name_old. intros c. apply foldl_add_name_elem. Qed.

Lemma fmap_defaulted_idem g (xs : list float) :
  defaulted g <$> (defaulted g <$> xs) = defaulted g <$> xs.
Proof.
  rewrite <- list_fmap_compose. apply list_fmap_ext. intros i x _. simpl.
  apply defaulted_idem.
Qed.

Lemma series_by_rows df c (xs ys : list float) :
  col_get c (columns df) = Some (Num <$> xs) →
  (∀ i, fcell df c i = ys !! i) → xs = ys.
Proof.
  intros Hxs Hrows. apply list_eq. intros i.
  by rewrite <- Hrows, (fcell_col df c xs).
Qed.

Lemma derived_conc_cases c :
  c ∈ air_cols ++ dissolved_cols → ∃ g, c = air_col g ∨ c = dissolved_col g.
Proof.
  cbn. intros Hc.
  repeat (apply elem_of_cons in Hc as [->|Hc]); [..|by apply elem_of_nil in Hc].
  - exists CO2. by left.
  - exists CH4. by left.
  - exists N2O. by left.
  - exists CO2. by right.
  - exists CH4. by right.
  - exists N2O. by right.
Qed.

Lemma derived_sat_cases c :
  c ∈ air_cols ++ sat_cols →
  ∃ g, c = air_col g ∨ c = satConc_col g ∨ c = percSat_col g.
Proof.
  cbn. intros Hc.
  repeat (apply elem_of_cons in Hc as [->|Hc]); [..|by apply elem_of_nil in Hc].
  - exists CO2. by left.
  - exists CH4. by left.
  - exists N2O. by left.
  - exists CO2. right. by left.
  - exists CH4. right. by left.
  - exists N2O. right. by left.
  - exists CO2. by do 2 right.
  - exists CH4. by do 2 right.
  - exists N2O. by do 2 right.
Qed.

Lemma not_derived_sat c :
  c ∈ ["barometricPressure"; "waterTemp"; "dissolvedCO2"; "dissolvedCH4";
       "dissolvedN2O"] →
  c ∉ air_cols ++ sat_cols.
Proof.
  intros Hc Hin.
  repeat (apply elem_of_cons in Hc as [->|Hc]); [..|by apply elem_of_nil in Hc];
    cbn in Hin;
    repeat (apply elem_of_cons in Hin as [Hin|Hin]; [discriminate Hin|]);
    by apply elem_of_nil in Hin.
Qed.

(** ** The wrapper *)

Lemma fcell_of_cells n d c :
  shaped n d → c ∈ outputDFNames →
  (∀ l, l < n → ∃ k, cell_at d c l = Some k ∧ is_num k) →
  is_Some (float_column d c) ∧
  ∀ l k, cell_at d c l = Some k → fcell d c l = Some (num_of k).
Proof.
  intros Hd Hc Hnum. destruct (shaped_col n d c) as (s & Hs & Hlen); [done..|].
  assert (col_get c (columns d) = Some (Num <$> (num_of <$> s))) as Hcol.
  { rewrite Hs. f_equal. apply list_eq. intros l. rewrite !list_lookup_fmap.
    destruct (s !! l) as [k|] eqn:Hk; simpl; [|done].
    destruct (Hnum l) as (k' & Hk' & Hn).
    { apply lookup_lt_Some in Hk. lia. }
    unfold cell_at in Hk'. rewrite Hs in Hk'. simpl in Hk'.
    rewrite Hk in Hk'. injection Hk' as <-. by destruct k. }
  split.
  - exists (num_of <$> s). by apply float_column_Some.
  - intros l k Hk. rewrite (fcell_col d c _ l Hcol), list_lookup_fmap.
    unfold cell_at in Hk. rewrite Hs in Hk. simpl in Hk. by rewrite Hk.
Qed.

Lemma is_num_reported lab fdp sp c l :
  pipeline_tables lab fdp sp →
  c ∈ ["barometricPressure"; "gasVolume"; "waterVolume"; "headspaceTemp"] →
  is_num (joined_cell lab fdp sp c l).
Proof.
  intros [(_ & _ & _ & _ & _ & _ & Hsp) Hnum] Hc.
  rewrite Forall_forall in Hnum.
  repeat (apply elem_of_cons in Hc as [->|Hc]); [..|by apply elem_of_nil in Hc].
  - apply (is_num_key_cell fdp "ptBarometricPressure"), Hnum. in_names.
  - apply (is_num_key_cell fdp "gasVolumeSyringe"), Hnum. in_names.
  - apply (is_num_key_cell fdp "waterVolumeSyringe"), Hnum. in_names.
  - pose proof (is_num_key_cell fdp "storageWaterTemp" l) as Hst.
    pose proof (item_where_num sp "parentSampleID"
                  (key_cell fdp "waterSampleID" l) "waterTemp" Hsp) as HW.
    change (is_num (let st := key_cell fdp "storageWaterTemp" l in
                    if isna st
                    then match item_where sp "parentSampleID"
                                 (key_cell fdp "waterSampleID" l) "waterTemp" with
                         | Ok v => v
                         | Raise _ => st
                         end
                    else st)).
    cbv zeta. specialize (Hst ltac:(apply Hnum; in_names)).
    destruct (isna _); [|done]. by destruct (item_where sp _ _ _).
Qed.

Lemma is_num_formatted lab fdp sp c l :
  pipeline_tables lab fdp sp →
  c ∈ conc_inputs ++ ["waterTemp"] →
  c ∈ outputDFNames ∧ is_num (joined_cell lab fdp sp c l).
Proof.
  intros Hp Hc. pose proof Hp as [(_ & _ & _ & _ & Hj & Hlab & Hsp) _].
  cbn in Hc.
  repeat (apply elem_of_cons in Hc as [->|Hc]); [..|by apply elem_of_nil in Hc];
    (split; [in_names|]);
    first [ apply (is_num_reported lab fdp sp _ l Hp); in_names
          | apply is_num_joined_cell; [done..|in_names] ].
Qed.

Section Wrapper.
Context `{PyEnv}.

(** Every row of the formatter's output is a row the concentration
    calculator can read. *)
Lemma format_rows lab fdp sp :
  pipeline_tables lab fdp sp →
  returns (def_format_sdg lab fdp sp) (λ d,
    shaped (nrows fdp) d ∧
    float_columns d conc_inputs ∧
    is_Some (float_column d "waterTemp") ∧
    ∀ l, l < nrows fdp →
      conc_row_at d l (formatted_row lab fdp sp l) ∧
      fcell d "waterTemp" l = Some (num_of (joined_cell lab fdp sp "waterTemp" l))).
Proof.
  intros Hp.
  destruct (stacked_run lab fdp sp (proj1 Hp)) as (d & Hrun & Hd & Hcells).
  assert (∀ c, c ∈ conc_inputs ++ ["waterTemp"] →
            is_Some (float_column d c) ∧
            ∀ l, l < nrows fdp →
              fcell d c l = Some (num_of (joined_cell lab fdp sp c l))) as Hcols.
  { intros c Hc.
    assert (c ∈ outputDFNames) as Hco by apply (is_num_formatted lab fdp sp c 0 Hp Hc).
    destruct (fcell_of_cells (nrows fdp) d c Hd Hco) as [Hsome Hrows].
    { intros l Hl. eexists. split; [by apply Hcells|].
      by apply is_num_formatted. }
    split; [done|]. intros l Hl. apply Hrows. by apply Hcells. }
  exists d. split; [done|]. split_and!; [done| | |].
  - apply Forall_forall. intros c Hc. apply Hcols, elem_of_app. by left.
  - apply Hcols. in_names.
  - intros l Hl. split.
    + split_and!; [apply Hcols; [in_names|done]..|].
      intros g. split; apply Hcols; (done || destruct g; in_names).
    + apply Hcols; [in_names|done].
Qed.

Lemma wrapper_run lab fdp sp :
  pipeline_tables lab fdp sp →
  returns (analysis_wrapper lab fdp sp) (λ out,
    nrows out = nrows fdp ∧
    names out = outputDFNames ++ dissolved_cols ++ sat_cols ∧
    ∀ l g, l < nrows fdp →
      let r := formatted_row lab fdp sp l in
      let a := defaulted g (c_air r g) in
      let d := spec_dissolved g (c_baro r) (c_volGas r) (c_volH2O r)
                 (c_headspaceTemp r) (c_eq r g) a in
      let s := spec_satConc g (num_of (joined_cell lab fdp sp "waterTemp" l)) a
                 (c_baro r) in
      fcell out (air_col g) l = Some a ∧
      fcell out (dissolved_col g) l = Some d ∧
      fcell out (satConc_col g) l = Some s ∧
      fcell out (percSat_col g) l = Some (spec_percSat d s)).
Proof.
  intros Hp.
  destruct (format_rows lab fdp sp Hp) as (d & Hrun & Hd & Hfc & Hwt & Hrows).
  destruct (conc_output d Hfc) as (calc & Hrun1 & Hn1 & Hnames1 & _ & Hsat).
  destruct (sat_output calc (Hsat Hwt)) as (out & Hrun2 & Hn2 & Hnames2).
  exists out. split.
  { unfold analysis_wrapper. by rewrite Hrun, bind_Ok, Hrun1, bind_Ok, Hrun2. }
  destruct Hd as (Hn & Hnames & _). split_and!.
  - congruence.
  - rewrite Hnames2, Hnames1, Hnames. reflexivity.
  - intros l g Hl. destruct (Hrows l Hl) as [Hrow Hwtl].
    destruct (conc_sat_row d l _ _ Hrow Hwtl)
      as (calc' & out' & Hr1 & Hr2 & _ & _ & Hg).
    rewrite Hrun1 in Hr1. injection Hr1 as <-.
    rewrite Hrun2 in Hr2. injection Hr2 as <-.
    apply Hg.
Qed.

End Wrapper.

Lemma pipeline_example :
  pipeline_tables externalLabData_example fieldDataProc_example fieldSuperParent_example.
Proof.
  split; [exact stacked_example|].
  repeat apply Forall_cons_2; [..|apply Forall_nil_2];
    intros s Hs; vm_compute in Hs; injection Hs as <-; repeat constructor.
Defined.

(** ** When the calculators return *)












Section Domain.
Context `{PyEnv}.



End Domain.

(** ** More of the formatter *)

(** X1.  The formatter's table has the nineteen output columns, in the order
    of lines 79-102 and with one cell per row of the field table; no
    other column of the field table reaches it. *)
Theorem format_output_schema `{PyEnv} (lab fdp sp : DataFrame) :
  stacked_tables lab fdp sp →
  ∃ out, def_format_sdg lab fdp sp = Ok out ∧
    names out = outputDFNames ∧ nrows out = nrows fdp ∧ wf out ∧
    ∀ c, c ∉ outputDFNames → col_get c (columns out) = None.
Proof.
  intros Hst.
  destruct (stacked_run lab fdp sp Hst) as (out & Hrun & (Hn & Hnames & Hwf) & _).
  exists out. split_and!; [done..|].
  intros c Hc. apply no_column. by rewrite Hnames.
Qed.

Lemma format_output_schema_witness :
  stacked_tables externalLabData_example fieldDataProc_example fieldSuperParent_example ∧
  ∃ out, def_format_sdg (H:=model_env) externalLabData_example fieldDataProc_example
           fieldSuperParent_example = Ok out ∧
    names out = outputDFNames ∧ nrows out = 2 ∧
    col_get "storageWaterTemp" (columns out) = None.
Proof.
  split; [exact stacked_example|].
  destruct (format_output_schema (H:=model_env) _ _ _ stacked_example)
    as (out & Hrun & Hnames & Hn & _ & Hdrop).
  exists out. split; [exact Hrun|]. split; [exact Hnames|]. split; [exact Hn|].
  apply Hdrop. intros Hin. unfold outputDFNames in Hin.
  repeat (apply elem_of_cons in Hin as [Hin|Hin]; [discriminate Hin|]).
  by apply elem_of_nil in Hin.
Defined.

(** X2.  The test of lines 63-77 never holds, so on every table each row
    has both source flags 0 and the two syringe volumes as the field
    table reports them, the missing ones still missing. *)
Theorem format_volumes_as_reported `{PyEnv} (lab fdp sp : DataFrame) :
  stacked_tables lab fdp sp →
  ∃ out, def_format_sdg lab fdp sp = Ok out ∧
    ∀ l, l < nrows fdp →
      cell_at out "volH2OSource" l = Some (Num 0) ∧
      cell_at out "volGasSource" l = Some (Num 0) ∧
      cell_at out "waterVolume" l = cell_at fdp "waterVolumeSyringe" l ∧
      cell_at out "gasVolume" l = cell_at fdp "gasVolumeSyringe" l.
Proof.
  intros Hst.
  destruct (stacked_run lab fdp sp Hst) as (out & Hrun & _ & Hcells).
  destruct Hst as (_ & Hwf & _ & Hin & _). rewrite Forall_forall in Hin.
  exists out. split; [done|]. intros l Hl.
  rewrite !Hcells by first [done|in_names].
  rewrite !cell_at_key_cell by first [done|apply Hin; in_names].
  done.
Qed.

Lemma format_volumes_as_reported_witness :
  stacked_tables externalLabData_example fieldDataProc_example fieldSuperParent_example ∧
  ∃ out, def_format_sdg (H:=model_env) externalLabData_example fieldDataProc_example
           fieldSuperParent_example = Ok out ∧
    cell_at out "volH2OSource" 0 = Some (Num 0) ∧
    cell_at out "waterVolume" 0 = Some NaN ∧
    cell_at out "volGasSource" 1 = Some (Num 0) ∧
    cell_at out "gasVolume" 1 = Some (Num 25).
Proof.
  split; [exact stacked_example|].
  destruct (format_volumes_as_reported (H:=model_env) _ _ _ stacked_example)
    as (out & Hrun & Hrows).
  exists out. split; [done|].
  destruct (Hrows 0 ltac:(simpl; lia)) as (H0 & _ & Hw0 & _).
  destruct (Hrows 1 ltac:(simpl; lia)) as (_ & H1 & _ & Hg1).
  split_and!; done.
Defined.

(** X3.  Lines 108-116: the station is the named location, the barometric
    pressure the point pressure, and the sample IDs and the two dates
    are the field table's cells, or missing cells where it has no such
    column. *)
Theorem format_field_columns `{PyEnv} (lab fdp sp : DataFrame) :
  stacked_tables lab fdp sp →
  ∃ out, def_format_sdg lab fdp sp = Ok out ∧
    ∀ l, l < nrows fdp →
      cell_at out "stationID" l = cell_at fdp "namedLocation" l ∧
      cell_at out "barometricPressure" l = cell_at fdp "ptBarometricPressure" l ∧
      ∀ c, c ∈ ["waterSampleID"; "referenceAirSampleID"; "equilibratedAirSampleID";
                "collectDate"; "processedDate"] →
           cell_at out c l = Some (key_cell fdp c l).
Proof.
  intros Hst.
  destruct (stacked_run lab fdp sp Hst) as (out & Hrun & _ & Hcells).
  destruct Hst as (_ & Hwf & _ & Hin & _). rewrite Forall_forall in Hin.
  exists out. split; [done|]. intros l Hl. split_and!.
  - rewrite Hcells by first [done|in_names].
    by rewrite cell_at_key_cell by first [done|apply Hin; in_names].
  - rewrite Hcells by first [done|in_names].
    by rewrite cell_at_key_cell by first [done|apply Hin; in_names].
  - intros c Hc.
    repeat (apply elem_of_cons in Hc as [->|Hc]); [..|by apply elem_of_nil in Hc];
      by rewrite Hcells by first [done|in_names].
Qed.

Lemma format_field_columns_witness :
  stacked_tables externalLabData_example fieldDataProc_example fieldSuperParent_example ∧
  ∃ out, def_format_sdg (H:=model_env) externalLabData_example fieldDataProc_example
           fieldSuperParent_example = Ok out ∧
    cell_at out "stationID" 0 = Some (Str "ARIK.AOS.reach") ∧
    cell_at out "barometricPressure" 1 = Some (Num 97.5) ∧
    cell_at out "collectDate" 1 = Some (Str "2019-07-17T15:10Z").
Proof.
  split; [exact stacked_example|].
  destruct (format_field_columns (H:=model_env) _ _ _ stacked_example)
    as (out & Hrun & Hrows).
  exists out. split; [done|].
  destruct (Hrows 0 ltac:(simpl; lia)) as (Hs0 & _ & _).
  destruct (Hrows 1 ltac:(simpl; lia)) as (_ & Hb1 & Hc1).
  split_and!; [done..|]. apply (Hc1 "collectDate"). in_names.
Defined.

(** X4.  Lines 112 and 146-150: the headspace temperature is the storage
    water temperature where that is reported; where it is missing, it
    is the water temperature of the sample's super-parent row, and
    missing when that lookup fails. *)
Theorem format_headspace_fallback `{PyEnv} (lab fdp sp : DataFrame) :
  stacked_tables lab fdp sp →
  ∃ out, def_format_sdg lab fdp sp = Ok out ∧
    ∀ l, l < nrows fdp →
      let st := key_cell fdp "storageWaterTemp" l in
      let W := item_where sp "parentSampleID" (key_cell fdp "waterSampleID" l)
                 "waterTemp" in
      cell_at out "headspaceTemp" l = Some (if isna st then or_null W else st).
Proof.
  intros Hst.
  destruct (stacked_run lab fdp sp Hst) as (out & Hrun & _ & Hcells).
  exists out. split; [done|]. intros l Hl. cbv zeta.
  rewrite Hcells by first [done|in_names]. f_equal.
  change (joined_cell lab fdp sp "headspaceTemp" l) with
    (let st := key_cell fdp "storageWaterTemp" l in
     if isna st
     then match item_where sp "parentSampleID" (key_cell fdp "waterSampleID" l)
                  "waterTemp" with
          | Ok v => v
          | Raise _ => st
          end
     else st).
  cbv zeta. destruct (isna _) eqn:Hna; [|done].
  destruct (item_where sp _ _ _); [done|]. by apply isna_NaN.
Qed.

Lemma format_headspace_fallback_witness :
  stacked_tables externalLabData_example
    (setitem fieldDataProc_example "storageWaterTemp" [NaN; NaN])
    fieldSuperParent_example ∧
  ∃ out, def_format_sdg (H:=model_env) externalLabData_example
           (setitem fieldDataProc_example "storageWaterTemp" [NaN; NaN])
           fieldSuperParent_example = Ok out ∧
    cell_at out "headspaceTemp" 0 = Some (Num 14.5) ∧
    cell_at out "headspaceTemp" 1 = Some NaN.
Proof.
  assert (stacked_tables externalLabData_example
            (setitem fieldDataProc_example "storageWaterTemp" [NaN; NaN])
            fieldSuperParent_example) as Hst.
  { destruct stacked_example as (Hlab & _ & Hsp & _ & _ & Hnl & Hns).
    split; [done|]. split; [by repeat constructor|]. split; [done|].
    split; [by repeat constructor|]. split; [|done].
    repeat apply Forall_cons_2; [..|apply Forall_nil_2];
      intros s Hs; vm_compute in Hs; discriminate. }
  split; [exact Hst|].
  destruct (format_headspace_fallback (H:=model_env) _ _ _ Hst) as (out & Hrun & Hrows).
  exists out. split; [done|].
  split; [apply (Hrows 0); simpl; lia|apply (Hrows 1); simpl; lia].
Defined.

(** X5.  Lines 120-138: where exactly one lab row carries the reference-air
    sample ID of a row, that lab row's concentration becomes the row's
    reference-air concentration; where the same holds of the
    equilibrated-air sample ID as well, its lab row gives the
    equilibrated-air concentration. *)
Theorem format_unique_match `{PyEnv} (lab fdp sp : DataFrame) :
  stacked_tables lab fdp sp →
  ∃ out, def_format_sdg lab fdp sp = Ok out ∧
    ∀ l g j v, l < nrows fdp →
      only_match lab "sampleID" (key_cell fdp "referenceAirSampleID" l) j →
      cell_at lab (lab_col g) j = Some v →
      cell_at out (air_col g) l = Some v ∧
      ∀ j' w,
        only_match lab "sampleID" (key_cell fdp "equilibratedAirSampleID" l) j' →
        cell_at lab (lab_col g) j' = Some w →
        cell_at out (gas_col g) l = Some w.
Proof.
  intros Hst.
  destruct (stacked_run lab fdp sp Hst) as (out & Hrun & _ & Hcells).
  exists out. split; [done|]. intros l g j v Hl Hj Hv.
  pose proof (item_where_only lab "sampleID" _ (lab_col g) j v Hj Hv) as HR.
  split.
  - rewrite Hcells by first [done|apply air_col_output].
    by rewrite joined_cell_air, HR.
  - intros j' w Hj' Hw.
    pose proof (item_where_only lab "sampleID" _ (lab_col g) j' w Hj' Hw) as HQ.
    rewrite Hcells by first [done|apply gas_col_output].
    by rewrite joined_cell_gas, HR, HQ.
Qed.

Lemma format_unique_match_witness :
  stacked_tables externalLabData_example fieldDataProc_example fieldSuperParent_example ∧
  only_match externalLabData_example "sampleID" (Str "A1") 0 ∧
  only_match externalLabData_example "sampleID" (Str "G1") 1 ∧
  ∃ out, def_format_sdg (H:=model_env) externalLabData_example fieldDataProc_example
           fieldSuperParent_example = Ok out ∧
    cell_at out "concentrationCH4Air" 0 = Some (Num 1.9) ∧
    cell_at out "concentrationCH4Gas" 0 = Some (Num 12.5).
Proof.
  assert (only_match externalLabData_example "sampleID" (Str "A1") 0) as HA.
  { split; [by eexists|]. intros [|[|[|[|i]]]] k Hi; try done; by intros [= <-]. }
  assert (only_match externalLabData_example "sampleID" (Str "G1") 1) as HG.
  { split; [by eexists|]. intros [|[|[|[|i]]]] k Hi; try done; by intros [= <-]. }
  split; [exact stacked_example|]. split; [exact HA|]. split; [exact HG|].
  destruct (format_unique_match (H:=model_env) _ _ _ stacked_example)
    as (out & Hrun & Hrows).
  exists out. split; [done|].
  destruct (Hrows 0 CH4 0 (Num 1.9) ltac:(simpl; lia) HA eq_refl) as [Hair Hgas].
  split; [exact Hair|]. by apply (Hgas 1 (Num 12.5) HG).
Defined.

(** X6.  A failed lookup leaves a concentration as the field table had it:
    missing when the field table has no column of that name, which is
    the usual case, and otherwise the field table's own value. *)
Theorem format_failed_lookup_keeps_field `{PyEnv} (lab fdp sp : DataFrame) :
  stacked_tables lab fdp sp →
  ∃ out, def_format_sdg lab fdp sp = Ok out ∧
    ∀ l g e, l < nrows fdp →
      item_where lab "sampleID" (key_cell fdp "referenceAirSampleID" l) (lab_col g)
        = Raise e →
      cell_at out (air_col g) l = Some (key_cell fdp (air_col g) l) ∧
      cell_at out (gas_col g) l = Some (key_cell fdp (gas_col g) l).
Proof.
  intros Hst.
  destruct (stacked_run lab fdp sp Hst) as (out & Hrun & _ & Hcells).
  exists out. split; [done|]. intros l g e Hl HR.
  rewrite !Hcells by first [done|apply air_col_output|apply gas_col_output].
  by rewrite joined_cell_air, joined_cell_gas, HR.
Qed.

Lemma format_failed_lookup_keeps_field_witness :
  stacked_tables externalLabData_example fieldDataProc_with_air
    fieldSuperParent_example ∧
  ∃ out, def_format_sdg (H:=model_env) externalLabData_example fieldDataProc_with_air
           fieldSuperParent_example = Ok out ∧
    cell_at out "concentrationCO2Air" 1 = Some (Num 401) ∧
    cell_at out "concentrationCO2Gas" 1 = Some NaN.
Proof.
  assert (stacked_tables externalLabData_example fieldDataProc_with_air
            fieldSuperParent_example) as Hst.
  { destruct stacked_example as (Hlab & _ & Hsp & _ & _ & Hnl & Hns).
    split; [done|]. split; [by repeat constructor|]. split; [done|].
    split; [by repeat constructor|]. split; [|done].
    repeat apply Forall_cons_2; [..|apply Forall_nil_2];
      intros s Hs; vm_compute in Hs; try discriminate.
    injection Hs as <-. repeat constructor. }
  split; [exact Hst|].
  destruct (format_failed_lookup_keeps_field (H:=model_env) _ _ _ Hst)
    as (out & Hrun & Hrows).
  exists out. split; [done|].
  apply (Hrows 1 CO2 ValueError); [simpl; lia|reflexivity].
Defined.

(** X7.  A row whose reference-air sample ID is missing matches no lab row,
    not even one whose own sample ID is missing: its concentrations
    stay as the field table had them. *)
Theorem format_missing_key_never_matches `{PyEnv} (lab fdp sp : DataFrame) :
  stacked_tables lab fdp sp →
  ∃ out, def_format_sdg lab fdp sp = Ok out ∧
    ∀ l g, l < nrows fdp →
      isna (key_cell fdp "referenceAirSampleID" l) = true →
      match_count lab "sampleID" (key_cell fdp "referenceAirSampleID" l) = 0 ∧
      cell_at out (air_col g) l = Some (key_cell fdp (air_col g) l) ∧
      cell_at out (gas_col g) l = Some (key_cell fdp (gas_col g) l).
Proof.
  intros Hst.
  destruct (stacked_run lab fdp sp Hst) as (out & Hrun & _ & Hcells).
  exists out. split; [done|]. intros l g Hl Hna%isna_NaN.
  rewrite Hna. split; [apply match_count_nan|].
  destruct (item_where_count lab "sampleID" NaN (lab_col g)) as [e He].
  { apply Hst. }
  { by rewrite match_count_nan. }
  rewrite !Hcells by first [done|apply air_col_output|apply gas_col_output].
  by rewrite joined_cell_air, joined_cell_gas, Hna, He.
Qed.

Lemma format_missing_key_never_matches_witness :
  let lab := setitem externalLabData_example "sampleID"
               [NaN; Str "G1"; Str "G2"; Str "G2"] in
  let fdp := setitem fieldDataProc_example "referenceAirSampleID" [NaN; Str "A2"] in
  stacked_tables lab fdp fieldSuperParent_example ∧
  cell_at lab "sampleID" 0 = Some NaN ∧
  ∃ out, def_format_sdg (H:=model_env) lab fdp fieldSuperParent_example = Ok out ∧
    cell_at out "concentrationCO2Air" 0 = Some NaN ∧
    cell_at out "concentrationCO2Gas" 0 = Some NaN.
Proof.
  intros lab fdp.
  assert (stacked_tables lab fdp fieldSuperParent_example) as Hst.
  { destruct stacked_example as (_ & _ & Hsp & _ & _ & _ & Hns).
    split; [by repeat constructor|]. split; [by repeat constructor|].
    split; [done|]. split; [by repeat constructor|]. split; [|split; [|done]].
    - repeat apply Forall_cons_2; [..|apply Forall_nil_2];
        intros s Hs; vm_compute in Hs; discriminate.
    - intros g s Hs. destruct g; vm_compute in Hs; injection Hs as <-;
        repeat constructor. }
  split; [exact Hst|]. split; [reflexivity|].
  destruct (format_missing_key_never_matches (H:=model_env) _ _ _ Hst)
    as (out & Hrun & Hrows).
  exists out. split; [done|].
  apply (Hrows 0 CO2); [simpl; lia|reflexivity].
Defined.

(** X8.  Lines 63-116: a field table without one of the six columns the
    formatter reads makes it raise [KeyError] for such a column, before
    any lookup in the other two tables. *)
Theorem format_missing_field_column `{PyEnv} (lab fdp sp : DataFrame) (c : string) :
  c ∈ field_inputs → c ∉ names fdp →
  ∃ c', c' ∈ field_inputs ∧ (c' ∉ names fdp) ∧
        def_format_sdg lab fdp sp = Raise (KeyError c').
Proof.
  intros Hc Hn. apply no_column in Hn.
  pose proof (view_refl fdp) as V.
  destruct (col_get "waterVolumeSyringe" (columns fdp)) as [sWV|] eqn:HWV;
    [|exists "waterVolumeSyringe"; split; [in_names|];
      split; [by apply col_get_None_names|];
      apply continues_raise; cbv delta [def_format_sdg]; cbv beta;
      fm_steps; fm_missing].
  destruct (col_get "gasVolumeSyringe" (columns fdp)) as [sGV|] eqn:HGV;
    [|exists "gasVolumeSyringe"; split; [in_names|];
      split; [by apply col_get_None_names|];
      apply continues_raise; cbv delta [def_format_sdg]; cbv beta;
      fm_steps; fm_missing].
  destruct (col_get "waterSampleID" (columns fdp)) as [sID|] eqn:HID;
    [|exists "waterSampleID"; split; [in_names|];
      split; [by apply col_get_None_names|];
      apply continues_raise; cbv delta [def_format_sdg]; cbv beta;
      fm_steps; fm_missing].
  destruct (col_get "storageWaterTemp" (columns fdp)) as [sST|] eqn:HST;
    [|exists "storageWaterTemp"; split; [in_names|];
      split; [by apply col_get_None_names|];
      apply continues_raise; cbv delta [def_format_sdg]; cbv beta;
      fm_steps; fm_missing].
  destruct (col_get "ptBarometricPressure" (columns fdp)) as [sBP|] eqn:HBP;
    [|exists "ptBarometricPressure"; split; [in_names|];
      split; [by apply col_get_None_names|];
      apply continues_raise; cbv delta [def_format_sdg]; cbv beta;
      fm_steps; fm_missing].
  destruct (col_get "namedLocation" (columns fdp)) as [sNL|] eqn:HNL;
    [|exists "namedLocation"; split; [in_names|];
      split; [by apply col_get_None_names|];
      apply continues_raise; cbv delta [def_format_sdg]; cbv beta;
      fm_steps; fm_missing].
  unfold field_inputs in Hc.
  repeat (apply elem_of_cons in Hc as [->|Hc]); [..|by apply elem_of_nil in Hc];
    congruence.
Qed.

Lemma format_missing_field_column_witness :
  ∃ c', c' ∈ field_inputs ∧ (c' ∉ names fieldSuperParent_example) ∧
    def_format_sdg (H:=model_env) externalLabData_example fieldSuperParent_example
      fieldSuperParent_example = Raise (KeyError c').
Proof.
  apply (format_missing_field_column (H:=model_env) externalLabData_example
           fieldSuperParent_example fieldSuperParent_example "namedLocation").
  - in_names.
  - unfold names. simpl. rewrite !not_elem_of_cons. split_and!; try done.
    apply not_elem_of_nil.
Defined.

(** X9.  Lines 153-159: a reference-air concentration that the lab table
    reports as text which [float] rejects makes the formatter raise
    [ValueError], although the lookup itself went through. *)
Theorem format_text_concentration_raises `{PyEnv} (lab fdp sp : DataFrame)
    (l : nat) (g : gas) (t : string) :
  wf fdp → Forall (λ c, c ∈ names fdp) field_inputs → l < nrows fdp →
  item_where lab "sampleID" (key_cell fdp "referenceAirSampleID" l) (lab_col g)
    = Ok (Str t) →
  py_float t = None →
  def_format_sdg lab fdp sp = Raise ValueError.
Proof.
  intros Hwf Hin Hl HR Ht.
  apply (format_raises lab fdp sp (air_col g) l); [done..|apply air_col_joined|done|].
  rewrite joined_cell_air, HR. simpl. by rewrite Ht.
Qed.

Lemma format_text_concentration_raises_witness :
  item_where externalLabData_text "sampleID" (Str "A1") "concentrationCO2"
    = Ok (Str "below detection") ∧
  def_format_sdg (H:=model_env) externalLabData_text fieldDataProc_example
    fieldSuperParent_example = Raise ValueError.
Proof.
  split; [reflexivity|].
  apply (format_text_concentration_raises (H:=model_env) externalLabData_text
           fieldDataProc_example fieldSuperParent_example 0 CO2 "below detection").
  - by repeat constructor.
  - by repeat constructor.
  - simpl; lia.
  - reflexivity.
  - reflexivity.
Defined.

(** ** More of the calculators, and the wrapper *)

(** X10.  Lines 27-33 of the wrapper on one row: the saturation calculator
    reads what the concentration calculator left.  The reference air is
    defaulted once, both dissolved<Gas> and satConc<Gas> use the
    defaulted value, and <Gas>PercSat is the quotient of the two. *)
Theorem conc_then_sat `{PyEnv} (df : DataFrame) (i : nat) (r : conc_row) (wt : float) :
  conc_row_at df i r → fcell df "waterTemp" i = Some wt →
  ∃ calc out,
    calc_sdg_conc df = Ok calc ∧ calc_sdg_sat calc = Ok out ∧
    nrows out = nrows df ∧
    names out = foldl add_name (foldl add_name (names df) dissolved_cols) sat_cols ∧
    ∀ g,
      let a := defaulted g (c_air r g) in
      let d := spec_dissolved g (c_baro r) (c_volGas r) (c_volH2O r)
                 (c_headspaceTemp r) (c_eq r g) a in
      let s := spec_satConc g wt a (c_baro r) in
      fcell out (air_col g) i = Some a ∧
      fcell out (dissolved_col g) i = Some d ∧
      fcell out (satConc_col g) i = Some s ∧
      fcell out (percSat_col g) i = Some (spec_percSat d s).
Proof. apply conc_sat_row. Qed.

Lemma conc_then_sat_witness :
  conc_row_at conc_example 1 conc_example_row1 ∧
  fcell conc_example "waterTemp" 1 = Some 15%float ∧
  ∃ calc out,
    calc_sdg_conc (H:=model_env) conc_example = Ok calc ∧
    calc_sdg_sat (H:=model_env) calc = Ok out ∧
    names out = names conc_example ++ dissolved_cols ++ sat_cols ∧
    ∀ g, fcell out (air_col g) 1 = Some (background g) ∧
         fcell out (satConc_col g) 1 =
           Some (spec_satConc (H:=model_env) g 15 (background g) 98).
Proof.
  split; [apply conc_example_rows|]. split; [reflexivity|].
  destruct (conc_then_sat (H:=model_env) conc_example 1 conc_example_row1 15)
    as (calc & out & Hr1 & Hr2 & _ & Hnames & Hg);
    [apply conc_example_rows|reflexivity|].
  exists calc, out. split; [done|]. split; [done|]. split; [by rewrite Hnames|].
  intros g. destruct (Hg g) as (Ha & _ & Hs & _). by split.
Defined.

(** X11.  Lines 105-128 again: on a table of numbers with distinct column
    names, [def_calc_sdg_conc] run on its own output returns that
    output unchanged. *)
Theorem conc_rerun_unchanged `{PyEnv} (df : DataFrame) :
  float_columns df conc_inputs → NoDup (names df) →
  ∃ out, calc_sdg_conc df = Ok out ∧ calc_sdg_conc out = Ok out.
Proof.
  intros Hfc Hnd.
  destruct (float_columns_conc df Hfc)
    as (B & VG & VW & T & EQ & AIR & HB & HVG & HVW & HT & HEQ & HAIR).
  destruct (conc_run df B VG VW T EQ AIR)
    as (out & Hrun & Hn & _ & Hnames & Hfr & Hair & Hdis); try done.
  destruct (conc_run_series df B VG VW T EQ AIR) as (out' & Hrun' & Hser); try done.
  rewrite Hrun in Hrun'. injection Hrun' as <-.
  assert (∀ c, c ∈ ["barometricPressure"; "waterTemp"; "gasVolume"; "waterVolume";
                    "headspaceTemp"; "concentrationCO2Gas"; "concentrationCH4Gas";
                    "concentrationN2OGas"] →
            col_get c (columns out) = col_get c (columns df)) as Hin.
  { intros c Hc. by apply Hfr, not_derived_conc. }
  destruct (conc_run out B VG VW T EQ (λ g, defaulted g <$> AIR g))
    as (out2 & Hrun2 & Hn2 & _ & Hnames2 & Hfr2 & Hair2 & Hdis2).
  { rewrite Hin by in_names. done. }
  { rewrite Hin by in_names. done. }
  { rewrite Hin by in_names. done. }
  { rewrite Hin by in_names. done. }
  { intros g. rewrite Hin by (destruct g; in_names). apply HEQ. }
  { apply Hair. }
  destruct (conc_run_series out B VG VW T EQ (λ g, defaulted g <$> AIR g))
    as (out2' & Hrun2' & Hser2).
  { rewrite Hin by in_names. done. }
  { rewrite Hin by in_names. done. }
  { rewrite Hin by in_names. done. }
  { rewrite Hin by in_names. done. }
  { intros g. rewrite Hin by (destruct g; in_names). apply HEQ. }
  { apply Hair. }
  rewrite Hrun2 in Hrun2'. injection Hrun2' as <-.
  exists out. split; [done|]. rewrite Hrun2. f_equal.
  apply table_ext.
  - done.
  - by rewrite Hnames2, Hnames, foldl_add_name_idem.
  - rewrite Hnames2, Hnames, foldl_add_name_idem. by apply NoDup_foldl_add_name.
  - intros c. destruct (decide (c ∈ air_cols ++ dissolved_cols)) as [Hc|Hc];
      [|by apply Hfr2].
    destruct (derived_conc_cases c Hc) as [g [-> | ->]].
    + by rewrite Hair2, Hair, fmap_defaulted_idem.
    + destruct (Hser g) as [xs Hxs], (Hser2 g) as [ys Hys].
      rewrite Hxs, Hys. do 2 f_equal. apply (series_by_rows out2 _ _ _ Hys).
      intros i. rewrite Hdis2, <- (fcell_col out _ xs i Hxs), Hdis.
      rewrite list_lookup_fmap.
      destruct (B !! i), (VG !! i), (VW !! i), (T !! i), (EQ g !! i), (AIR g !! i);
        simpl; try done.
      by rewrite defaulted_idem.
Qed.

(** X12.  Lines 92-113 again: [def_calc_sdg_sat] run on its own output returns
    that output unchanged. *)
Theorem sat_rerun_unchanged `{PyEnv} (df : DataFrame) :
  float_columns df sat_inputs → NoDup (names df) →
  ∃ out, calc_sdg_sat df = Ok out ∧ calc_sdg_sat out = Ok out.
Proof.
  intros Hfc Hnd.
  destruct (float_columns_sat df Hfc) as (B & WT & D & AIR & HB & HWT & HD & HAIR).
  destruct (sat_run df B WT D AIR)
    as (out & Hrun & Hn & _ & Hnames & Hfr & Hair & Hsat & Hperc); try done.
  destruct (sat_run_series df B WT D AIR) as (out' & Hrun' & Hser); try done.
  rewrite Hrun in Hrun'. injection Hrun' as <-.
  assert (∀ c, c ∈ ["barometricPressure"; "waterTemp"; "dissolvedCO2"; "dissolvedCH4";
                    "dissolvedN2O"] →
            col_get c (columns out) = col_get c (columns df)) as Hin.
  { intros c Hc. by apply Hfr, not_derived_sat. }
  destruct (sat_run out B WT D (λ g, defaulted g <$> AIR g))
    as (out2 & Hrun2 & Hn2 & _ & Hnames2 & Hfr2 & Hair2 & Hsat2 & Hperc2).
  { rewrite Hin by in_names. done. }
  { rewrite Hin by in_names. done. }
  { intros g. rewrite Hin by (destruct g; in_names). apply HD. }
  { apply Hair. }
  destruct (sat_run_series out B WT D (λ g, defaulted g <$> AIR g))
    as (out2' & Hrun2' & Hser2).
  { rewrite Hin by in_names. done. }
  { rewrite Hin by in_names. done. }
  { intros g. rewrite Hin by (destruct g; in_names). apply HD. }
  { apply Hair. }
  rewrite Hrun2 in Hrun2'. injection Hrun2' as <-.
  assert (∀ g i, fcell out2 (satConc_col g) i = fcell out (satConc_col g) i) as Hsame.
  { intros g i. rewrite Hsat2, Hsat, list_lookup_fmap.
    destruct (WT !! i), (AIR g !! i), (B !! i); simpl; try done.
    by rewrite defaulted_idem. }
  exists out. split; [done|]. rewrite Hrun2. f_equal.
  apply table_ext.
  - done.
  - by rewrite Hnames2, Hnames, foldl_add_name_idem.
  - rewrite Hnames2, Hnames, foldl_add_name_idem. by apply NoDup_foldl_add_name.
  - intros c. destruct (decide (c ∈ air_cols ++ sat_cols)) as [Hc|Hc];
      [|by apply Hfr2].
    destruct (derived_sat_cases c Hc) as [g [-> | [-> | ->]]].
    + by rewrite Hair2, Hair, fmap_defaulted_idem.
    + destruct (Hser g) as [[xs Hxs] _], (Hser2 g) as [[ys Hys] _].
      rewrite Hxs, Hys. do 2 f_equal. apply (series_by_rows out2 _ _ _ Hys).
      intros i. by rewrite Hsame, (fcell_col out _ xs i Hxs).
    + destruct (Hser g) as [_ [xs Hxs]], (Hser2 g) as [_ [ys Hys]].
      rewrite Hxs, Hys. do 2 f_equal. apply (series_by_rows out2 _ _ _ Hys).
      intros i. by rewrite Hperc2, Hsame, <- Hperc, (fcell_col out _ xs i Hxs).
Qed.

Lemma conc_rerun_unchanged_witness :
  float_columns conc_example conc_inputs ∧ NoDup (names conc_example) ∧
  ∃ out, calc_sdg_conc (H:=model_env) conc_example = Ok out ∧
         calc_sdg_conc (H:=model_env) out = Ok out.
Proof.
  assert (float_columns conc_example conc_inputs) as Hc.
  { repeat apply Forall_cons_2; [..|apply Forall_nil_2]; by eexists. }
  assert (NoDup (names conc_example)) as Hnd.
  { apply (bool_decide_unpack _). by vm_compute. }
  split; [exact Hc|]. split; [exact Hnd|].
  apply (conc_rerun_unchanged (H:=model_env) conc_example Hc Hnd).
Defined.

Lemma sat_rerun_unchanged_witness :
  float_columns sat_example sat_inputs ∧ NoDup (names sat_example) ∧
  ∃ out, calc_sdg_sat (H:=model_env) sat_example = Ok out ∧
         calc_sdg_sat (H:=model_env) out = Ok out.
Proof.
  assert (float_columns sat_example sat_inputs) as Hs.
  { repeat apply Forall_cons_2; [..|apply Forall_nil_2]; by eexists. }
  assert (NoDup (names sat_example)) as Hnd.
  { apply (bool_decide_unpack _). by vm_compute. }
  split; [exact Hs|]. split; [exact Hnd|].
  apply (sat_rerun_unchanged (H:=model_env) sat_example Hs Hnd).
Defined.

(** X13.  The wrapper's three calls on stacked tables of numbers: the result
    has the rows of the field table and the nineteen output columns
    followed by the three dissolved<Gas>, the three satConc<Gas> and the
    three <Gas>PercSat columns, and each row holds the formulas' values
    at the row's formatted cells. *)
Theorem wrapper_rows `{PyEnv} (lab fdp sp : DataFrame) :
  pipeline_tables lab fdp sp →
  ∃ out, analysis_wrapper lab fdp sp = Ok out ∧
    nrows out = nrows fdp ∧
    names out = outputDFNames ++ dissolved_cols ++ sat_cols ∧
    ∀ l g, l < nrows fdp →
      let r := formatted_row lab fdp sp l in
      let a := defaulted g (c_air r g) in
      let d := spec_dissolved g (c_baro r) (c_volGas r) (c_volH2O r)
                 (c_headspaceTemp r) (c_eq r g) a in
      let s := spec_satConc g (num_of (joined_cell lab fdp sp "waterTemp" l)) a
                 (c_baro r) in
      fcell out (air_col g) l = Some a ∧
      fcell out (dissolved_col g) l = Some d ∧
      fcell out (satConc_col g) l = Some s ∧
      fcell out (percSat_col g) l = Some (spec_percSat d s).
Proof. apply wrapper_run. Qed.

Lemma wrapper_rows_witness :
  pipeline_tables externalLabData_example fieldDataProc_example
    fieldSuperParent_example ∧
  ∃ out, analysis_wrapper (H:=model_env) externalLabData_example fieldDataProc_example
           fieldSuperParent_example = Ok out ∧
    nrows out = 2 ∧
    fcell out "concentrationCO2Air" 0 = Some 410%float ∧
    fcell out "satConcCO2" 0 = Some (spec_satConc (H:=model_env) CO2 14.5 410 98) ∧
    fcell out "concentrationCO2Air" 1 = Some 405%float.
Proof.
  split; [exact pipeline_example|].
  destruct (wrapper_rows (H:=model_env) _ _ _ pipeline_example)
    as (out & Hrun & Hn & _ & Hrows).
  exists out. split; [done|]. split; [done|].
  destruct (Hrows 0 CO2 ltac:(simpl; lia)) as (Ha0 & _ & Hs0 & _).
  destruct (Hrows 1 CO2 ltac:(simpl; lia)) as (Ha1 & _).
  split; [exact Ha0|]. split; [exact Hs0|exact Ha1].
Defined.

(** X14.  The wrapper on a sample whose syringe volume is missing: since the
    formatter never substitutes the default volumes, the missing volume
    reaches the concentration formula, and the sample's dissolved<Gas>
    and <Gas>PercSat are null for every gas. *)
Theorem wrapper_missing_volume `{PyEnv} (lab fdp sp : DataFrame) :
  pipeline_tables lab fdp sp →
  ∃ out, analysis_wrapper lab fdp sp = Ok out ∧
    ∀ l g, l < nrows fdp →
      isna (key_cell fdp "waterVolumeSyringe" l) = true ∨
      isna (key_cell fdp "gasVolumeSyringe" l) = true →
      fcell out (dissolved_col g) l = Some nan ∧
      fcell out (percSat_col g) l = Some nan.
Proof.
  intros Hp.
  destruct (wrapper_run lab fdp sp Hp) as (out & Hrun & _ & _ & Hrows).
  exists out. split; [done|]. intros l g Hl Hna.
  destruct (Hrows l g Hl) as (_ & Hd & _ & Hps). cbv zeta in Hd, Hps.
  assert (spec_dissolved g (c_baro (formatted_row lab fdp sp l))
            (c_volGas (formatted_row lab fdp sp l))
            (c_volH2O (formatted_row lab fdp sp l))
            (c_headspaceTemp (formatted_row lab fdp sp l))
            (c_eq (formatted_row lab fdp sp l) g)
            (defaulted g (c_air (formatted_row lab fdp sp l) g)) = nan) as Hnan.
  { apply spec_dissolved_nan.
    destruct Hna as [Hna%isna_NaN|Hna%isna_NaN].
    - right. right. left.
      change (c_volH2O (formatted_row lab fdp sp l))
        with (num_of (key_cell fdp "waterVolumeSyringe" l)).
      by rewrite Hna.
    - right. left.
      change (c_volGas (formatted_row lab fdp sp l))
        with (num_of (key_cell fdp "gasVolumeSyringe" l)).
      by rewrite Hna. }
  rewrite Hnan in Hd, Hps. split; [done|].
  rewrite Hps. f_equal. apply spec_percSat_nan. by left.
Qed.

Lemma wrapper_missing_volume_witness :
  pipeline_tables externalLabData_example fieldDataProc_example
    fieldSuperParent_example ∧
  isna (key_cell fieldDataProc_example "waterVolumeSyringe" 0) = true ∧
  ∃ out, analysis_wrapper (H:=model_env) externalLabData_example fieldDataProc_example
           fieldSuperParent_example = Ok out ∧
    ∀ g, fcell out (dissolved_col g) 0 = Some nan ∧
         fcell out (percSat_col g) 0 = Some nan.
Proof.
  split; [exact pipeline_example|]. split; [reflexivity|].
  destruct (wrapper_missing_volume (H:=model_env) _ _ _ pipeline_example)
    as (out & Hrun & Hrows).
  exists out. split; [done|]. intros g.
  apply (Hrows 0 g); [simpl; lia|]. left. reflexivity.
Defined.


